(** * TalkStack: the WhatsApp chat-log parser

    A shallow embedding of
    [whatsapp-chat-analyzer/backend/parser/whatsapp_parser.py]:
    the three header regular expressions, the line loop of
    [parse_chat_file] with its counters and its pending continuation
    lines, and the pandas post-processing (timestamp conversion, dropping of
    unparsable rows, sorting).

    Python strings are sequences of Unicode code points, so a string is a
    list of code points here; the [re] module is modelled by a small
    backtracking matcher with greedy quantifiers and capture groups, which
    is what the three patterns of the parser need.  Calls to the logger
    are left out, except for the counters they report, which are returned
    next to the DataFrame; the explanations computed for the unmatched
    samples (lines 167-192) only feed the logger and are left out too. *)

From Stdlib Require Import String Ascii.
From Stdlib Require Import List Bool Arith NArith ZArith Lia.
From Stdlib Require Import Permutation Sorted.
Import ListNotations.
Local Open Scope list_scope.

(* ===================================================================== *)
(** ** Python strings *)
(* ===================================================================== *)

(** A code point and a [str]. *)
Definition char := N.
Definition str := list char.

(** An ASCII literal of the source as a [str] (one code point per byte). *)
Definition pystr (s : string) : str :=
  List.map N_of_ascii (list_ascii_of_string s).

Definition chr (a : ascii) : char := N_of_ascii a.

Arguments pystr s%_string.
Arguments chr a%_char.

Definition in_range (lo hi c : N) : bool := (N.leb lo c && N.leb c hi)%bool.

(** [str.isspace] for one character, which is also what [\s] matches in a
    [str] pattern: the code points CPython lists as whitespace. *)
Definition is_space (c : char) : bool :=
  (in_range 9 13 c || in_range 28 32 c || N.eqb c 133 || N.eqb c 160
   || N.eqb c 5760 || in_range 8192 8202 c || N.eqb c 8232 || N.eqb c 8233
   || N.eqb c 8239 || N.eqb c 8287 || N.eqb c 12288)%bool.

(** First code points of the blocks of ten decimal digits of the Unicode
    database (general category Nd, Unicode 15), ASCII first. *)
Definition decimal_blocks : list N :=
  [ 48; 1632; 1776; 1984; 2406; 2534; 2662; 2790; 2918; 3046; 3174; 3302;
    3430; 3558; 3664; 3792; 3872; 4160; 4240; 6112; 6160; 6470; 6608; 6784;
    6800; 6992; 7088; 7232; 7248; 42528; 43216; 43264; 43472; 43504; 43600;
    44016; 65296; 66720; 68912; 69734; 69872; 69942; 70096; 70384; 70736;
    70864; 71248; 71360; 71472; 71904; 72016; 72784; 73040; 73120; 73552;
    92768; 92864; 93008; 123200; 123632; 124144; 125264; 130032 ]%N.

(** [\d] in a [str] pattern: any Unicode decimal digit (the mathematical
    digits U+1D7CE..U+1D7FF form one run of fifty). *)
Definition is_digit (c : char) : bool :=
  (existsb (fun b => in_range b (b + 9) c) decimal_blocks
   || in_range 120782 120831 c)%bool.

(** [s.replace(old, new)] for a one-character [old]. *)
Definition replace (old : char) (new : str) (s : str) : str :=
  flat_map (fun c => if N.eqb c old then new else [c]) s.

Fixpoint lstrip (s : str) : str :=
  match s with
  | c :: s' => if is_space c then lstrip s' else s
  | [] => []
  end.

Definition rstrip (s : str) : str := rev (lstrip (rev s)).

(** [s.strip()] *)
Definition strip (s : str) : str := rstrip (lstrip s).

(** [s.startswith(p)] *)
Fixpoint startswith (p s : str) : bool :=
  match p, s with
  | [], _ => true
  | a :: p', b :: s' => (N.eqb a b && startswith p' s')%bool
  | _ :: _, [] => false
  end.

(** [needle in hay] *)
Fixpoint contains (needle hay : str) : bool :=
  (startswith needle hay ||
   match hay with
   | [] => false
   | _ :: hay' => contains needle hay'
   end)%bool.

(** [s.split(sep)] for a non-empty [sep]: a left-to-right scan that cuts at
    each occurrence of [sep] and resumes after it.  [skip] counts the
    characters of an occurrence still to be passed over; [cur] is the
    current part, last character first. *)
Fixpoint split_scan (sep : str) (skip : nat) (cur : str) (s : str) : list str :=
  match s with
  | [] => [rev cur]
  | c :: s' =>
      match skip with
      | S n => split_scan sep n cur s'
      | O =>
          if startswith sep s
          then rev cur :: split_scan sep (length sep - 1) [] s'
          else split_scan sep 0 (c :: cur) s'
      end
  end.

Definition split (sep s : str) : list str := split_scan sep 0 [] s.

(** [sep.join(parts)] *)
Fixpoint join (sep : str) (parts : list str) : str :=
  match parts with
  | [] => []
  | [p] => p
  | p :: rest => p ++ sep ++ join sep rest
  end.

(* ===================================================================== *)
(** ** The fragment of [re] the parser uses *)
(* ===================================================================== *)

(** Character tests, greedy bounded repetition of a character test
    (a character class followed by a quantifier), a greedy optional
    group, concatenation and numbered capture groups. *)
Inductive regex : Type :=
| Class (p : char -> bool)
| Repeat (p : char -> bool) (lo : nat) (hi : option nat)
| Maybe (r : regex)
| Seq (r1 r2 : regex)
| Group (i : nat) (r : regex).

(** The groups of a match object, most recently closed first. *)
Definition groups := list (nat * str).

Fixpoint group (m : groups) (i : nat) : str :=
  match m with
  | [] => []
  | (j, s) :: m' => if Nat.eqb i j then s else group m' i
  end.

(** Whether an upper bound [hi] still allows one more repetition. *)
Definition may_take (hi : option nat) : bool :=
  match hi with Some O => false | _ => true end.

Section Matcher.
Variable A : Type.

(** Greedy [p{lo,hi}] ([hi = None]: unbounded): take as many characters
    as allowed, then give them back one at a time until the rest of the
    pattern, the continuation [k], succeeds. *)
Fixpoint greedy (p : char -> bool) (lo : nat) (hi : option nat)
         (s : str) (k : str -> option A) : option A :=
  let stop := match lo with O => k s | S _ => None end in
  match s with
  | c :: s' =>
      if (p c && may_take hi)%bool
      then match greedy p (Nat.pred lo) (option_map Nat.pred hi) s' k with
           | Some a => Some a
           | None => stop
           end
      else stop
  | [] => stop
  end.

(** Backtracking search in the order of [re]: the first alternative that
    lets the whole pattern succeed wins. *)
Fixpoint exec (r : regex) (s : str) (m : groups)
         (k : str -> groups -> option A) : option A :=
  match r with
  | Class p =>
      match s with
      | c :: s' => if p c then k s' m else None
      | [] => None
      end
  | Repeat p lo hi => greedy p lo hi s (fun s' => k s' m)
  | Maybe r1 =>
      match exec r1 s m k with
      | Some a => Some a
      | None => k s m
      end
  | Seq r1 r2 => exec r1 s m (fun s' m' => exec r2 s' m' k)
  | Group i r1 =>
      exec r1 s m
           (fun s' m' => k s' ((i, firstn (length s - length s') s) :: m'))
  end.
End Matcher.
Arguments greedy {A} p lo hi s k.
Arguments exec {A} r s m k.

(** [pattern.match(s)]: anchored at the start of [s], not at its end. *)
Definition re_match (r : regex) (s : str) : option groups :=
  exec r s [] (fun _ m => Some m).

(** Pattern building blocks. *)
Definition lit (a : ascii) : regex := Class (N.eqb (chr a)).
Arguments lit a%_char.

(** A letter of the pattern under [re.IGNORECASE] (when [icase]) or not. *)
Definition letter (icase : bool) (upper lower : ascii) : char -> bool :=
  fun c => (N.eqb c (chr upper) || (icase && N.eqb c (chr lower)))%bool.
Arguments letter icase (upper lower)%_char.

Definition not_colon (c : char) : bool := negb (N.eqb c (chr ":")).

(** [.] without [re.DOTALL]: anything but a newline. *)
Definition dot (c : char) : bool := negb (N.eqb c 10).

Fixpoint seq_of (rs : list regex) (last : regex) : regex :=
  match rs with
  | [] => last
  | r :: rs' => Seq r (seq_of rs' last)
  end.

(** The timestamp part shared by the three patterns,
    "\d{1,2}/\d{1,2}/\d{2,4},\s*\d{1,2}:\d{2}(?::\d{2})?\s*(?:[AP]M)?". *)
Definition TIMESTAMP (icase : bool) : regex :=
  seq_of
    [ Repeat is_digit 1 (Some 2); lit "/";
      Repeat is_digit 1 (Some 2); lit "/";
      Repeat is_digit 2 (Some 4); lit ",";
      Repeat is_space 0 None;
      Repeat is_digit 1 (Some 2); lit ":";
      Repeat is_digit 2 (Some 2);
      Maybe (Seq (lit ":") (Repeat is_digit 2 (Some 2)));
      Repeat is_space 0 None ]
    (Maybe (Seq (Class (fun c => (letter icase "A" "a" c || letter icase "P" "p" c)%bool))
                (Class (letter icase "M" "m")))).

(** "\[(TIMESTAMP)\]\s([^:]+):\s?(BODY)" with ".*" for BODY, compiled with
    [re.IGNORECASE]. *)
Definition WHATSAPP_CHAT_REGEX : regex :=
  seq_of
    [ lit "["; Group 1 (TIMESTAMP true); lit "]"; Class is_space;
      Group 2 (Repeat not_colon 1 None); lit ":";
      Repeat is_space 0 (Some 1) ]
    (Group 3 (Repeat dot 0 None)).

(** "(TIMESTAMP)\s-\s([^:]+):\s?(BODY)" with ".*" for BODY, compiled with
    [re.IGNORECASE]. *)
Definition WHATSAPP_LEGACY_REGEX : regex :=
  seq_of
    [ Group 1 (TIMESTAMP true); Class is_space; lit "-"; Class is_space;
      Group 2 (Repeat not_colon 1 None); lit ":";
      Repeat is_space 0 (Some 1) ]
    (Group 3 (Repeat dot 0 None)).

(** "\[(TIMESTAMP)\]\s([^:]+):\s?(BODY)" with ".+" for BODY, compiled
    without flags. *)
Definition SYSTEM_MESSAGE_REGEX : regex :=
  seq_of
    [ lit "["; Group 1 (TIMESTAMP false); lit "]"; Class is_space;
      Group 2 (Repeat not_colon 1 None); lit ":";
      Repeat is_space 0 (Some 1) ]
    (Group 3 (Repeat dot 1 None)).

Definition MEDIA_OMITTED_MSG : str := pystr "<Media omitted>".
Definition FILE_ATTACHED : str := pystr "(file attached)".
Definition OPUS : str := pystr ".opus".
Definition SYSTEM : str := pystr "System".


(* ===================================================================== *)
(** ** Records, exceptions and the state of the line loop *)
(* ===================================================================== *)

(** The values of the ["message_type"] key. *)
Inductive msg_type : Type := text | media | voice_note | system.

(** One dictionary of [chat_data]. *)
Record record : Type := mkRecord {
  timestamp_str : str;
  sender : str;
  message : str;
  message_type : msg_type;
  media_filename : option str
}.

(** What a Python call can raise in [parse_chat_file]. *)
Inductive exn : Type :=
| IndexError            (* [chat_data[-1]] on an empty list *)
| DateParseError.       (* raised by [pd.to_datetime] *)

Inductive result (A : Type) : Type :=
| Ok (a : A)
| Raise (e : exn).
Arguments Ok {A} a.
Arguments Raise {A} e.

Definition bind {A B : Type} (c : result A) (f : A -> result B) : result B :=
  match c with
  | Ok a => f a
  | Raise e => Raise e
  end.

Notation "x <- c ;; k" := (bind c (fun x => k))
  (at level 61, c at next level, right associativity).

(** The local variables of [parse_chat_file] that live across lines. *)
Record state : Type := mkState {
  chat_data : list record;
  current_message_lines : list str;
  matched_count : nat;
  unmatched_count : nat;
  unmatched_samples : list str
}.

Definition initial : state := mkState [] [] 0 0 [].

(** [r['message'] = msg] *)
Definition with_message (r : record) (msg : str) : record :=
  mkRecord (timestamp_str r) (sender r) msg (message_type r) (media_filename r).

(** [chat_data[-1]['message'] += extra]; an empty list has no last
    element. *)
Fixpoint extend_last (extra : str) (cd : list record) : result (list record) :=
  match cd with
  | [] => Raise IndexError
  | [r] => Ok [with_message r (message r ++ extra)]
  | r :: cd' => cd'' <- extend_last extra cd' ;; Ok (r :: cd'')
  end.

(** Lines 99-101 and 133-135: a pending multi-line message is saved
    first. *)
Definition flush (st : state) : result state :=
  match current_message_lines st with
  | [] => Ok st
  | _ :: _ =>
      cd <- extend_last (join (pystr " ") (current_message_lines st))
                        (chat_data st) ;;
      Ok (mkState cd [] (matched_count st) (unmatched_count st)
                  (unmatched_samples st))
  end.

(** Lines 80-85: the narrow no-break space U+202F, the left-to-right mark
    U+200E and the line separator U+2028. *)
Definition normalize (line : str) : str :=
  replace 8232%N (pystr " ")
    (replace 8206%N [] (replace 8239%N (pystr " ") line)).

(** Lines 108-130: the dictionary built from a header match. *)
Definition header_record (m : groups) : record :=
  let timestamp_str := group m 1 in
  let sender := group m 2 in
  let message_text := strip (group m 3) in
  if contains MEDIA_OMITTED_MSG message_text then
    mkRecord timestamp_str sender [] media None
  else if contains FILE_ATTACHED message_text then
    let parts := split FILE_ATTACHED message_text in
    let media_filename := strip (hd [] parts) in
    mkRecord timestamp_str sender []
             (if contains OPUS media_filename then voice_note else media)
             (Some media_filename)
  else
    mkRecord timestamp_str sender message_text text None.

(** Lines 137-147: the dictionary built from a system match. *)
Definition system_record (m : groups) : record :=
  mkRecord (group m 1) SYSTEM (strip (group m 3)) system None.

(** Lines 87-91: the bracket format first, then the legacy format. *)
Definition header_match (normalized_line : str) : option groups :=
  match re_match WHATSAPP_CHAT_REGEX normalized_line with
  | Some m => Some m
  | None => re_match WHATSAPP_LEGACY_REGEX normalized_line
  end.

(** Line 94. *)
Definition system_match (normalized_line : str) : option groups :=
  match header_match normalized_line with
  | None => re_match SYSTEM_MESSAGE_REGEX normalized_line
  | Some _ => None
  end.

Definition push (r : record) (st : state) : state :=
  mkState (chat_data st ++ [r]) (current_message_lines st)
          (S (matched_count st)) (unmatched_count st) (unmatched_samples st).

(** The body of the loop over [lines] (lines 78-156). *)
Definition step (st : state) (line : str) : result state :=
  let normalized_line := normalize line in
  match header_match normalized_line with
  | Some m =>
      st' <- flush st ;; Ok (push (header_record m) st')
  | None =>
      match system_match normalized_line with
      | Some m =>
          st' <- flush st ;; Ok (push (system_record m) st')
      | None =>
          match chat_data st with
          | _ :: _ =>
              Ok (mkState (chat_data st)
                          (current_message_lines st ++ [strip normalized_line])
                          (matched_count st) (unmatched_count st)
                          (unmatched_samples st))
          | [] =>
              Ok (mkState (chat_data st) (current_message_lines st)
                          (matched_count st) (S (unmatched_count st))
                          (if Nat.ltb (length (unmatched_samples st)) 3
                           then unmatched_samples st ++ [strip normalized_line]
                           else unmatched_samples st))
          end
      end
  end.

Fixpoint loop (st : state) (lines : list str) : result state :=
  match lines with
  | [] => Ok st
  | line :: rest => st' <- step st line ;; loop st' rest
  end.

(** Lines 158-160: the last multi-line message. *)
Definition finish (st : state) : result state :=
  match current_message_lines st, chat_data st with
  | _ :: _, _ :: _ => flush st
  | _, _ => Ok st
  end.

(** Lines 59-160: the state after the last line. *)
Definition scan (lines : list str) : result state :=
  st <- loop initial lines ;; finish st.

(* ===================================================================== *)
(** ** The DataFrame part (lines 194-224) *)
(* ===================================================================== *)

(** pandas is not part of the repository.  Its three entry points used by
    the parser are taken as parameters:
    - [to_datetime col] is [pd.to_datetime(col, errors='coerce')] on the
      whole column; an entry that cannot be parsed comes back as NaT
      ([None]), and the call as a whole may raise, which line 208 catches;
    - [to_datetime_mixed col] is the same call with [format='mixed'];
    - [sort_values df] is [df.sort_values(by="timestamp")] with the default
      [kind]. *)
Record pandas : Type := mkPandas {
  to_datetime : list str -> result (list (option Z));
  to_datetime_mixed : list str -> result (list (option Z));
  sort_values : list (record * Z) -> list (record * Z)
}.

Definition by_timestamp (a b : record * Z) : Prop := (snd a <= snd b)%Z.

(** What the parser relies on: a converted column has one entry per input
    entry, and [sort_values] returns the same rows in non-decreasing order
    of the key.  The default [kind] of [sort_values] is ['quicksort'], for
    which pandas promises no more than that. *)
Record pandas_ok (pd : pandas) : Prop := mkPandasOk {
  to_datetime_length :
    forall col ts, to_datetime pd col = Ok ts -> length ts = length col;
  to_datetime_mixed_length :
    forall col ts, to_datetime_mixed pd col = Ok ts -> length ts = length col;
  sort_values_perm : forall df, Permutation (sort_values pd df) df;
  sort_values_sorted : forall df, Sorted by_timestamp (sort_values pd df)
}.

(** A row of the returned DataFrame: the columns selected on line 224. *)
Record row : Type := mkRow {
  timestamp : Z;
  col_sender : str;
  col_message : str;
  col_message_type : msg_type;
  col_media_filename : option str
}.

(** Lines 221 and 224: [timestamp_str] is dropped. *)
Definition select (x : record * Z) : row :=
  mkRow (snd x) (sender (fst x)) (message (fst x)) (message_type (fst x))
        (media_filename (fst x)).

(** What the logger is told: the counters of lines 163-164 and the number
    of timestamps that could not be parsed (line 213). *)
Record log : Type := mkLog {
  logged_matched : nat;
  logged_unmatched : nat;
  logged_samples : list str;
  null_timestamps : nat
}.

(** Lines 206-210. *)
Definition convert (pd : pandas) (col : list str) : result (list (option Z)) :=
  match to_datetime pd col with
  | Ok ts => Ok ts
  | Raise _ => to_datetime_mixed pd col
  end.

(** [df['timestamp'].isna().sum()] *)
Definition isna_sum (ts : list (option Z)) : nat :=
  length (filter (fun t => match t with None => true | Some _ => false end) ts).

(** [df.dropna(subset=['timestamp'])] *)
Fixpoint dropna (df : list (record * option Z)) : list (record * Z) :=
  match df with
  | [] => []
  | (r, Some t) :: df' => (r, t) :: dropna df'
  | (_, None) :: df' => dropna df'
  end.

(** [open(file_path).readlines()]: the lines, or [None] when opening or
    reading raises. *)
Definition filesystem := str -> option (list str).

Definition parse_chat_file (pd : pandas) (fs : filesystem) (file_path : str)
  : result (list row * log) :=
  match fs file_path with
  | None => Ok ([], mkLog 0 0 [] 0)
  | Some lines =>
      st <- scan lines ;;
      match chat_data st with
      | [] =>
          Ok ([], mkLog (matched_count st) (unmatched_count st)
                        (unmatched_samples st) 0)
      | _ :: _ =>
          ts <- convert pd (map timestamp_str (chat_data st)) ;;
          let df := combine (chat_data st) ts in
          let df := sort_values pd (dropna df) in
          Ok (map select df,
              mkLog (matched_count st) (unmatched_count st)
                    (unmatched_samples st) (isna_sum ts))
      end
  end.

(* ===================================================================== *)
(** ** A small pandas for running the parser on examples *)
(* ===================================================================== *)

Definition str_eqb (a b : str) : bool :=
  (Nat.eqb (length a) (length b) && startswith a b)%bool.

(** Stand-in for the timestamp conversion on the handful of timestamp texts
    used in the examples below, as seconds from the start of their day;
    every other text is NaT. *)
Definition sample_instant (s : str) : option Z :=
  if str_eqb s (pystr "01/02/2023, 09:15:00 AM") then Some 33300%Z
  else if str_eqb s (pystr "01/02/2023, 09:15:30 AM") then Some 33330%Z
  else if str_eqb s (pystr "01/02/2023, 09:15") then Some 33300%Z
  else if str_eqb s (pystr "01/02/2023, 09:16") then Some 33360%Z
  else None.

Fixpoint insert (x : record * Z) (l : list (record * Z)) : list (record * Z) :=
  match l with
  | [] => [x]
  | y :: l' => if (snd x <=? snd y)%Z then x :: l else y :: insert x l'
  end.

(** Insertion sort, which keeps rows of equal key in their order. *)
Fixpoint isort (l : list (record * Z)) : list (record * Z) :=
  match l with
  | [] => []
  | x :: l' => insert x (isort l')
  end.

Definition sample_pandas : pandas :=
  mkPandas (fun col => Ok (map sample_instant col))
           (fun col => Ok (map sample_instant col))
           isort.





(** The same as [sample_pandas], with a first conversion that raises. *)
Definition sample_pandas_fallback : pandas :=
  mkPandas (fun _ => Raise DateParseError)
           (fun col => Ok (map sample_instant col))
           isort.

(** A file system with one file. *)
Definition one_file (name : str) (lines : list str) : filesystem :=
  fun path => if str_eqb path name then Some lines else None.

Definition chat_txt : str := pystr "chat.txt".

(** Run the parser on a concrete input and hand its DataFrame and log to
    [tac]. *)
Ltac with_parse pd fs path tac :=
  let v := eval vm_compute in (parse_chat_file pd fs path) in
  lazymatch v with
  | Ok (?df, ?lg) => tac df lg
  end.

(** The file name's extension is [.opus]: [name.endswith(".opus")]. *)
Definition endswith (suffix s : str) : bool := startswith (rev suffix) (rev s).

(** Everything of a dictionary but its ["message"]. *)
Definition frame (r : record) : str * str * msg_type * option str :=
  (timestamp_str r, sender r, message_type r, media_filename r).

(** A line that opens a record: a header or a system notice. *)
Definition is_header (line : str) : bool :=
  match header_match (normalize line), system_match (normalize line) with
  | None, None => false
  | _, _ => true
  end.

Definition header_lines (lines : list str) : nat :=
  length (filter is_header lines).

(** The lines before the first header: no record is open yet. *)
Fixpoint orphan_lines (lines : list str) : nat :=
  match lines with
  | [] => 0
  | line :: rest => if is_header line then 0 else S (orphan_lines rest)
  end.

(** The lines that are not headers and arrive while a record is open
    ([opened]: whether one is open before the first of [lines]). *)
Fixpoint continuation_lines (opened : bool) (lines : list str) : nat :=
  match lines with
  | [] => 0
  | line :: rest =>
      if is_header line then continuation_lines true rest
      else (if opened then 1 else 0) + continuation_lines opened rest
  end.

(** The lines with something other than whitespace on them. *)
Definition nonempty_lines (lines : list str) : nat :=
  length (filter (fun line => match strip line with [] => false | _ => true end)
                 lines).

Definition is_open (st : state) : bool :=
  match chat_data st with [] => false | _ :: _ => true end.

(** Pending continuation lines belong to a record. *)
Definition pending_has_record (st : state) : Prop :=
  current_message_lines st <> [] -> chat_data st <> [].

(** [narrower r r']: [r'] is [r] with character tests and repetition bounds
    relaxed. *)
Definition bound_le (hi hi' : option nat) : Prop :=
  match hi', hi with
  | None, _ => True
  | Some b', Some b => b <= b'
  | Some _, None => False
  end.

Inductive narrower : regex -> regex -> Prop :=
| narrower_class p q :
    (forall c, p c = true -> q c = true) -> narrower (Class p) (Class q)
| narrower_repeat p q lo lo' hi hi' :
    (forall c, p c = true -> q c = true) -> lo' <= lo -> bound_le hi hi' ->
    narrower (Repeat p lo hi) (Repeat q lo' hi')
| narrower_maybe r r' : narrower r r' -> narrower (Maybe r) (Maybe r')
| narrower_seq r1 r1' r2 r2' :
    narrower r1 r1' -> narrower r2 r2' -> narrower (Seq r1 r2) (Seq r1' r2')
| narrower_group i r r' : narrower r r' -> narrower (Group i r) (Group i r').

(* ===================================================================== *)
(** ** What a pattern matches *)
(* ===================================================================== *)

(** [n] repetitions are allowed by the upper bound [hi]. *)
Definition within (hi : option nat) (n : nat) : Prop :=
  match hi with
  | None => True
  | Some b => n <= b
  end.

(** [matches r w m m']: the pattern [r] matches exactly the text [w], and
    the groups [m] known before become [m'].  This is the relation the
    backtracking search [exec] explores. *)
Inductive matches : regex -> str -> groups -> groups -> Prop :=
| matches_class p c m :
    p c = true -> matches (Class p) [c] m m
| matches_repeat p lo hi w m :
    forallb p w = true -> lo <= length w -> within hi (length w) ->
    matches (Repeat p lo hi) w m m
| matches_maybe_some r w m m' :
    matches r w m m' -> matches (Maybe r) w m m'
| matches_maybe_none r m :
    matches (Maybe r) [] m m
| matches_seq r1 r2 w1 w2 m m1 m2 :
    matches r1 w1 m m1 -> matches r2 w2 m1 m2 ->
    matches (Seq r1 r2) (w1 ++ w2) m m2
| matches_group i r w m m' :
    matches r w m m' -> matches (Group i r) w m ((i, w) :: m').

(** The characters a captured timestamp text can be made of. *)
Definition timestamp_char (c : char) : bool :=
  (is_digit c || is_space c
   || N.eqb c (chr "/") || N.eqb c (chr ",") || N.eqb c (chr ":")
   || letter true "A" "a" c || letter true "P" "p" c || letter true "M" "m" c)%bool.

(* ===================================================================== *)
(** ** Auxiliary notions for the line loop *)
(* ===================================================================== *)

(** The text kept of an unmatched line (line 156) and of a continuation
    line (line 151). *)
Definition stripped (line : str) : str := strip (normalize line).

(** [a] is [b] with the records [pre] in front: same pending lines, and a
    record open in both. *)
Definition ahead_of (pre : list record) (a b : state) : Prop :=
  chat_data a = pre ++ chat_data b
  /\ chat_data b <> []
  /\ current_message_lines a = current_message_lines b.

(** The media filename and the message type of a record agree: a filename
    comes with [voice_note] when it contains ".opus" and with [media] when
    it does not, a voice note has a filename, and a text has none. *)
Definition media_consistent (ty : msg_type) (name : option str) : Prop :=
  (forall f, name = Some f ->
             (ty = voice_note /\ contains OPUS f = true)
             \/ (ty = media /\ contains OPUS f = false))
  /\ (ty = voice_note -> exists f, name = Some f)
  /\ (ty = text -> name = None)
  /\ (ty = system -> name = None).

(* ===================================================================== *)
(** ** Voice notes: [media/audio_transcription.py] *)
(* ===================================================================== *)

(** Exceptions as the callers of the parser tell them apart: FastAPI's
    [HTTPException], the built-in exceptions that some handler names or
    that the code raises itself, and any other exception, each with its
    text. *)
Inductive py_error : Type :=
| HTTPException (status_code : nat) (detail : str)
| FileNotFoundError (msg : str)
| ImportError (msg : str)
| ValueError (msg : str)
| RuntimeError (msg : str)
| OtherError (msg : str).

Inductive outcome (A : Type) : Type :=
| Return (a : A)
| Throw (e : py_error).
Arguments Return {A} a.
Arguments Throw {A} e.

(** whisper is not part of the repository.  The module sees whether its
    import succeeded (lines 10-17), what [whisper.load_model("base")]
    does, and, for the file at a path, the text [result["text"]] of its
    transcription or an exception; [now] is [pd.Timestamp.now()]. *)
Record whisper : Type := mkWhisper {
  WHISPER_AVAILABLE : bool;
  load_model : outcome unit;
  transcribe : str -> outcome str;
  now : Z
}.

(** The message of lines 45. *)
Definition WHISPER_MISSING : str :=
  pystr "Voice note transcription was enabled, but the 'openai-whisper' package is not installed. Please install it to use this feature.".

(** [name.endswith(('.opus', '.ogg', '.mp3', '.m4a'))] *)
Definition AUDIO_SUFFIXES : list str :=
  [pystr ".opus"; pystr ".ogg"; pystr ".mp3"; pystr ".m4a"].

Definition is_audio_name (name : str) : bool :=
  existsb (fun suffix => endswith suffix name) AUDIO_SUFFIXES.

(** [df[df["media_filename"] == audio_filename]]: a missing filename
    equals no name. *)
Definition has_media_filename (name : str) (x : row) : bool :=
  match col_media_filename x with
  | Some f => str_eqb f name
  | None => false
  end.

(** The body of the loop of lines 63-99 for one audio file: nothing when
    no row refers to the file, otherwise one dictionary with the timestamp
    and sender of the first such row. *)
Definition transcription_of (w : whisper) (df : list row) (file : str * str)
  : list row :=
  let (audio_path, audio_filename) := file in
  match filter (has_media_filename audio_filename) df with
  | [] => []
  | reference :: _ =>
      match transcribe w audio_path with
      | Return transcribed_text =>
          [mkRow (timestamp reference) (col_sender reference)
                 (pystr "[Transcribed Voice Note]: " ++ transcribed_text)
                 text None]
      | Throw _ =>
          [mkRow (timestamp reference) (col_sender reference)
                 (pystr "[Error transcribing voice note: " ++ audio_filename
                  ++ pystr "]")
                 system (Some audio_filename)]
      end
  end.

(** Lines 19-104; [df] has the columns of the parser's DataFrame. *)
Definition transcribe_audio_files (w : whisper)
           (media_files : list (str * str)) (df : list row)
  : outcome (list row) :=
  if negb (WHISPER_AVAILABLE w) then
    Return [mkRow (now w) SYSTEM WHISPER_MISSING system None]
  else
    match load_model w with
    | Throw e => Throw e
    | Return _ =>
        let audio_files :=
          filter (fun file => is_audio_name (snd file)) media_files in
        Return (flat_map (transcription_of w df) audio_files)
    end.

Definition is_voice_note (x : row) : bool :=
  match col_message_type x with
  | voice_note => true
  | _ => false
  end.

(** Lines 106-133.  [sort_rows] is [sort_values(by="timestamp")] on a
    DataFrame with the five columns of a row. *)
Definition merge_transcriptions_into_chat
           (sort_rows : list row -> list row)
           (df transcriptions : list row) : list row :=
  match transcriptions with
  | [] => df
  | _ :: _ =>
      let df_no_voice_notes := filter (fun x => negb (is_voice_note x)) df in
      sort_rows (df_no_voice_notes ++ transcriptions)
  end.

Definition rows_by_timestamp (a b : row) : Prop :=
  (timestamp a <= timestamp b)%Z.

(** What is relied on of [sort_values]: the same rows, in non-decreasing
    order of timestamp. *)
Record sort_rows_ok (sort_rows : list row -> list row) : Prop := mkSortRowsOk {
  sort_rows_perm : forall df, Permutation (sort_rows df) df;
  sort_rows_sorted : forall df, Sorted rows_by_timestamp (sort_rows df)
}.

Fixpoint insert_row (x : row) (l : list row) : list row :=
  match l with
  | [] => [x]
  | y :: l' =>
      if (timestamp x <=? timestamp y)%Z then x :: l else y :: insert_row x l'
  end.

(** Insertion sort of rows, for the examples. *)
Fixpoint isort_rows (l : list row) : list row :=
  match l with
  | [] => []
  | x :: l' => insert_row x (isort_rows l')
  end.

(** A whisper that transcribes one file and fails on every other. *)
Definition sample_whisper : whisper :=
  mkWhisper true (Return tt)
            (fun path => if str_eqb path (pystr "/tmp/x/PTT-001.opus")
                         then Return (pystr " hello there")
                         else Throw (OtherError (pystr "cannot decode")))
            99999.

(** No whisper installed. *)
Definition no_whisper : whisper :=
  mkWhisper false (Throw (OtherError (pystr "unreachable")))
            (fun _ => Throw (OtherError (pystr "unreachable"))) 99999.

(** A chat with a voice note, an audio attachment that is not in opus and
    a text. *)
Definition sample_chat : list row :=
  [ mkRow 100 (pystr "Alice") [] voice_note (Some (pystr "PTT-001.opus"));
    mkRow 200 (pystr "Bob") [] media (Some (pystr "AUD-002.m4a"));
    mkRow 300 (pystr "Alice") (pystr "hi") text None;
    mkRow 400 (pystr "Bob") [] voice_note (Some (pystr "PTT-003.opus")) ].

Definition sample_media_files : list (str * str) :=
  [ (pystr "/tmp/x/PTT-001.opus", pystr "PTT-001.opus");
    (pystr "/tmp/x/AUD-002.m4a", pystr "AUD-002.m4a");
    (pystr "/tmp/x/IMG-004.jpg", pystr "IMG-004.jpg") ].

(* ===================================================================== *)
(** ** Finding the chat file: [utils/file_utils.py] *)
(* ===================================================================== *)

(** What the module uses of Python and of the operating system:
    [str.lower], [os.path.join], and [os.walk], which lists the
    directories under a path in the order of the walk, each with the names
    of its files. *)
Record os : Type := mkOs {
  lower : str -> str;
  path_join : str -> str -> str;
  os_walk : str -> list (str * list str)
}.

Definition NO_TXT_FILE : str :=
  pystr "Could not find any '.txt' chat file in the provided ZIP file.".

(** [file.lower().endswith(".txt")] *)
Definition is_txt (o : os) (file : str) : bool :=
  endswith (pystr ".txt") (lower o file).

(** ["chat" in file.lower()] *)
Definition names_chat (o : os) (file : str) : bool :=
  contains (pystr "chat") (lower o file).

(** Lines 57-66: the body of the inner loop, on the two lists
    [txt_files] and [chat_txt_files]. *)
Definition visit_file (o : os) (root : str)
           (found : list str * list str) (file : str) : list str * list str :=
  let (txt_files, chat_txt_files) := found in
  if is_txt o file then
    let full_path := path_join o root file in
    (txt_files ++ [full_path],
     if names_chat o file then chat_txt_files ++ [full_path]
     else chat_txt_files)
  else found.

Definition visit_directory (o : os) (found : list str * list str)
           (entry : str * list str) : list str * list str :=
  fold_left (visit_file o (fst entry)) (snd entry) found.

(** Lines 35-80. *)
Definition find_chat_file (o : os) (temp_dir_path : str) : outcome str :=
  let (txt_files, chat_txt_files) :=
    fold_left (visit_directory o) (os_walk o temp_dir_path) ([], []) in
  match chat_txt_files with
  | selected_file :: _ => Return selected_file
  | [] =>
      match txt_files with
      | selected_file :: _ => Return selected_file
      | [] => Throw (FileNotFoundError NO_TXT_FILE)
      end
  end.

(** Lines 82-96: the pairs the generator yields, in order. *)
Definition find_media_files (o : os) (temp_dir_path : str) : list (str * str) :=
  flat_map
    (fun entry =>
       flat_map (fun file =>
                   if negb (is_txt o file)
                   then [(path_join o (fst entry) file, file)]
                   else [])
                (snd entry))
    (os_walk o temp_dir_path).

(** The files met by the walk, each with its directory, in order. *)
Definition walked_files (o : os) (temp_dir_path : str) : list (str * str) :=
  flat_map (fun entry => map (fun file => (fst entry, file)) (snd entry))
           (os_walk o temp_dir_path).

(** The paths of the text files among [files], and of those that mention
    the chat. *)
Definition txt_paths (o : os) (files : list (str * str)) : list str :=
  map (fun rf => path_join o (fst rf) (snd rf))
      (filter (fun rf => is_txt o (snd rf)) files).

Definition chat_paths (o : os) (files : list (str * str)) : list str :=
  map (fun rf => path_join o (fst rf) (snd rf))
      (filter (fun rf => (is_txt o (snd rf) && names_chat o (snd rf))%bool) files).

(** ASCII letters to lower case; enough of [str.lower] for the examples. *)
Definition ascii_lower (s : str) : str :=
  map (fun c => if in_range 65 90 c then (c + 32)%N else c) s.

(** An archive with a text file, the chat and a voice note. *)
Definition sample_os : os :=
  mkOs ascii_lower
       (fun root file => root ++ pystr "/" ++ file)
       (fun _ => [ (pystr "/tmp/x", [pystr "notes.txt"; pystr "PTT-001.opus"]);
                   (pystr "/tmp/x/sub", [pystr "WhatsApp Chat.TXT"]) ]).

(* ===================================================================== *)
(** ** The LLM client and the insights: [llm/llm_client.py],
       [insights/insight_engine.py] *)
(* ===================================================================== *)

Definition and_then {A B : Type} (c : outcome A) (f : A -> outcome B)
  : outcome B :=
  match c with
  | Return a => f a
  | Throw e => Throw e
  end.

Notation "x <~ c ;; k" := (and_then c (fun x => k))
  (at level 61, c at next level, right associativity).

(** The truth value of an optional string: [None] and the empty string
    are false. *)
Definition truthy (x : option str) : bool :=
  match x with
  | Some (_ :: _) => true
  | _ => false
  end.

Section Llm.
(** What an SDK hands back for a configured client. *)
Variable Handle : Type.

(** The three SDKs are not part of the repository.  The module sees
    whether each import succeeded (lines 5-21), what building a client
    from [api_key_or_url] does, and what a generation request for a
    prompt answers: the text that the method returns, or an exception. *)
Record sdks : Type := mkSdks {
  GOOGLE_AVAILABLE : bool;
  OPENAI_AVAILABLE : bool;
  OLLAMA_AVAILABLE : bool;
  gemini_model : option str -> outcome Handle;
  openai_client : option str -> outcome Handle;
  ollama_client : option str -> outcome Handle;
  gemini_generate : Handle -> str -> outcome str;
  openai_generate : Handle -> str -> outcome str;
  ollama_generate : Handle -> str -> outcome str
}.

Record LLMClient : Type := mkLLMClient {
  provider : str;
  api_key_or_url : option str;
  _client : Handle
}.

Variable s : sdks.
(** [str(e)] *)
Variable error_text : py_error -> str.

Definition GEMINI : str := pystr "gemini".
Definition OPENAI : str := pystr "openai".
Definition OLLAMA : str := pystr "ollama".

(** Lines 31-54. *)
Definition _initialize_client (provider : str) (api_key_or_url : option str)
  : outcome Handle :=
  if str_eqb provider GEMINI then
    if negb (GOOGLE_AVAILABLE s) then
      Throw (ImportError (pystr
        "Google Generative AI SDK not found. Please `pip install google-generativeai`"))
    else if negb (truthy api_key_or_url) then
      Throw (ValueError (pystr "API key is required for Gemini."))
    else gemini_model s api_key_or_url
  else if str_eqb provider OPENAI then
    if negb (OPENAI_AVAILABLE s) then
      Throw (ImportError (pystr
        "OpenAI SDK not found. Please `pip install openai`"))
    else if negb (truthy api_key_or_url) then
      Throw (ValueError (pystr "API key is required for OpenAI."))
    else openai_client s api_key_or_url
  else if str_eqb provider OLLAMA then
    if negb (OLLAMA_AVAILABLE s) then
      Throw (ImportError (pystr
        "Ollama SDK not found. Please `pip install ollama`"))
    else ollama_client s api_key_or_url
  else Throw (ValueError (pystr "Unsupported LLM provider: " ++ provider)).

(** Lines 26-29: [LLMClient(provider, api_key_or_url)]. *)
Definition LLMClient_init (provider : str) (api_key_or_url : option str)
  : outcome LLMClient :=
  client <~ _initialize_client provider api_key_or_url ;;
  Return (mkLLMClient provider api_key_or_url client).

(** Lines 56-79.  When [self.provider] is none of the three names, no
    branch of the [try] returns and the method answers [None]. *)
Definition generate_insight (self : LLMClient) (prompt : str)
  : outcome (option str) :=
  let attempt :=
    if str_eqb (provider self) GEMINI then
      text <~ gemini_generate s (_client self) prompt ;; Return (Some text)
    else if str_eqb (provider self) OPENAI then
      text <~ openai_generate s (_client self) prompt ;; Return (Some text)
    else if str_eqb (provider self) OLLAMA then
      text <~ ollama_generate s (_client self) prompt ;; Return (Some text)
    else Return None in
  match attempt with
  | Return answer => Return answer
  | Throw e =>
      Throw (RuntimeError (pystr "Failed to generate insight from "
                           ++ provider self ++ pystr ": " ++ error_text e))
  end.

(** Lines 81-97. *)
Definition get_llm_client (provider : option str)
           (api_key_or_url : option str) (strict : bool)
  : outcome (option LLMClient) :=
  match provider with
  | None | Some [] =>
      if strict then
        Throw (ValueError (pystr "LLM Provider was not specified."))
      else Return None
  | Some provider =>
      match LLMClient_init provider api_key_or_url with
      | Return client => Return (Some client)
      | Throw (ImportError msg) =>
          if strict then Throw (ImportError msg) else Return None
      | Throw (ValueError msg) =>
          if strict then Throw (ValueError msg) else Return None
      | Throw e => Throw e
      end
  end.

(** The requested provider is one the client knows, its SDK was imported
    and, where one is required, a key was given. *)
Definition configured (provider : str) (api_key_or_url : option str) : Prop :=
  (provider = GEMINI /\ GOOGLE_AVAILABLE s = true
   /\ truthy api_key_or_url = true)
  \/ (provider = OPENAI /\ OPENAI_AVAILABLE s = true
      /\ truthy api_key_or_url = true)
  \/ (provider = OLLAMA /\ OLLAMA_AVAILABLE s = true).

Section Insights.
(** The three dictionaries of the analytics modules are opaque here;
    [generate_prompt] (lines 6-72) formats them and may raise,
    [generate_mock_summary] (lines 98-229) builds its text under a
    handler for every exception. *)
Variables BasicStats TemporalStats LinguisticStats : Type.
Variable generate_prompt :
  BasicStats -> TemporalStats -> LinguisticStats -> outcome str.
Variable generate_mock_summary :
  BasicStats -> TemporalStats -> LinguisticStats -> str.

Definition AI_ERROR : str :=
  pystr "An error occurred while generating AI insights: ".

(** [insight_engine.py], lines 74-96. *)
Definition get_insights (b : BasicStats) (t : TemporalStats)
           (l : LinguisticStats) (llm_client : option LLMClient)
  : option str :=
  match llm_client with
  | Some client =>
      match (prompt <~ generate_prompt b t l ;;
             generate_insight client prompt) with
      | Return insight => insight
      | Throw e => Some (AI_ERROR ++ error_text e)
      end
  | None => Some (generate_mock_summary b t l)
  end.
End Insights.
End Llm.

Arguments mkLLMClient {Handle}.
Arguments provider {Handle}.
Arguments api_key_or_url {Handle}.
Arguments _client {Handle}.
Arguments GOOGLE_AVAILABLE {Handle}.
Arguments OPENAI_AVAILABLE {Handle}.
Arguments OLLAMA_AVAILABLE {Handle}.
Arguments gemini_model {Handle}.
Arguments openai_client {Handle}.
Arguments ollama_client {Handle}.
Arguments gemini_generate {Handle}.
Arguments openai_generate {Handle}.
Arguments ollama_generate {Handle}.
Arguments _initialize_client {Handle}.
Arguments LLMClient_init {Handle}.
Arguments generate_insight {Handle}.
Arguments get_llm_client {Handle}.
Arguments configured {Handle}.
Arguments get_insights {Handle} s error_text {BasicStats TemporalStats LinguisticStats}.

(* ===================================================================== *)
(** ** The upload endpoint: [api/routes.py] *)
(* ===================================================================== *)

Section Upload.
Variables BasicStats TemporalStats LinguisticStats Handle : Type.

(** The model of the response, [AnalysisResult] of [api/schemas.py]; a
    transcription is listed with its timestamp in ISO format. *)
Record AnalysisResult : Type := mkAnalysisResult {
  basic_stats : BasicStats;
  temporal_stats : TemporalStats;
  linguistic_stats : LinguisticStats;
  transcriptions : option (list (str * row));
  insights : option str
}.

(** What the endpoint calls outside the parser, the file utilities, the
    transcription and the LLM client: the uploaded file, the archive
    extraction (which answers the name of the temporary directory), the
    analytics, the two formatters of the insight engine, the validation
    done when the response model is built, the removal of the temporary
    directory, and the texts of timestamps and exceptions. *)
Record collaborators : Type := mkCollaborators {
  file_read : outcome str;
  extract_zip : str -> outcome str;
  calculate_basic_stats : list row -> outcome BasicStats;
  calculate_temporal_stats : list row -> outcome TemporalStats;
  calculate_linguistic_stats : list row -> outcome LinguisticStats;
  generate_prompt :
    BasicStats -> TemporalStats -> LinguisticStats -> outcome str;
  generate_mock_summary :
    BasicStats -> TemporalStats -> LinguisticStats -> str;
  validate : AnalysisResult -> outcome AnalysisResult;
  cleanup : str -> outcome unit;
  isoformat : Z -> str;
  error_text : py_error -> str;
  exn_text : exn -> str
}.

Variable c : collaborators.
Variable pd : pandas.
Variable fs : filesystem.
Variable o : os.
Variable w : whisper.
Variable s : sdks Handle.
Variable sort_rows : list row -> list row.

(** [df = parse_chat_file(chat_file_path)] as seen from the endpoint. *)
Definition call_parser (chat_file_path : str) : outcome (list row) :=
  match parse_chat_file pd fs chat_file_path with
  | Ok (df, _) => Return df
  | Raise e => Throw (OtherError (exn_text c e))
  end.

Definition COULD_NOT_PARSE : str :=
  pystr "Could not parse chat file or file is empty.".
Definition INVALID_FILE_TYPE : str :=
  pystr "Invalid file type. Please upload a ZIP file.".
Definition UNEXPECTED : str := pystr "An unexpected error occurred: ".
Definition AI_FAILED : str :=
  pystr "AI insights were enabled, but an error occurred:" ++ [10; 10]%N.

(** Lines 94-108. *)
Definition insights_step (enable_ai_insights : bool)
           (llm_provider llm_api_key_or_url : option str)
           (b : BasicStats) (t : TemporalStats) (l : LinguisticStats)
  : option str :=
  let insights_of :=
    get_insights s (error_text c) (generate_prompt c)
                 (generate_mock_summary c) b t l in
  if enable_ai_insights then
    match get_llm_client s llm_provider llm_api_key_or_url true with
    | Return llm_client => insights_of llm_client
    | Throw e => Some (AI_FAILED ++ error_text c e)
    end
  else insights_of None.

(** Lines 46-125: the body of the [try]. *)
Definition upload_try (zip_content : str)
           (enable_transcription enable_ai_insights : bool)
           (llm_provider llm_api_key_or_url : option str)
  : outcome AnalysisResult :=
  temp_dir <~ extract_zip c zip_content ;;
  chat_file_path <~ find_chat_file o temp_dir ;;
  df <~ call_parser chat_file_path ;;
  match df with
  | [] => Throw (HTTPException 400 COULD_NOT_PARSE)
  | _ :: _ =>
      merged <~
        (if enable_transcription then
           let media_files := find_media_files o temp_dir in
           transcriptions <~ transcribe_audio_files w media_files df ;;
           Return (merge_transcriptions_into_chat sort_rows df transcriptions,
                   Some (map (fun t => (isoformat c (timestamp t), t))
                             transcriptions))
         else Return (df, None)) ;;
      b <~ calculate_basic_stats c (fst merged) ;;
      t <~ calculate_temporal_stats c (fst merged) ;;
      l <~ calculate_linguistic_stats c (fst merged) ;;
      let insights_result :=
        insights_step enable_ai_insights llm_provider llm_api_key_or_url
                      b t l in
      _ <~ cleanup c temp_dir ;;
      validate c (mkAnalysisResult b t l (snd merged) insights_result)
  end.

(** Lines 127-133: the two handlers of the [try]. *)
Definition upload_except {A : Type} (body : outcome A) : outcome A :=
  match body with
  | Return a => Return a
  | Throw (FileNotFoundError msg) =>
      Throw (HTTPException 404 (error_text c (FileNotFoundError msg)))
  | Throw e => Throw (HTTPException 500 (UNEXPECTED ++ error_text c e))
  end.

(** Lines 21-133; [filename] is [file.filename], taken to be a string. *)
Definition upload_chat_and_analyze (filename : str)
           (enable_transcription enable_ai_insights : bool)
           (llm_provider llm_api_key_or_url : option str)
  : outcome AnalysisResult :=
  if negb (endswith (pystr ".zip") filename) then
    Throw (HTTPException 400 INVALID_FILE_TYPE)
  else
    zip_content <~ file_read c ;;
    upload_except
      (upload_try zip_content enable_transcription enable_ai_insights
                  llm_provider llm_api_key_or_url).
End Upload.

Arguments mkAnalysisResult {BasicStats TemporalStats LinguisticStats}.
Arguments basic_stats {BasicStats TemporalStats LinguisticStats}.
Arguments temporal_stats {BasicStats TemporalStats LinguisticStats}.
Arguments linguistic_stats {BasicStats TemporalStats LinguisticStats}.
Arguments transcriptions {BasicStats TemporalStats LinguisticStats}.
Arguments insights {BasicStats TemporalStats LinguisticStats}.
Arguments file_read {BasicStats TemporalStats LinguisticStats}.
Arguments extract_zip {BasicStats TemporalStats LinguisticStats}.
Arguments calculate_basic_stats {BasicStats TemporalStats LinguisticStats}.
Arguments calculate_temporal_stats {BasicStats TemporalStats LinguisticStats}.
Arguments calculate_linguistic_stats {BasicStats TemporalStats LinguisticStats}.
Arguments generate_prompt {BasicStats TemporalStats LinguisticStats}.
Arguments generate_mock_summary {BasicStats TemporalStats LinguisticStats}.
Arguments validate {BasicStats TemporalStats LinguisticStats}.
Arguments cleanup {BasicStats TemporalStats LinguisticStats}.
Arguments isoformat {BasicStats TemporalStats LinguisticStats}.
Arguments error_text {BasicStats TemporalStats LinguisticStats}.
Arguments exn_text {BasicStats TemporalStats LinguisticStats}.
Arguments call_parser {BasicStats TemporalStats LinguisticStats}.
Arguments insights_step {BasicStats TemporalStats LinguisticStats Handle}.
Arguments upload_try {BasicStats TemporalStats LinguisticStats Handle}.
Arguments upload_except {BasicStats TemporalStats LinguisticStats}.
Arguments upload_chat_and_analyze {BasicStats TemporalStats LinguisticStats Handle}.

(** A natural number in decimal. *)
Fixpoint decimal_digits (fuel n : nat) (acc : str) : str :=
  match fuel with
  | 0 => acc
  | S fuel' =>
      let acc' := N.of_nat (48 + Nat.modulo n 10) :: acc in
      if Nat.eqb (Nat.div n 10) 0 then acc'
      else decimal_digits fuel' (Nat.div n 10) acc'
  end.

Definition decimal (n : nat) : str := decimal_digits (S n) n [].

(** [str(e)] for the exceptions of the examples: the message of a
    built-in exception raised with a single argument, and the status code
    followed by the detail for an [HTTPException]. *)
Definition sample_error_text (e : py_error) : str :=
  match e with
  | HTTPException status detail => decimal status ++ pystr ": " ++ detail
  | FileNotFoundError msg => msg
  | ImportError msg => msg
  | ValueError msg => msg
  | RuntimeError msg => msg
  | OtherError msg => msg
  end.

(** Only the Ollama SDK is installed; its client is built from any URL
    and every generation request fails. *)
Definition sample_sdks : sdks unit :=
  mkSdks unit false false true
         (fun _ => Throw (OtherError (pystr "unreachable")))
         (fun _ => Throw (OtherError (pystr "unreachable")))
         (fun _ => Return tt)
         (fun _ _ => Throw (OtherError (pystr "unreachable")))
         (fun _ _ => Throw (OtherError (pystr "unreachable")))
         (fun _ _ => Throw (OtherError (pystr "connection refused"))).

(** Collaborators for the examples: the statistics are row counts. *)
Definition sample_collaborators : collaborators nat nat nat :=
  mkCollaborators nat nat nat
    (Return (pystr "PK..."))
    (fun _ => Return (pystr "/tmp/x"))
    (fun df => Return (length df))
    (fun df => Return (length df))
    (fun df => Return (length df))
    (fun _ _ _ => Return (pystr "prompt"))
    (fun _ _ _ => pystr "summary")
    (fun r => Return r)
    (fun _ => Return tt)
    (fun _ => pystr "1970-01-01T00:00:00")
    sample_error_text
    (fun _ => pystr "error").

(** An archive without any text file. *)
Definition os_without_txt : os :=
  mkOs ascii_lower
       (fun root file => root ++ pystr "/" ++ file)
       (fun _ => [ (pystr "/tmp/x", [pystr "PTT-001.opus"; pystr "IMG-004.jpg"]) ]).

(** The chat file of [sample_os], first without and then with a header
    line. *)
Definition fs_without_header : filesystem :=
  one_file (pystr "/tmp/x/sub/WhatsApp Chat.TXT") [pystr "nothing to see"].

Definition fs_with_header : filesystem :=
  one_file (pystr "/tmp/x/sub/WhatsApp Chat.TXT")
           [pystr "[01/02/2023, 09:15] Alice: hello"].

(* ===================================================================== *)
(** ** Basic statistics: [analytics/basic_stats.py] *)
(* ===================================================================== *)

Module analytics.

(** [s.split()]: the maximal runs of characters that are not whitespace;
    [cur] is the run being read. *)
Fixpoint split_whitespace (cur : str) (s : str) : list str :=
  match s with
  | [] => match cur with [] => [] | _ :: _ => [cur] end
  | c :: s' =>
      if is_space c then
        match cur with
        | [] => split_whitespace [] s'
        | _ :: _ => cur :: split_whitespace [] s'
        end
      else split_whitespace (cur ++ [c]) s'
  end.

(** Line 32: [len(s.split())]. *)
Definition word_count (x : row) : nat :=
  length (split_whitespace [] (col_message x)).

(** Line 27: [df[df["sender"] != "System"]]. *)
Definition user_rows (df : list row) : list row :=
  filter (fun x => negb (str_eqb (col_sender x) SYSTEM)) df.

(** The distinct values of a column, each once. *)
Fixpoint unique (l : list str) : list str :=
  match l with
  | [] => []
  | k :: l' => k :: filter (fun k' => negb (str_eqb k' k)) (unique l')
  end.

(** [a <= b] on texts: by code point, a proper prefix first. *)
Fixpoint str_leb (a b : str) : bool :=
  match a, b with
  | [], _ => true
  | _ :: _, [] => false
  | x :: a', y :: b' =>
      if N.ltb x y then true
      else if N.eqb x y then str_leb a' b'
      else false
  end.

Fixpoint insert_key (k : str) (l : list str) : list str :=
  match l with
  | [] => [k]
  | k' :: l' => if str_leb k k' then k :: l else k' :: insert_key k l'
  end.

(** The group keys of [groupby("sender")], which sorts them. *)
Fixpoint sort_keys (l : list str) : list str :=
  match l with
  | [] => []
  | k :: l' => insert_key k (sort_keys l')
  end.

(** The group of a sender in [groupby("sender")] and [value_counts()]. *)
Definition rows_of (sender : str) (df : list row) : list row :=
  filter (fun x => str_eqb (col_sender x) sender) df.

(** The integer entries of the dictionary that [calculate_basic_stats]
    returns.  A dictionary keyed by sender is the list of its items, one
    for each distinct sender.  [words_per_user] lists its keys in
    ascending order, as [groupby] leaves them.  [value_counts] lists the
    keys of [messages_per_user] by falling count and leaves open how
    equal counts are ordered: that order is not modelled, and the keys
    stand here in order of first appearance.  The averages (floats), the
    duration and the two dates are left out. *)
Record stats : Type := mkStats {
  total_messages : nat;
  messages_per_user : list (str * nat);
  total_words : nat;
  words_per_user : list (str * nat)
}.

(** Lines 4-52. *)
Definition calculate_basic_stats (df : list row) : stats :=
  match df with
  | [] => mkStats 0 [] 0 []
  | _ :: _ =>
      let user_df := user_rows df in
      let senders := unique (map col_sender user_df) in
      mkStats
        (length user_df)
        (map (fun k => (k, length (rows_of k user_df))) senders)
        (list_sum (map word_count user_df))
        (map (fun k => (k, list_sum (map word_count (rows_of k user_df))))
             (sort_keys senders))
  end.

End analytics.

(* ===================================================================== *)
(** ** The matcher: a wider pattern matches whatever a narrower one does *)
(* ===================================================================== *)

Lemma greedy_cons_stop {A : Type} p lo hi c s (k : str -> option A) :
  match lo with 0 => k (c :: s) | S _ => None end <> None ->
  greedy p lo hi (c :: s) k <> None.
Proof.
  simpl. intros H.
  destruct (p c && _)%bool; [|exact H].
  destruct (greedy p (Nat.pred lo) (option_map Nat.pred hi) s k); congruence.
Qed.

Lemma greedy_cons_take {A : Type} p lo hi c s (k : str -> option A) :
  p c = true -> may_take hi = true ->
  greedy p (Nat.pred lo) (option_map Nat.pred hi) s k <> None ->
  greedy p lo hi (c :: s) k <> None.
Proof.
  simpl. intros -> -> H. simpl.
  destruct (greedy p (Nat.pred lo) (option_map Nat.pred hi) s k); congruence.
Qed.

Lemma greedy_cons_inv {A : Type} p lo hi c s (k : str -> option A) :
  greedy p lo hi (c :: s) k <> None ->
  (p c = true /\ may_take hi = true /\
   greedy p (Nat.pred lo) (option_map Nat.pred hi) s k <> None)
  \/ match lo with 0 => k (c :: s) | S _ => None end <> None.
Proof.
  simpl.
  destruct (p c); simpl; [|auto].
  destruct (may_take hi); [|auto].
  destruct (greedy p (Nat.pred lo) (option_map Nat.pred hi) s k) eqn:Hg; [|auto].
  intros _. left. repeat split; congruence.
Qed.

Lemma greedy_mono {A B : Type} (p q : char -> bool) :
  (forall c, p c = true -> q c = true) ->
  forall s lo lo' hi hi' (k : str -> option A) (k' : str -> option B),
    lo' <= lo -> bound_le hi hi' ->
    (forall s', k s' <> None -> k' s' <> None) ->
    greedy p lo hi s k <> None -> greedy q lo' hi' s k' <> None.
Proof.
  intros Hpq s.
  induction s as [|c s IH]; intros lo lo' hi hi' k k' Hlo Hhi Hk.
  - simpl. destruct lo as [|lo]; [|congruence].
    assert (lo' = 0) by lia; subst. auto.
  - intros H. apply greedy_cons_inv in H.
    destruct H as [(Hp & Hmay & Hrec)|Hstop].
    + apply greedy_cons_take.
      * auto.
      * destruct hi as [[|b]|], hi' as [[|b']|]; simpl in *;
          auto; try discriminate; lia.
      * revert Hrec. apply IH; auto; try lia.
        destruct hi as [b|], hi' as [b'|]; simpl in *; auto; lia.
    + apply greedy_cons_stop.
      destruct lo as [|lo]; [|congruence].
      assert (lo' = 0) by lia; subst. auto.
Qed.

Lemma exec_mono {A B : Type} (r r' : regex) :
  narrower r r' ->
  forall s m m' (k : str -> groups -> option A) (k' : str -> groups -> option B),
    (forall s' n n', k s' n <> None -> k' s' n' <> None) ->
    exec r s m k <> None -> exec r' s m' k' <> None.
Proof.
  induction 1 as [p q Hpq|p q lo lo' hi hi' Hpq Hlo Hhi|r r' _ IH
                  |r1 r1' r2 r2' _ IH1 _ IH2|i r r' _ IH];
    intros s m m' k k' Hk; simpl.
  - destruct s as [|c s]; [congruence|].
    destruct (p c) eqn:Hp; [|congruence].
    rewrite (Hpq _ Hp). apply Hk.
  - apply greedy_mono; auto.
    intros s'. apply Hk.
  - destruct (exec r s m k) eqn:He.
    + intros _.
      assert (Hr : exec r' s m' k' <> None).
      { apply (IH s m m' k k' Hk). rewrite He; congruence. }
      destruct (exec r' s m' k'); congruence.
    + intros H. apply (Hk s m m') in H.
      destruct (exec r' s m' k'); congruence.
  - apply IH1. intros s' n n'. apply IH2, Hk.
  - apply IH. intros s' n n'. apply Hk.
Qed.

Lemma letter_icase (u l : ascii) (c : char) :
  letter false u l c = true -> letter true u l c = true.
Proof.
  unfold letter. simpl. rewrite orb_false_r. intros ->. reflexivity.
Qed.

Lemma narrower_refl_class p : narrower (Class p) (Class p).
Proof. constructor; auto. Qed.

Lemma narrower_refl_repeat p lo hi : narrower (Repeat p lo hi) (Repeat p lo hi).
Proof.
  constructor; auto. destruct hi; simpl; auto.
Qed.

Lemma system_regex_narrower :
  narrower SYSTEM_MESSAGE_REGEX WHATSAPP_CHAT_REGEX.
Proof.
  unfold SYSTEM_MESSAGE_REGEX, WHATSAPP_CHAT_REGEX, TIMESTAMP, lit; simpl.
  repeat first
    [ apply narrower_seq | apply narrower_group | apply narrower_maybe
    | apply narrower_refl_class | apply narrower_refl_repeat ].
  - constructor. intros c Hc.
    apply orb_true_iff in Hc. apply orb_true_iff.
    destruct Hc as [Hc|Hc]; [left|right]; apply letter_icase; exact Hc.
  - constructor. apply letter_icase.
  - constructor; simpl; auto.
Qed.

(** Whatever [SYSTEM_MESSAGE_REGEX] matches, [WHATSAPP_CHAT_REGEX] matches
    too. *)
Lemma system_regex_subsumed (s : str) :
  re_match WHATSAPP_CHAT_REGEX s = None ->
  re_match SYSTEM_MESSAGE_REGEX s = None.
Proof.
  unfold re_match. intros Hchat.
  destruct (exec SYSTEM_MESSAGE_REGEX s [] (fun _ m => Some m)) eqn:Hsys;
    [|reflexivity].
  exfalso.
  apply (exec_mono _ _ system_regex_narrower s [] []
           (fun _ m => Some m) (fun _ m => Some m)).
  - intros; congruence.
  - rewrite Hsys; congruence.
  - exact Hchat.
Qed.

Lemma system_match_none (normalized_line : str) :
  system_match normalized_line = None.
Proof.
  unfold system_match, header_match.
  destruct (re_match WHATSAPP_CHAT_REGEX normalized_line) eqn:Hchat;
    [reflexivity|].
  destruct (re_match WHATSAPP_LEGACY_REGEX normalized_line); [reflexivity|].
  apply system_regex_subsumed, Hchat.
Qed.

(* ===================================================================== *)
(** ** The line loop *)
(* ===================================================================== *)

Lemma extend_last_snoc (extra : str) (cd : list record) (r : record) :
  extend_last extra (cd ++ [r]) = Ok (cd ++ [with_message r (message r ++ extra)]).
Proof.
  induction cd as [|a cd IH]; [reflexivity|].
  change ((a :: cd) ++ [r]) with (a :: (cd ++ [r])).
  simpl extend_last. rewrite IH.
  destruct (cd ++ [r]) eqn:E; [destruct cd; discriminate|reflexivity].
Qed.

Lemma nonempty_snoc {A : Type} (l : list A) :
  l <> [] -> exists l' x, l = l' ++ [x].
Proof.
  intros H. destruct (exists_last H) as (l' & x & ->). eauto.
Qed.

Lemma flush_snoc (st : state) (cd : list record) (r : record) :
  chat_data st = cd ++ [r] ->
  flush st =
  Ok (match current_message_lines st with
      | [] => st
      | _ :: _ =>
          mkState (cd ++ [with_message r (message r ++
                     join (pystr " ") (current_message_lines st))])
                  [] (matched_count st) (unmatched_count st)
                  (unmatched_samples st)
      end).
Proof.
  intros Hcd. unfold flush.
  destruct (current_message_lines st); [reflexivity|].
  rewrite Hcd, extend_last_snoc. reflexivity.
Qed.

(** Saving the pending lines cannot fail, touches no counter and changes
    nothing but the message of the last record. *)
Lemma flush_ok (st : state) :
  pending_has_record st ->
  exists st', flush st = Ok st'
    /\ current_message_lines st' = []
    /\ matched_count st' = matched_count st
    /\ unmatched_count st' = unmatched_count st
    /\ unmatched_samples st' = unmatched_samples st
    /\ map frame (chat_data st') = map frame (chat_data st)
    /\ removelast (chat_data st') = removelast (chat_data st).
Proof.
  intros Hinv. unfold pending_has_record in Hinv.
  destruct (current_message_lines st) as [|l ls] eqn:Hcur.
  - exists st. unfold flush. rewrite Hcur. repeat split; auto.
  - destruct (nonempty_snoc _ (Hinv ltac:(discriminate))) as (cd & r & Hcd).
    rewrite (flush_snoc _ _ _ Hcd), Hcur.
    eexists; split; [reflexivity|]. simpl.
    rewrite Hcd, !map_app, !removelast_last. repeat split; auto.
Qed.

Lemma step_header (st : state) (line : str) (m : groups) :
  header_match (normalize line) = Some m ->
  step st line = st' <- flush st ;; Ok (push (header_record m) st').
Proof. unfold step. intros ->. reflexivity. Qed.

Lemma step_continuation (st : state) (line : str) :
  header_match (normalize line) = None ->
  step st line =
  Ok (match chat_data st with
      | _ :: _ =>
          mkState (chat_data st)
                  (current_message_lines st ++ [strip (normalize line)])
                  (matched_count st) (unmatched_count st)
                  (unmatched_samples st)
      | [] =>
          mkState (chat_data st) (current_message_lines st)
                  (matched_count st) (S (unmatched_count st))
                  (if Nat.ltb (length (unmatched_samples st)) 3
                   then unmatched_samples st ++ [strip (normalize line)]
                   else unmatched_samples st)
      end).
Proof.
  unfold step. intros ->. rewrite system_match_none.
  destruct (chat_data st); reflexivity.
Qed.

Lemma is_header_spec (line : str) :
  is_header line = match header_match (normalize line) with
                   | Some _ => true
                   | None => false
                   end.
Proof.
  unfold is_header. rewrite system_match_none.
  destruct (header_match (normalize line)); reflexivity.
Qed.

Lemma step_ok (st : state) (line : str) :
  pending_has_record st ->
  exists st', step st line = Ok st' /\ pending_has_record st'.
Proof.
  intros Hinv.
  destruct (header_match (normalize line)) as [m|] eqn:Hm.
  - rewrite (step_header _ _ _ Hm).
    destruct (flush_ok _ Hinv) as (st1 & -> & Hcur & _).
    simpl. eexists; split; [reflexivity|].
    unfold pending_has_record, push; simpl. intros _.
    destruct (chat_data st1); discriminate.
  - rewrite (step_continuation _ _ Hm).
    eexists; split; [reflexivity|].
    unfold pending_has_record in *.
    destruct (chat_data st) eqn:Hcd; simpl; [exact Hinv|].
    intros _. discriminate.
Qed.

Lemma loop_ok (lines : list str) :
  forall st, pending_has_record st ->
  exists st', loop st lines = Ok st' /\ pending_has_record st'.
Proof.
  induction lines as [|line rest IH]; intros st Hinv; simpl.
  - eauto.
  - destruct (step_ok _ line Hinv) as (st1 & -> & Hinv1). simpl. auto.
Qed.

Lemma initial_ok : pending_has_record initial.
Proof. unfold pending_has_record; simpl; congruence. Qed.

Lemma finish_flush (st : state) :
  pending_has_record st -> finish st = flush st.
Proof.
  unfold finish, flush, pending_has_record. intros Hinv.
  destruct (current_message_lines st); [reflexivity|].
  destruct (chat_data st); [|reflexivity].
  exfalso. apply Hinv; [discriminate|reflexivity].
Qed.

(** The scan of the lines runs to its end: [chat_data[-1]] is only
    evaluated when [chat_data] has an element. *)
Lemma scan_ok (lines : list str) : exists st, scan lines = Ok st.
Proof.
  unfold scan.
  destruct (loop_ok lines _ initial_ok) as (st & -> & Hinv). simpl.
  rewrite (finish_flush _ Hinv).
  destruct (flush_ok _ Hinv) as (st' & -> & _). eauto.
Qed.

Lemma loop_app (l1 l2 : list str) :
  forall st, loop st (l1 ++ l2) = st' <- loop st l1 ;; loop st' l2.
Proof.
  induction l1 as [|line l1 IH]; intros st; simpl; [reflexivity|].
  destruct (step st line); simpl; auto.
Qed.

Lemma join_snoc (sep : str) (parts : list str) (x : str) :
  parts <> [] -> join sep (parts ++ [x]) = join sep parts ++ sep ++ x.
Proof.
  induction parts as [|p parts IH]; [congruence|]. intros _.
  destruct parts as [|q parts]; [reflexivity|].
  change (join sep ((p :: q :: parts) ++ [x]))
    with (p ++ sep ++ join sep ((q :: parts) ++ [x])).
  rewrite IH by discriminate.
  change (join sep (p :: q :: parts)) with (p ++ sep ++ join sep (q :: parts)).
  rewrite <- !app_assoc. reflexivity.
Qed.

Lemma map_frame_Forall (P : record -> Prop) :
  (forall r r', frame r = frame r' -> P r -> P r') ->
  forall l l', map frame l = map frame l' -> Forall P l -> Forall P l'.
Proof.
  intros HP l.
  induction l as [|r l IH]; intros [|r' l'] Hmap Hall;
    simpl in Hmap; try discriminate.
  - constructor.
  - assert (Hr : frame r = frame r') by congruence.
    assert (Hl : map frame l = map frame l') by congruence.
    inversion Hall; subst. constructor; eauto.
Qed.

(** A property of records that does not look at the message and holds for
    every freshly built record holds for all of [chat_data]. *)
Lemma loop_frame_invariant (P : record -> Prop) :
  (forall r r', frame r = frame r' -> P r -> P r') ->
  (forall m, P (header_record m)) ->
  (forall m, P (system_record m)) ->
  forall lines st st',
    pending_has_record st -> Forall P (chat_data st) ->
    loop st lines = Ok st' ->
    pending_has_record st' /\ Forall P (chat_data st').
Proof.
  intros Hframe Hhdr Hsys lines.
  induction lines as [|line rest IH]; intros st st' Hinv Hall; simpl.
  - intros [= <-]. auto.
  - destruct (step_ok _ line Hinv) as (st1 & Hstep & Hinv1).
    rewrite Hstep. simpl. apply IH; [exact Hinv1|].
    destruct (header_match (normalize line)) as [m|] eqn:Hm.
    + rewrite (step_header _ _ _ Hm) in Hstep.
      destruct (flush_ok _ Hinv) as (st2 & Hfl & _ & _ & _ & _ & Hfr & _).
      rewrite Hfl in Hstep. simpl in Hstep. injection Hstep as <-.
      simpl. apply Forall_app. split.
      * apply (map_frame_Forall P Hframe (chat_data st)); auto.
      * constructor; auto.
    + rewrite (step_continuation _ _ Hm) in Hstep.
      injection Hstep as <-.
      destruct (chat_data st) eqn:Hcd; simpl; rewrite ?Hcd; auto.
Qed.

Lemma scan_frame_invariant (P : record -> Prop) :
  (forall r r', frame r = frame r' -> P r -> P r') ->
  (forall m, P (header_record m)) ->
  (forall m, P (system_record m)) ->
  forall lines st, scan lines = Ok st -> Forall P (chat_data st).
Proof.
  intros Hframe Hhdr Hsys lines st. unfold scan.
  destruct (loop initial lines) as [st0|e] eqn:Hloop; [|discriminate].
  simpl.
  destruct (loop_frame_invariant P Hframe Hhdr Hsys lines initial st0
              initial_ok (Forall_nil _) Hloop) as (Hinv & Hall).
  rewrite (finish_flush _ Hinv).
  destruct (flush_ok _ Hinv) as (st1 & -> & _ & _ & _ & _ & Hfr & _).
  intros [= <-].
  apply (map_frame_Forall P Hframe (chat_data st0)); auto.
Qed.

(** The counters after the loop. *)
Lemma loop_counts (lines : list str) :
  forall st, pending_has_record st ->
  exists st', loop st lines = Ok st' /\ pending_has_record st'
    /\ matched_count st' = matched_count st + header_lines lines
    /\ unmatched_count st' =
       unmatched_count st + (if is_open st then 0 else orphan_lines lines)
    /\ length (chat_data st') = length (chat_data st) + header_lines lines.
Proof.
  unfold header_lines.
  induction lines as [|line rest IH]; intros st Hinv; simpl.
  - exists st. repeat split; auto. destruct (is_open st); lia.
  - rewrite is_header_spec.
    destruct (header_match (normalize line)) as [m|] eqn:Hm.
    + rewrite (step_header _ _ _ Hm).
      destruct (flush_ok _ Hinv) as (st1 & -> & Hcur & Hm1 & Hu1 & _ & Hfr & _).
      simpl.
      assert (Hinv2 : pending_has_record (push (header_record m) st1)).
      { unfold pending_has_record, push; simpl. intros _.
        destruct (chat_data st1); discriminate. }
      destruct (IH _ Hinv2) as (st' & -> & Hinv' & Hm' & Hu' & Hl').
      apply (f_equal (@length _)) in Hfr. rewrite !length_map in Hfr.
      exists st'. repeat split; auto.
      * rewrite Hm'. simpl. lia.
      * rewrite Hu'.
        assert (Hopen : is_open (push (header_record m) st1) = true).
        { unfold is_open, push; simpl. destruct (chat_data st1); reflexivity. }
        rewrite Hopen. simpl. destruct (is_open st); lia.
      * rewrite Hl'. unfold push; simpl. rewrite length_app. simpl. lia.
    + rewrite (step_continuation _ _ Hm). simpl.
      unfold is_open.
      destruct (chat_data st) as [|r cd] eqn:Hcd.
      * match goal with |- context [loop ?s rest] =>
          assert (Hinv2 : pending_has_record s)
            by (unfold pending_has_record in *; simpl;
                rewrite Hcd in Hinv; exact Hinv);
          destruct (IH _ Hinv2) as (st' & -> & Hinv' & Hm' & Hu' & Hl')
        end.
        exists st'. repeat split; auto;
          try (rewrite Hu'; unfold is_open; simpl; lia).
      * match goal with |- context [loop ?s rest] =>
          assert (Hinv2 : pending_has_record s)
            by (unfold pending_has_record; simpl; discriminate);
          destruct (IH _ Hinv2) as (st' & -> & Hinv' & Hm' & Hu' & Hl')
        end.
        exists st'. repeat split; auto;
          try (rewrite Hu'; unfold is_open; simpl; lia).
Qed.

Lemma lines_partition (lines : list str) :
  forall opened : bool,
    header_lines lines + (if opened then 0 else orphan_lines lines)
    + continuation_lines opened lines = length lines.
Proof.
  unfold header_lines.
  induction lines as [|line rest IH]; intros opened; simpl.
  - destruct opened; reflexivity.
  - destruct (is_header line); simpl.
    + specialize (IH true). simpl in IH. destruct opened; lia.
    + specialize (IH opened). destruct opened; lia.
Qed.

(* ===================================================================== *)
(** ** The DataFrame part *)
(* ===================================================================== *)

Lemma In_dropna (df : list (record * option Z)) (r : record) (t : Z) :
  In (r, t) (dropna df) <-> In (r, Some t) df.
Proof.
  induction df as [|[r' [t'|]] df IH]; simpl.
  - tauto.
  - rewrite IH. split; intros [H|H]; auto; left; congruence.
  - rewrite IH. split; [auto|]. intros [H|H]; [discriminate|auto].
Qed.

Lemma dropna_length (cd : list record) :
  forall ts, length ts = length cd ->
  length (dropna (combine cd ts)) + isna_sum ts = length cd.
Proof.
  unfold isna_sum.
  induction cd as [|r cd IH]; intros [|[t|] ts] Hlen;
    simpl in *; try discriminate; auto;
    specialize (IH ts ltac:(lia)); lia.
Qed.

Lemma convert_length (pd : pandas) (col : list str) (ts : list (option Z)) :
  pandas_ok pd -> convert pd col = Ok ts -> length ts = length col.
Proof.
  intros Hpd. unfold convert.
  destruct (to_datetime pd col) eqn:H1.
  - intros [= <-]. eapply to_datetime_length; eauto.
  - intros H2. eapply to_datetime_mixed_length; eauto.
Qed.

Lemma parse_unreadable (pd : pandas) (fs : filesystem) (path : str) :
  fs path = None -> parse_chat_file pd fs path = Ok ([], mkLog 0 0 [] 0).
Proof. unfold parse_chat_file. intros ->. reflexivity. Qed.

Lemma parse_no_record (pd : pandas) (fs : filesystem) (path : str)
      (lines : list str) (st : state) :
  fs path = Some lines -> scan lines = Ok st -> chat_data st = [] ->
  parse_chat_file pd fs path =
  Ok ([], mkLog (matched_count st) (unmatched_count st) (unmatched_samples st) 0).
Proof.
  unfold parse_chat_file. intros -> -> Hcd. simpl. rewrite Hcd. reflexivity.
Qed.

Lemma parse_records (pd : pandas) (fs : filesystem) (path : str)
      (lines : list str) (st : state) (ts : list (option Z)) :
  fs path = Some lines -> scan lines = Ok st -> chat_data st <> [] ->
  convert pd (map timestamp_str (chat_data st)) = Ok ts ->
  parse_chat_file pd fs path =
  Ok (map select (sort_values pd (dropna (combine (chat_data st) ts))),
      mkLog (matched_count st) (unmatched_count st) (unmatched_samples st)
            (isna_sum ts)).
Proof.
  unfold parse_chat_file. intros -> -> Hcd Hts. simpl.
  destruct (chat_data st) eqn:E; [congruence|].
  rewrite Hts. reflexivity.
Qed.

(** The rows of a returned DataFrame come from [chat_data]. *)
Lemma parse_inv (pd : pandas) (fs : filesystem) (path : str)
      (df : list row) (lg : log) :
  parse_chat_file pd fs path = Ok (df, lg) ->
  df = [] \/
  exists lines st ts,
    fs path = Some lines /\ scan lines = Ok st /\ chat_data st <> [] /\
    convert pd (map timestamp_str (chat_data st)) = Ok ts /\
    df = map select (sort_values pd (dropna (combine (chat_data st) ts))).
Proof.
  unfold parse_chat_file.
  destruct (fs path) as [lines|]; [|intros [= <- _]; auto].
  destruct (scan lines) as [st|e] eqn:Hscan; simpl; [|discriminate].
  destruct (chat_data st) as [|r cd] eqn:Hcd; [intros [= <- _]; auto|].
  destruct (convert pd (map timestamp_str (r :: cd))) as [ts|e] eqn:Hts;
    simpl; [|discriminate].
  intros [= <- _]. right. exists lines, st, ts.
  rewrite Hcd. repeat split; auto. discriminate.
Qed.

Lemma In_parse (pd : pandas) (fs : filesystem) (path : str)
      (df : list row) (lg : log) (x : row) :
  pandas_ok pd -> parse_chat_file pd fs path = Ok (df, lg) -> In x df ->
  exists lines st r t,
    fs path = Some lines /\ scan lines = Ok st /\ In r (chat_data st) /\
    x = select (r, t).
Proof.
  intros Hpd Hparse Hx.
  destruct (parse_inv _ _ _ _ _ Hparse)
    as [->|(lines & st & ts & Hfs & Hscan & _ & _ & ->)]; [destruct Hx|].
  apply in_map_iff in Hx. destruct Hx as ([r t] & <- & Hin).
  apply (Permutation_in _ (sort_values_perm pd Hpd _)) in Hin.
  apply In_dropna, in_combine_l in Hin.
  exists lines, st, r, t. auto.
Qed.

(** *** Sorting *)

Lemma insert_perm (x : record * Z) (l : list (record * Z)) :
  Permutation (insert x l) (x :: l).
Proof.
  induction l as [|y l IH]; simpl; [reflexivity|].
  destruct (snd x <=? snd y)%Z; [reflexivity|].
  rewrite IH. apply perm_swap.
Qed.

Lemma isort_perm (l : list (record * Z)) : Permutation (isort l) l.
Proof.
  induction l as [|x l IH]; simpl; [reflexivity|].
  rewrite insert_perm. auto.
Qed.

Lemma insert_sorted (x : record * Z) (l : list (record * Z)) :
  Sorted by_timestamp l -> Sorted by_timestamp (insert x l).
Proof.
  induction l as [|y l IH]; simpl; intros Hs.
  - repeat constructor.
  - destruct (snd x <=? snd y)%Z eqn:Hxy.
    + constructor; [exact Hs|]. constructor. unfold by_timestamp. lia.
    + inversion Hs as [|? ? Hs' Hhd]; subst.
      constructor; [auto|].
      destruct l as [|z l]; simpl.
      * constructor. unfold by_timestamp. lia.
      * destruct (snd x <=? snd z)%Z eqn:Hxz.
        -- constructor. unfold by_timestamp. lia.
        -- inversion Hhd; subst. constructor. assumption.
Qed.

Lemma isort_sorted (l : list (record * Z)) : Sorted by_timestamp (isort l).
Proof.
  induction l as [|x l IH]; simpl; [constructor|].
  apply insert_sorted, IH.
Qed.

Lemma sample_pandas_ok : pandas_ok sample_pandas.
Proof.
  constructor; simpl.
  - intros col ts [= <-]. apply length_map.
  - intros col ts [= <-]. apply length_map.
  - apply isort_perm.
  - apply isort_sorted.
Qed.




(* ===================================================================== *)
(** ** String facts used below *)
(* ===================================================================== *)

Lemma startswith_app (p t : str) : startswith p (p ++ t) = true.
Proof.
  induction p as [|a p IH]; simpl; [reflexivity|].
  rewrite N.eqb_refl. exact IH.
Qed.

Lemma startswith_inv (p : str) :
  forall s, startswith p s = true -> exists t, s = p ++ t.
Proof.
  induction p as [|a p IH]; intros s; simpl.
  - exists s. reflexivity.
  - destruct s as [|b s]; [discriminate|].
    intros H. apply andb_true_iff in H. destruct H as [Hab Hps].
    apply N.eqb_eq in Hab. subst b.
    destruct (IH _ Hps) as [t ->]. exists t. reflexivity.
Qed.

Lemma contains_unfold (needle hay : str) :
  contains needle hay =
  (startswith needle hay ||
   match hay with [] => false | _ :: hay' => contains needle hay' end)%bool.
Proof. destruct hay; reflexivity. Qed.

Lemma contains_app (needle pre post : str) :
  contains needle (pre ++ needle ++ post) = true.
Proof.
  induction pre as [|c pre IH]; simpl app.
  - rewrite contains_unfold, startswith_app. reflexivity.
  - rewrite contains_unfold, IH. apply orb_true_r.
Qed.

(** A name that ends with a suffix contains it. *)
Lemma endswith_contains (suffix s : str) :
  endswith suffix s = true -> contains suffix s = true.
Proof.
  unfold endswith. intros H.
  apply startswith_inv in H. destruct H as [t Ht].
  assert (Hs : s = rev t ++ suffix ++ []).
  { rewrite app_nil_r, <- (rev_involutive s), Ht, rev_app_distr, rev_involutive.
    reflexivity. }
  rewrite Hs. apply contains_app.
Qed.

(* ===================================================================== *)
(** ** Continuation lines *)
(* ===================================================================== *)

(** C2 (the code departs from the claim): on the two-line input of the
    claim the parser produces one record, and its message is the header
    body immediately followed by the continuation line, "line oneline two":
    line 100 joins the pending continuation lines with a space among
    themselves and appends the result to the body with no separator. *)
Theorem continuation_appended_without_space :
  exists st,
    scan [ pystr "[01/02/2023, 09:15:00 AM] Alice: line one";
           pystr "line two" ] = Ok st
    /\ map message (chat_data st) = [pystr "line oneline two"]
    /\ map message (chat_data st) <> [pystr "line one line two"].
Proof.
  eexists. split; [vm_compute; reflexivity|].
  split; [reflexivity|]. vm_compute. discriminate.
Qed.

(** The general shape behind C2: a header followed by continuation lines
    alone gives one record whose message is the header body followed, with
    nothing in between, by the stripped continuation lines joined by single
    spaces. *)
Lemma loop_continuations (cs : list str) :
  forall st,
    chat_data st <> [] ->
    Forall (fun line => is_header line = false) cs ->
    loop st cs =
    Ok (mkState (chat_data st)
                (current_message_lines st
                 ++ map (fun line => strip (normalize line)) cs)
                (matched_count st) (unmatched_count st) (unmatched_samples st)).
Proof.
  induction cs as [|line cs IH]; intros st Hcd Hall; simpl.
  - rewrite app_nil_r. destruct st; reflexivity.
  - inversion Hall as [|? ? Hline Hrest]; subst.
    rewrite is_header_spec in Hline.
    destruct (header_match (normalize line)) eqn:Hm; [discriminate|].
    rewrite (step_continuation _ _ Hm).
    destruct (chat_data st) as [|r cd] eqn:E; [congruence|].
    simpl. rewrite IH; [|simpl; discriminate|exact Hrest].
    simpl. rewrite <- app_assoc. reflexivity.
Qed.

Lemma header_then_continuations (h : str) (cs : list str) (m : groups) :
  header_match (normalize h) = Some m ->
  cs <> [] ->
  Forall (fun line => is_header line = false) cs ->
  exists st,
    scan (h :: cs) = Ok st /\
    chat_data st =
    [ with_message (header_record m)
        (message (header_record m)
         ++ join (pystr " ") (map (fun line => strip (normalize line)) cs)) ].
Proof.
  intros Hm Hcs Hall. unfold scan. simpl loop.
  rewrite (step_header _ _ _ Hm). simpl.
  rewrite loop_continuations; [|simpl; discriminate|exact Hall].
  simpl. unfold finish; simpl.
  destruct cs as [|c cs]; [congruence|]. simpl.
  eexists. split; reflexivity.
Qed.

Lemma finish_pending (st : state) (cd : list record) (r : record)
      (c : str) (cs : list str) :
  chat_data st = cd ++ [r] ->
  current_message_lines st = c :: cs ->
  finish st =
  Ok (mkState (cd ++ [with_message r
                        (message r ++ join (pystr " ") (c :: cs))])
              [] (matched_count st) (unmatched_count st)
              (unmatched_samples st)).
Proof.
  intros Hcd Hcur.
  rewrite finish_flush.
  - rewrite (flush_snoc _ _ _ Hcd), Hcur. reflexivity.
  - intros _. rewrite Hcd. destruct cd; discriminate.
Qed.

(** C10: a line that is not a header, arriving while a record is open,
    leaves every earlier record as it was and changes nothing of the open
    record but its message, which grows by the stripped line (after a
    single space when other continuation lines precede it).  The
    timestamp text, sender, message type and media filename of every
    record are the same with and without the line, whatever the line
    contains. *)
Theorem continuation_changes_message_only
        (lines : list str) (line : str) (st : state) :
  scan lines = Ok st ->
  chat_data st <> [] ->
  is_header line = false ->
  exists st',
    scan (lines ++ [line]) = Ok st'
    /\ map frame (chat_data st') = map frame (chat_data st)
    /\ removelast (chat_data st') = removelast (chat_data st)
    /\ exists cd r sep,
         chat_data st = cd ++ [r]
         /\ (sep = [] \/ sep = pystr " ")
         /\ chat_data st' =
            cd ++ [with_message r (message r ++ sep ++ strip (normalize line))].
Proof.
  intros Hscan Hopen Hline. unfold scan in *.
  rewrite loop_app.
  destruct (loop_ok lines _ initial_ok) as (st0 & Hloop & Hinv).
  rewrite Hloop in *. simpl in *.
  rewrite (finish_flush _ Hinv) in Hscan.
  rewrite is_header_spec in Hline.
  destruct (header_match (normalize line)) eqn:Hm; [discriminate|].
  rewrite (step_continuation _ _ Hm).
  assert (Hcd0 : chat_data st0 <> []).
  { destruct (flush_ok _ Hinv) as (st1 & Hfl & _ & _ & _ & _ & Hfr & _).
    assert (st1 = st) by congruence. subst st1.
    intros E. rewrite E in Hfr.
    destruct (chat_data st); [auto|simpl in Hfr; discriminate]. }
  destruct (nonempty_snoc _ Hcd0) as (cd & r & Hcd).
  rewrite (flush_snoc _ _ _ Hcd) in Hscan. injection Hscan as <-.
  destruct (chat_data st0) as [|r1 cd1] eqn:E0; [congruence|].
  rewrite <- E0 in *. clear E0 r1 cd1. simpl bind.
  set (x := strip (normalize line)).
  destruct (current_message_lines st0) as [|c cs] eqn:Hcur.
  - rewrite (finish_pending _ cd r x []); [|exact Hcd|reflexivity].
    eexists. split; [reflexivity|]. cbn [chat_data].
    rewrite Hcd, !map_app, !removelast_last.
    split; [reflexivity|]. split; [reflexivity|].
    exists cd, r, []. auto.
  - rewrite (finish_pending _ cd r c (cs ++ [x])); [|exact Hcd|reflexivity].
    eexists. split; [reflexivity|]. cbn [chat_data].
    rewrite !map_app, !removelast_last.
    split; [reflexivity|]. split; [reflexivity|].
    eexists cd, _, (pystr " "). split; [reflexivity|]. split; [auto|].
    unfold with_message.
    cbn [message timestamp_str sender message_type media_filename].
    rewrite <- app_assoc, <- join_snoc by discriminate. reflexivity.
Qed.

Lemma continuation_changes_message_only_witness :
  exists st st',
    scan [pystr "[01/02/2023, 09:15] Alice: photo"] = Ok st
    /\ scan ([pystr "[01/02/2023, 09:15] Alice: photo"]
             ++ [pystr "IMG.opus (file attached) <Media omitted>"]) = Ok st'
    /\ map frame (chat_data st') = map frame (chat_data st)
    /\ map frame (chat_data st) =
       [(pystr "01/02/2023, 09:15", pystr "Alice", text, None)].
Proof.
  destruct (scan [pystr "[01/02/2023, 09:15] Alice: photo"]) as [st|e] eqn:Hscan;
    [|vm_compute in Hscan; discriminate].
  destruct (continuation_changes_message_only
              [pystr "[01/02/2023, 09:15] Alice: photo"]
              (pystr "IMG.opus (file attached) <Media omitted>") st Hscan)
    as (st' & Hscan' & Hframe & _).
  - vm_compute in Hscan. injection Hscan as <-. discriminate.
  - vm_compute. reflexivity.
  - exists st, st'. repeat split; auto.
    vm_compute in Hscan. injection Hscan as <-. vm_compute. reflexivity.
Defined.

(* ===================================================================== *)
(** ** The system-notice branch *)
(* ===================================================================== *)

(** C3 (the code departs from the claim): [SYSTEM_MESSAGE_REGEX] is
    [WHATSAPP_CHAT_REGEX] with a non-empty body and without
    [re.IGNORECASE], so it accepts only lines the bracketed grammar accepts
    already.  Line 94 tries it only when the two header grammars have
    failed: [system_match] is [None] for every line, and the branch of
    lines 131-147 never runs.  The encrypted-messages notice below is
    rejected by all three patterns and counted as unmatched. *)
Theorem system_notice_never_matches :
  (forall normalized_line, system_match normalized_line = None)
  /\ header_match
       (normalize (pystr "[11/19/25, 6:41:43 PM] Messages and calls are end-to-end encrypted."))
     = None
  /\ re_match SYSTEM_MESSAGE_REGEX
       (normalize (pystr "[11/19/25, 6:41:43 PM] Messages and calls are end-to-end encrypted."))
     = None
  /\ exists st,
       scan [pystr "[11/19/25, 6:41:43 PM] Messages and calls are end-to-end encrypted."]
       = Ok st
       /\ chat_data st = [] /\ unmatched_count st = 1.
Proof.
  split; [exact system_match_none|].
  split; [vm_compute; reflexivity|].
  split; [vm_compute; reflexivity|].
  eexists. split; [vm_compute; reflexivity|]. split; reflexivity.
Qed.

Lemma header_record_frame (m : groups) :
  timestamp_str (header_record m) = group m 1
  /\ sender (header_record m) = group m 2
  /\ message_type (header_record m) <> system.
Proof.
  unfold header_record.
  destruct (contains MEDIA_OMITTED_MSG _); [simpl; repeat split; discriminate|].
  destruct (contains FILE_ATTACHED _); [|simpl; repeat split; discriminate].
  simpl. repeat split. destruct (contains OPUS _); discriminate.
Qed.

(** Where the records come from.  [seen] are the lines read before the
    loop is entered. *)
Lemma loop_source_invariant (P : str -> record -> Prop) :
  (forall line r r', frame r = frame r' -> P line r -> P line r') ->
  (forall line m,
      header_match (normalize line) = Some m -> P line (header_record m)) ->
  forall lines seen st st',
    pending_has_record st ->
    Forall (fun r => exists line, In line seen /\ P line r) (chat_data st) ->
    loop st lines = Ok st' ->
    pending_has_record st'
    /\ Forall (fun r => exists line, In line (seen ++ lines) /\ P line r)
              (chat_data st').
Proof.
  intros Hframe Hhdr lines.
  induction lines as [|line rest IH]; intros seen st st' Hinv Hall; simpl.
  - intros [= <-]. rewrite app_nil_r. auto.
  - destruct (step_ok _ line Hinv) as (st1 & Hstep & Hinv1).
    rewrite Hstep. simpl. intros Hloop.
    replace (seen ++ line :: rest) with ((seen ++ [line]) ++ rest)
      by (rewrite <- app_assoc; reflexivity).
    apply (IH (seen ++ [line]) st1 st' Hinv1); [|exact Hloop].
    set (Q := fun r => exists l, In l (seen ++ [line]) /\ P l r).
    assert (HQ : forall r r', frame r = frame r' -> Q r -> Q r').
    { intros r r' Hfr (l & Hl & HP). exists l. eauto. }
    assert (Hall' : Forall Q (chat_data st)).
    { eapply Forall_impl; [|exact Hall].
      intros r (l & Hl & HP). exists l.
      split; [apply in_or_app; left; exact Hl|exact HP]. }
    destruct (header_match (normalize line)) as [m|] eqn:Hm.
    + rewrite (step_header _ _ _ Hm) in Hstep.
      destruct (flush_ok _ Hinv) as (st2 & Hfl & _ & _ & _ & _ & Hfr & _).
      rewrite Hfl in Hstep. simpl in Hstep. injection Hstep as <-.
      simpl. apply Forall_app. split.
      * apply (map_frame_Forall Q HQ (chat_data st)); auto.
      * constructor; [|constructor]. exists line.
        split; [apply in_or_app; right; left; reflexivity|eauto].
    + rewrite (step_continuation _ _ Hm) in Hstep.
      injection Hstep as <-.
      destruct (chat_data st) eqn:Hcd; simpl; rewrite ?Hcd; auto.
Qed.

(** Every record was built from the match of a header pattern on a line
    of the input, and only its message may have grown since. *)
Lemma scan_record_sources (lines : list str) (st : state) :
  scan lines = Ok st ->
  Forall (fun r => exists line,
              In line lines
              /\ exists m, header_match (normalize line) = Some m
                           /\ frame r = frame (header_record m))
         (chat_data st).
Proof.
  unfold scan.
  destruct (loop initial lines) as [st0|e] eqn:Hloop; [|discriminate].
  simpl.
  destruct (loop_source_invariant
              (fun line r => exists m, header_match (normalize line) = Some m
                                       /\ frame r = frame (header_record m))
              (fun line r r' Hfr H =>
                 match H with
                 | ex_intro _ m (conj Hm Hr) =>
                     ex_intro _ m (conj Hm (eq_trans (eq_sym Hfr) Hr))
                 end)
              (fun line m Hm => ex_intro _ m (conj Hm eq_refl))
              lines [] initial st0 initial_ok (Forall_nil _) Hloop)
    as (Hinv & Hall).
  rewrite (finish_flush _ Hinv).
  destruct (flush_ok _ Hinv) as (st1 & -> & _ & _ & _ & _ & Hfr & _).
  intros [= <-].
  refine (map_frame_Forall _ _ (chat_data st0) _ _ Hall); [|auto].
  intros r r' Hfr' (line & Hl & m & Hm & Hr).
  exists line. split; [exact Hl|]. exists m. split; [exact Hm|].
  rewrite <- Hfr'. exact Hr.
Qed.

Lemma header_record_type (m : groups) :
  message_type (header_record m) = text
  \/ message_type (header_record m) = media
  \/ message_type (header_record m) = voice_note.
Proof.
  unfold header_record.
  destruct (contains MEDIA_OMITTED_MSG _); [simpl; auto|].
  destruct (contains FILE_ATTACHED _); [|simpl; auto].
  simpl. destruct (contains OPUS _); auto.
Qed.

(** C4 (amended): every row of the returned DataFrame comes from a line
    of the file and from one of the two branches that build records.  A
    row built from a header match has as its sender the sender text that
    the pattern captured on that line, which may be any text, "System"
    included, and its message type is [text], [media] or [voice_note]; a
    row built by the system-notice branch has sender "System" and message
    type [system].  So message type [system] implies sender "System",
    and not the other way round. *)
Theorem sender_and_type_of_rows
        (pd : pandas) (fs : filesystem) (path : str)
        (df : list row) (lg : log) (x : row) :
  pandas_ok pd ->
  parse_chat_file pd fs path = Ok (df, lg) ->
  In x df ->
  exists lines line,
    fs path = Some lines /\ In line lines
    /\ ((exists m,
            header_match (normalize line) = Some m
            /\ col_sender x = group m 2
            /\ (col_message_type x = text \/ col_message_type x = media
                \/ col_message_type x = voice_note))
        \/ (exists m,
               header_match (normalize line) = None
               /\ system_match (normalize line) = Some m
               /\ col_sender x = SYSTEM /\ col_message_type x = system)).
Proof.
  intros Hpd Hparse Hx.
  destruct (In_parse _ _ _ _ _ _ Hpd Hparse Hx)
    as (lines & st & r & t & Hfs & Hscan & Hr & ->).
  pose proof (scan_record_sources _ _ Hscan) as Hall.
  rewrite Forall_forall in Hall.
  destruct (Hall _ Hr) as (line & Hl & m & Hm & Hfr).
  exists lines, line. split; [exact Hfs|]. split; [exact Hl|].
  left. exists m. split; [exact Hm|].
  unfold frame in Hfr. injection Hfr as _ Hs Hty _. simpl.
  rewrite Hs, Hty.
  split; [apply header_record_frame|apply header_record_type].
Qed.

Lemma sender_and_type_of_rows_witness :
  exists df lg x,
    parse_chat_file sample_pandas
      (one_file chat_txt [pystr "[01/02/2023, 09:15] Alice: hello"]) chat_txt
    = Ok (df, lg)
    /\ In x df
    /\ col_sender x = pystr "Alice"
    /\ exists lines line,
         one_file chat_txt [pystr "[01/02/2023, 09:15] Alice: hello"] chat_txt
         = Some lines
         /\ In line lines
         /\ ((exists m,
                 header_match (normalize line) = Some m
                 /\ col_sender x = group m 2
                 /\ (col_message_type x = text \/ col_message_type x = media
                     \/ col_message_type x = voice_note))
             \/ (exists m,
                    header_match (normalize line) = None
                    /\ system_match (normalize line) = Some m
                    /\ col_sender x = SYSTEM /\ col_message_type x = system)).
Proof.
  with_parse sample_pandas
    (one_file chat_txt [pystr "[01/02/2023, 09:15] Alice: hello"]) chat_txt
    ltac:(fun df lg =>
      exists df, lg, (hd (mkRow 0 [] [] text None) df);
      split; [vm_compute; reflexivity|];
      split; [left; reflexivity|];
      split; [reflexivity|];
      apply (sender_and_type_of_rows sample_pandas
               (one_file chat_txt [pystr "[01/02/2023, 09:15] Alice: hello"])
               chat_txt df lg _ sample_pandas_ok);
      [vm_compute; reflexivity | left; reflexivity]).
Defined.

(** C4 as stated fails: a header whose sender text is "System" gives a
    row with sender "System" and message type [text]. *)
Lemma sender_named_system_is_text :
  exists df lg x,
    parse_chat_file sample_pandas
      (one_file chat_txt [pystr "[01/02/2023, 09:15] System: hello"]) chat_txt
    = Ok (df, lg)
    /\ In x df
    /\ col_sender x = SYSTEM
    /\ col_message_type x = text
    /\ ~ (col_sender x = SYSTEM <-> col_message_type x = system).
Proof.
  with_parse sample_pandas
    (one_file chat_txt [pystr "[01/02/2023, 09:15] System: hello"]) chat_txt
    ltac:(fun df lg =>
      exists df, lg, (hd (mkRow 0 [] [] text None) df);
      split; [vm_compute; reflexivity|];
      split; [left; reflexivity|];
      split; [vm_compute; reflexivity|];
      split; [reflexivity|];
      intros [H _]; specialize (H ltac:(vm_compute; reflexivity));
      discriminate H).
Qed.

(* ===================================================================== *)
(** ** Attached files *)
(* ===================================================================== *)

(** C5 (amended): for a header whose stripped body does not contain the
    media-omitted marker and contains the attached-file marker, the media
    filename is the stripped text before the first marker, the message is
    empty, and the message type is [voice_note] exactly when that filename
    contains ".opus" somewhere, and [media] otherwise.  A filename that
    ends in ".opus" is therefore a voice note. *)
Theorem attached_file_classification (m : groups) :
  let body := strip (group m 3) in
  let name := strip (hd [] (split FILE_ATTACHED body)) in
  contains MEDIA_OMITTED_MSG body = false ->
  contains FILE_ATTACHED body = true ->
  media_filename (header_record m) = Some name
  /\ message (header_record m) = []
  /\ (message_type (header_record m) = voice_note <-> contains OPUS name = true)
  /\ (message_type (header_record m) = media <-> contains OPUS name = false)
  /\ (endswith OPUS name = true -> message_type (header_record m) = voice_note).
Proof.
  intros body name Hmedia Hfile.
  unfold header_record. fold body. rewrite Hmedia, Hfile. fold name.
  cbn [media_filename message message_type].
  split; [reflexivity|]. split; [reflexivity|].
  destruct (contains OPUS name) eqn:Hopus.
  - repeat split; auto; discriminate.
  - repeat split; auto; try discriminate.
    intros Hend. apply endswith_contains in Hend. congruence.
Qed.

Lemma attached_file_classification_witness :
  exists m,
    header_match
      (normalize (pystr "[01/02/2023, 09:15:00 AM] Alice: note.opus (file attached)"))
    = Some m
    /\ media_filename (header_record m) = Some (pystr "note.opus")
    /\ message (header_record m) = []
    /\ message_type (header_record m) = voice_note.
Proof.
  let v := eval vm_compute in
      (header_match
         (normalize (pystr "[01/02/2023, 09:15:00 AM] Alice: note.opus (file attached)"))) in
  lazymatch v with
  | Some ?m =>
      exists m; split; [vm_compute; reflexivity|];
      destruct (attached_file_classification m
                  ltac:(vm_compute; reflexivity) ltac:(vm_compute; reflexivity))
        as (Hname & Hmsg & Hvoice & _ & _);
      split; [rewrite Hname; vm_compute; reflexivity|];
      split; [exact Hmsg|];
      apply Hvoice; vm_compute; reflexivity
  end.
Defined.

(** C5 as stated fails: the attached file "note.opus.txt" does not have the
    extension ".opus", and its record is a voice note. *)
Lemma opus_inside_name_is_voice_note :
  exists st r name,
    scan [pystr "[01/02/2023, 09:15] Alice: note.opus.txt (file attached)"] = Ok st
    /\ chat_data st = [r]
    /\ media_filename r = Some name
    /\ name = pystr "note.opus.txt"
    /\ endswith OPUS name = false
    /\ message_type r = voice_note.
Proof.
  do 3 eexists. split; [vm_compute; reflexivity|].
  split; [reflexivity|]. split; [reflexivity|].
  split; [vm_compute; reflexivity|]. split; vm_compute; reflexivity.
Qed.

(* ===================================================================== *)
(** ** The counters *)
(* ===================================================================== *)

(** C6 (amended): [matched_count] is the number of header lines,
    [unmatched_count] the number of lines, blank or not, that come before
    the first header, and a line that is not a header and arrives while a
    record is open is counted by neither: the two counters and the number
    of such continuation lines add up to the number of lines. *)
Theorem counters_partition_lines (lines : list str) :
  exists st,
    scan lines = Ok st
    /\ matched_count st = header_lines lines
    /\ unmatched_count st = orphan_lines lines
    /\ matched_count st + unmatched_count st + continuation_lines false lines
       = length lines.
Proof.
  unfold scan.
  destruct (loop_counts lines _ initial_ok) as (st0 & -> & Hinv & Hm & Hu & _).
  simpl in Hm, Hu. cbn [bind].
  rewrite (finish_flush _ Hinv).
  destruct (flush_ok _ Hinv) as (st & -> & _ & Hm' & Hu' & _).
  exists st. split; [reflexivity|].
  rewrite Hm', Hu', Hm, Hu.
  split; [reflexivity|]. split; [reflexivity|].
  apply (lines_partition lines false).
Qed.

(** C6 as stated fails: both lines of this input are non-empty, the second
    is a continuation of the record opened by the first, and the counters
    add up to one. *)
Lemma continuation_not_counted :
  exists st,
    scan [ pystr "[01/02/2023, 09:15:00 AM] Alice: line one";
           pystr "line two" ] = Ok st
    /\ nonempty_lines [ pystr "[01/02/2023, 09:15:00 AM] Alice: line one";
                        pystr "line two" ] = 2
    /\ matched_count st = 1
    /\ unmatched_count st = 0
    /\ matched_count st + unmatched_count st <> 2.
Proof.
  eexists. split; [vm_compute; reflexivity|].
  split; [vm_compute; reflexivity|].
  split; [reflexivity|]. split; [reflexivity|]. simpl. discriminate.
Qed.

(* ===================================================================== *)
(** ** Order of the returned DataFrame *)
(* ===================================================================== *)




(* ===================================================================== *)
(** ** Timestamps that cannot be parsed *)
(* ===================================================================== *)

(** C8: once the timestamp column has been converted, with NaT for the
    texts that could not be parsed, the parse returns a DataFrame.  Its
    rows are exactly the records with a parsed timestamp, the records with
    NaT appear nowhere, their number is what is logged, and the rows and
    the dropped records add up to all the records. *)
Theorem unparsable_timestamp_dropped
        (pd : pandas) (fs : filesystem) (path : str)
        (lines : list str) (st : state) (ts : list (option Z)) :
  pandas_ok pd ->
  fs path = Some lines ->
  scan lines = Ok st ->
  convert pd (map timestamp_str (chat_data st)) = Ok ts ->
  exists df lg,
    parse_chat_file pd fs path = Ok (df, lg)
    /\ (forall x, In x df <->
                  exists r t, In (r, Some t) (combine (chat_data st) ts)
                              /\ x = select (r, t))
    /\ null_timestamps lg = isna_sum ts
    /\ length df + null_timestamps lg = length (chat_data st).
Proof.
  intros Hpd Hfs Hscan Hts.
  pose proof (convert_length _ _ _ Hpd Hts) as Hlen.
  rewrite length_map in Hlen.
  destruct (chat_data st) as [|r0 cd] eqn:Hcd.
  - rewrite (parse_no_record pd _ _ _ _ Hfs Hscan Hcd).
    destruct ts; [|discriminate].
    do 2 eexists. split; [reflexivity|]. simpl.
    repeat split; auto; try tauto.
    intros (r & t & [] & _).
  - rewrite (parse_records pd _ _ _ _ ts Hfs Hscan); rewrite ?Hcd;
      [|discriminate|exact Hts].
    do 2 eexists. split; [reflexivity|]. cbn [null_timestamps].
    split; [|split; [reflexivity|]].
    + intros x. rewrite in_map_iff. split.
      * intros ([r t] & <- & Hin).
        apply (Permutation_in _ (sort_values_perm pd Hpd _)) in Hin.
        apply In_dropna in Hin. eauto.
      * intros (r & t & Hin & ->). exists (r, t). split; [reflexivity|].
        apply (Permutation_in _ (Permutation_sym (sort_values_perm pd Hpd _))).
        apply In_dropna. exact Hin.
    + rewrite length_map.
      rewrite (Permutation_length (sort_values_perm pd Hpd _)).
      apply dropna_length. exact Hlen.
Qed.

Lemma unparsable_timestamp_dropped_witness :
  exists df lg,
    parse_chat_file sample_pandas
      (one_file chat_txt
         [ pystr "[01/02/2023, 09:15] Alice: kept";
           pystr "[99/99/9999, 99:99] Bob: dropped";
           pystr "[01/02/2023, 09:16] Carol: kept too" ]) chat_txt
    = Ok (df, lg)
    /\ map col_sender df = [pystr "Alice"; pystr "Carol"]
    /\ null_timestamps lg = 1
    /\ length df + null_timestamps lg = 3.
Proof.
  destruct (scan [ pystr "[01/02/2023, 09:15] Alice: kept";
                   pystr "[99/99/9999, 99:99] Bob: dropped";
                   pystr "[01/02/2023, 09:16] Carol: kept too" ])
    as [st|e] eqn:Hscan; [|vm_compute in Hscan; discriminate].
  destruct (unparsable_timestamp_dropped sample_pandas
              (one_file chat_txt
                 [ pystr "[01/02/2023, 09:15] Alice: kept";
                   pystr "[99/99/9999, 99:99] Bob: dropped";
                   pystr "[01/02/2023, 09:16] Carol: kept too" ])
              chat_txt _ st
              (map sample_instant (map timestamp_str (chat_data st)))
              sample_pandas_ok eq_refl Hscan eq_refl)
    as (df & lg & Hparse & _ & Hnull & Hlen).
  exists df, lg. split; [exact Hparse|].
  vm_compute in Hscan. injection Hscan as <-.
  vm_compute in Hparse. injection Hparse as <- <-.
  repeat split; vm_compute; reflexivity.
Defined.

(* ===================================================================== *)
(** ** Exceptions *)
(* ===================================================================== *)

(** Without a header line there is no record. *)
Lemma scan_no_header (lines : list str) (st : state) :
  scan lines = Ok st -> header_lines lines = 0 -> chat_data st = [].
Proof.
  unfold scan.
  destruct (loop_counts lines _ initial_ok) as (st0 & -> & Hinv & _ & _ & Hlen).
  cbn [bind]. rewrite (finish_flush _ Hinv).
  destruct (flush_ok _ Hinv) as (st1 & -> & _ & _ & _ & _ & Hfr & _).
  intros [= <-] Hzero.
  apply (f_equal (@length _)) in Hfr. rewrite !length_map in Hfr.
  rewrite Hzero in Hlen. simpl in Hlen.
  destruct (chat_data st1); [reflexivity|]. simpl in Hfr. lia.
Qed.

(** C9: a file that cannot be opened or read gives the empty DataFrame,
    and so do lines none of which is a header, both as ordinary values.
    In general the scan of the lines never indexes an empty [chat_data],
    and an exception of the first timestamp conversion is caught by the
    handler of line 208; the one call left outside any handler is the
    second conversion of line 210, made with [errors='coerce'].  So
    [parse_chat_file] returns a value whenever that second conversion
    returns its column when it is called, and it can only raise what that
    call raises. *)
Theorem parse_chat_file_never_raises
        (pd : pandas) (fs : filesystem) (path : str) :
  (fs path = None -> parse_chat_file pd fs path = Ok ([], mkLog 0 0 [] 0))
  /\ (forall lines,
        fs path = Some lines -> header_lines lines = 0 ->
        exists lg, parse_chat_file pd fs path = Ok ([], lg))
  /\ ((forall col e, to_datetime pd col = Raise e ->
                     exists ts, to_datetime_mixed pd col = Ok ts) ->
      exists out, parse_chat_file pd fs path = Ok out)
  /\ (forall e,
        parse_chat_file pd fs path = Raise e ->
        exists lines st e1,
          fs path = Some lines /\ scan lines = Ok st
          /\ to_datetime pd (map timestamp_str (chat_data st)) = Raise e1
          /\ to_datetime_mixed pd (map timestamp_str (chat_data st)) = Raise e).
Proof.
  split; [|split; [|split]].
  - apply parse_unreadable.
  - intros lines Hfs Hzero.
    destruct (scan_ok lines) as [st Hscan].
    rewrite (parse_no_record pd _ _ _ _ Hfs Hscan
               (scan_no_header _ _ Hscan Hzero)).
    eauto.
  - intros Hmixed.
    destruct (fs path) as [lines|] eqn:Hfs.
    + destruct (scan_ok lines) as [st Hscan].
      destruct (chat_data st) as [|r cd] eqn:Hcd.
      * rewrite (parse_no_record pd _ _ _ _ Hfs Hscan Hcd). eauto.
      * assert (Hts : exists ts,
                   convert pd (map timestamp_str (chat_data st)) = Ok ts).
        { unfold convert.
          destruct (to_datetime pd (map timestamp_str (chat_data st)))
            as [ts|e] eqn:H1; [eauto|].
          apply (Hmixed _ _ H1). }
        destruct Hts as [ts Hts].
        rewrite (parse_records pd _ _ _ _ ts Hfs Hscan); [eauto| |exact Hts].
        rewrite Hcd. discriminate.
    + rewrite (parse_unreadable pd _ _ Hfs). eauto.
  - intros e. unfold parse_chat_file.
    destruct (fs path) as [lines|] eqn:Hfs; [|discriminate].
    destruct (scan_ok lines) as [st Hscan]. rewrite Hscan. cbn [bind].
    destruct (chat_data st) as [|r cd] eqn:Hcd; [discriminate|].
    rewrite <- Hcd. unfold convert.
    destruct (to_datetime pd (map timestamp_str (chat_data st)))
      as [ts|e1] eqn:H1; [discriminate|].
    destruct (to_datetime_mixed pd (map timestamp_str (chat_data st)))
      as [ts|e2] eqn:H2; [discriminate|].
    cbn [bind]. intros [= <-].
    exists lines, st, e1. auto.
Qed.

Lemma parse_chat_file_never_raises_witness :
  (exists out,
      parse_chat_file sample_pandas_fallback
        (one_file chat_txt [pystr "[01/02/2023, 09:15] Alice: hello"]) chat_txt
      = Ok out)
  /\ parse_chat_file sample_pandas_fallback
       (one_file chat_txt [pystr "[01/02/2023, 09:15] Alice: hello"])
       (pystr "missing.txt")
     = Ok ([], mkLog 0 0 [] 0)
  /\ (exists lg,
         parse_chat_file sample_pandas_fallback
           (one_file chat_txt [pystr "no header here"]) chat_txt
         = Ok ([], lg)).
Proof.
  assert (Hmixed : forall col e,
             to_datetime sample_pandas_fallback col = Raise e ->
             exists ts, to_datetime_mixed sample_pandas_fallback col = Ok ts).
  { intros col e _. simpl. eauto. }
  split; [|split].
  - exact (proj1 (proj2 (proj2
             (parse_chat_file_never_raises sample_pandas_fallback
                (one_file chat_txt [pystr "[01/02/2023, 09:15] Alice: hello"])
                chat_txt))) Hmixed).
  - apply (proj1 (parse_chat_file_never_raises sample_pandas_fallback
                    (one_file chat_txt [pystr "[01/02/2023, 09:15] Alice: hello"])
                    (pystr "missing.txt"))).
    vm_compute. reflexivity.
  - apply (proj1 (proj2 (parse_chat_file_never_raises sample_pandas_fallback
                    (one_file chat_txt [pystr "no header here"])
                    chat_txt)) [pystr "no header here"]).
    + vm_compute. reflexivity.
    + vm_compute. reflexivity.
Defined.

(* ===================================================================== *)
(** ** What decides the reading of a date *)
(* ===================================================================== *)

(** C7 (the code departs from the claim): the parser hands the captured
    timestamp text to [pd.to_datetime] as it stands, with
    [errors='coerce'] and neither [dayfirst] nor a format, and the
    timestamp of the row is whatever that call answers.  On the header
    below the text handed over is "01/02/2023, 09:15:00 AM", and for any
    answer [t] of the library the row carries [t]: nothing in the parser
    makes the first number the day. *)
Theorem timestamp_is_the_answer_of_to_datetime (pd : pandas) (t : Z) :
  pandas_ok pd ->
  to_datetime pd [pystr "01/02/2023, 09:15:00 AM"] = Ok [Some t] ->
  exists lg,
    parse_chat_file pd
      (one_file chat_txt [pystr "[01/02/2023, 09:15:00 AM] Alice: hello"])
      chat_txt
    = Ok ([mkRow t (pystr "Alice") (pystr "hello") text None], lg).
Proof.
  intros Hpd Ht.
  destruct (scan [pystr "[01/02/2023, 09:15:00 AM] Alice: hello"])
    as [st|e] eqn:Hscan; [|vm_compute in Hscan; discriminate].
  assert (Hst : chat_data st =
                [mkRecord (pystr "01/02/2023, 09:15:00 AM") (pystr "Alice")
                          (pystr "hello") text None]).
  { vm_compute in Hscan. injection Hscan as <-. reflexivity. }
  assert (Hts : convert pd (map timestamp_str (chat_data st)) = Ok [Some t]).
  { rewrite Hst. unfold convert. simpl map.
    change (timestamp_str _) with (pystr "01/02/2023, 09:15:00 AM").
    rewrite Ht. reflexivity. }
  rewrite (parse_records pd _ chat_txt _ st [Some t] eq_refl Hscan);
    [|rewrite Hst; discriminate|exact Hts].
  eexists. f_equal. f_equal.
  rewrite Hst. simpl combine. simpl dropna.
  pose proof (sort_values_perm pd Hpd
                [(mkRecord (pystr "01/02/2023, 09:15:00 AM") (pystr "Alice")
                           (pystr "hello") text None, t)]) as Hperm.
  apply Permutation_sym, Permutation_length_1_inv in Hperm.
  rewrite Hperm. reflexivity.
Qed.

Lemma timestamp_is_the_answer_of_to_datetime_witness :
  exists lg,
    parse_chat_file sample_pandas
      (one_file chat_txt [pystr "[01/02/2023, 09:15:00 AM] Alice: hello"])
      chat_txt
    = Ok ([mkRow 33300 (pystr "Alice") (pystr "hello") text None], lg).
Proof.
  apply (timestamp_is_the_answer_of_to_datetime sample_pandas 33300
           sample_pandas_ok).
  vm_compute. reflexivity.
Defined.

(* ===================================================================== *)
(** ** What a successful search has matched *)
(* ===================================================================== *)

Lemma greedy_sound {A : Type} (p : char -> bool) (s : str) :
  forall lo hi (k : str -> option A) a,
    greedy p lo hi s k = Some a ->
    exists w s',
      s = w ++ s' /\ forallb p w = true /\ lo <= length w
      /\ within hi (length w) /\ k s' = Some a.
Proof.
  induction s as [|c s IH]; intros lo hi k a; simpl.
  - destruct lo; [|discriminate]. intros Hk.
    exists [], []. repeat split; auto. destruct hi; simpl; lia.
  - assert (Hstop : match lo with 0 => k (c :: s) | S _ => None end = Some a ->
                    exists w s',
                      c :: s = w ++ s' /\ forallb p w = true /\ lo <= length w
                      /\ within hi (length w) /\ k s' = Some a).
    { destruct lo; [|discriminate]. intros Hk.
      exists [], (c :: s). repeat split; auto. destruct hi; simpl; lia. }
    destruct (p c) eqn:Hp; simpl; [|exact Hstop].
    destruct (may_take hi) eqn:Hmay; [|exact Hstop].
    destruct (greedy p (Nat.pred lo) (option_map Nat.pred hi) s k) as [b|] eqn:Hg;
      [|exact Hstop].
    intros [= <-].
    destruct (IH _ _ _ _ Hg) as (w & s' & -> & Hw & Hlo & Hhi & Hk).
    exists (c :: w), s'. simpl. rewrite Hp, Hw.
    repeat split; auto; [lia|].
    destruct hi as [[|b']|]; simpl in *; try discriminate; auto; lia.
Qed.

(** A search that succeeds has matched a prefix of the text, and handed
    the rest and the groups to its continuation. *)
Lemma exec_sound {A : Type} (r : regex) :
  forall s m (k : str -> groups -> option A) a,
    exec r s m k = Some a ->
    exists w s' m', s = w ++ s' /\ matches r w m m' /\ k s' m' = Some a.
Proof.
  induction r as [p|p lo hi|r IH|r1 IH1 r2 IH2|i r IH]; intros s m k a; simpl.
  - destruct s as [|c s]; [discriminate|].
    destruct (p c) eqn:Hp; [|discriminate]. intros Hk.
    exists [c], s, m. repeat split; auto. constructor. exact Hp.
  - intros H. apply greedy_sound in H.
    destruct H as (w & s' & -> & Hw & Hlo & Hhi & Hk).
    exists w, s', m. repeat split; auto. constructor; auto.
  - destruct (exec r s m k) as [b|] eqn:He.
    + intros [= <-].
      destruct (IH _ _ _ _ He) as (w & s' & m' & -> & Hm & Hk).
      exists w, s', m'. repeat split; auto. apply matches_maybe_some. exact Hm.
    + intros Hk. exists [], s, m. repeat split; auto. apply matches_maybe_none.
  - intros H.
    destruct (IH1 _ _ _ _ H) as (w1 & s1 & m1 & -> & Hm1 & H2).
    destruct (IH2 _ _ _ _ H2) as (w2 & s2 & m2 & -> & Hm2 & Hk).
    exists (w1 ++ w2), s2, m2. rewrite app_assoc.
    repeat split; auto. econstructor; eauto.
  - intros H.
    destruct (IH _ _ _ _ H) as (w & s' & m' & -> & Hm & Hk).
    exists w, s', ((i, w) :: m'). split; [reflexivity|]. split.
    + constructor. exact Hm.
    + rewrite length_app, Nat.add_sub, firstn_app, Nat.sub_diag, firstn_all in Hk.
      simpl in Hk. rewrite app_nil_r in Hk. exact Hk.
Qed.

Lemma re_match_sound (r : regex) (s : str) (m : groups) :
  re_match r s = Some m ->
  exists w rest, s = w ++ rest /\ matches r w [] m.
Proof.
  unfold re_match. intros H.
  destruct (exec_sound _ _ _ _ _ H) as (w & s' & m' & -> & Hm & [= <-]).
  eauto.
Qed.

Ltac invert_matches :=
  repeat match goal with
  | H : matches (Seq _ _) _ _ _ |- _ => inversion H; subst; clear H
  | H : matches (Class _) _ _ _ |- _ => inversion H; subst; clear H
  | H : matches (Repeat _ _ _) _ _ _ |- _ => inversion H; subst; clear H
  | H : matches (Group _ _) _ _ _ |- _ => inversion H; subst; clear H
  | H : matches (Maybe _) _ _ _ |- _ => inversion H; subst; clear H
  end.

Lemma forallb_impl (p q : char -> bool) (w : str) :
  (forall c, p c = true -> q c = true) ->
  forallb p w = true -> forallb q w = true.
Proof.
  intros Hpq. rewrite !forallb_forall. auto.
Qed.

Lemma timestamp_char_digit c : is_digit c = true -> timestamp_char c = true.
Proof. unfold timestamp_char. intros ->. reflexivity. Qed.

Lemma timestamp_char_space c : is_space c = true -> timestamp_char c = true.
Proof.
  unfold timestamp_char. intros ->.
  repeat (rewrite orb_true_r; simpl). reflexivity.
Qed.

Lemma timestamp_char_letter icase (u l : ascii) c :
  (forall x, letter true u l x = true -> timestamp_char x = true) ->
  letter icase u l c = true -> timestamp_char c = true.
Proof.
  intros H Hc. apply H. destruct icase; [exact Hc|].
  apply letter_icase. exact Hc.
Qed.

Lemma timestamp_char_A x : letter true "A" "a" x = true -> timestamp_char x = true.
Proof.
  unfold timestamp_char. intros ->.
  repeat (rewrite orb_true_r; simpl). reflexivity.
Qed.

Lemma timestamp_char_P x : letter true "P" "p" x = true -> timestamp_char x = true.
Proof.
  unfold timestamp_char. intros ->.
  repeat (rewrite orb_true_r; simpl). reflexivity.
Qed.

Lemma timestamp_char_M x : letter true "M" "m" x = true -> timestamp_char x = true.
Proof.
  unfold timestamp_char. intros ->.
  repeat (rewrite orb_true_r; simpl). reflexivity.
Qed.

(** The text matched by the timestamp part: it starts with a digit, has at
    least eleven characters, is made of digits, whitespace, "/", "," ,
    ":" and the letters of the meridiem marker, and captures nothing. *)
Lemma timestamp_shape (icase : bool) (w : str) (m m' : groups) :
  matches (TIMESTAMP icase) w m m' ->
  m' = m
  /\ forallb timestamp_char w = true
  /\ 11 <= length w
  /\ exists d w', w = d :: w' /\ is_digit d = true.
Proof.
  unfold TIMESTAMP, lit. cbn [seq_of]. intros H.
  invert_matches.
  all: split; [reflexivity|].
  all: repeat match goal with
         | H : forallb is_digit ?w = true |- _ =>
             pose proof (forallb_impl _ _ _ timestamp_char_digit H);
             revert H
         | H : forallb is_space ?w = true |- _ =>
             pose proof (forallb_impl _ _ _ timestamp_char_space H);
             clear H
         end; intros.
  all: split;
    [ rewrite ?forallb_app; simpl forallb;
      repeat match goal with
        | H : forallb timestamp_char _ = true |- _ => rewrite H; clear H
        | H : N.eqb _ ?c = true |- _ => apply N.eqb_eq in H; subst c
        | H : letter _ "M" "m" ?c = true |- _ =>
            rewrite (timestamp_char_letter _ _ _ c timestamp_char_M H); clear H
        | H : (letter _ "A" "a" ?c || letter _ "P" "p" ?c)%bool = true |- _ =>
            let H' := fresh in
            assert (H' : timestamp_char c = true)
              by (apply orb_true_iff in H; destruct H as [H|H];
                  [ exact (timestamp_char_letter _ _ _ c timestamp_char_A H)
                  | exact (timestamp_char_letter _ _ _ c timestamp_char_P H) ]);
            rewrite H'; clear H H'
        end; reflexivity
    | ].
  all: split; [rewrite ?length_app; simpl length; lia|].
  all: match goal with
       | H : forallb is_digit ?w1 = true, L : 1 <= length ?w1 |- _ =>
           destruct w1 as [|d w1']; [simpl in L; lia|];
           simpl in H; apply andb_true_iff in H; destruct H as [Hd _];
           eexists d, _; split; [rewrite <- app_comm_cons; reflexivity|exact Hd]
       end.
Qed.

Lemma group_3 (a b c : str) (i : nat) :
  group [(3, c); (2, b); (1, a)] i =
  match i with 1 => a | 2 => b | 3 => c | _ => [] end.
Proof.
  destruct i as [|[|[|[|i]]]]; reflexivity.
Qed.

(** What a match of the bracket pattern has read. *)
Lemma bracket_header_shape (s : str) (m : groups) :
  re_match WHATSAPP_CHAT_REGEX s = Some m ->
  exists ts ws sender sp body rest,
    s = [chr "["] ++ ts ++ [chr "]"] ++ [ws] ++ sender ++ [chr ":"]
        ++ sp ++ body ++ rest
    /\ m = [(3, body); (2, sender); (1, ts)]
    /\ matches (TIMESTAMP true) ts [] []
    /\ is_space ws = true
    /\ sender <> [] /\ forallb not_colon sender = true
    /\ forallb is_space sp = true /\ length sp <= 1
    /\ forallb dot body = true.
Proof.
  intros H. apply re_match_sound in H. destruct H as (w & rest & -> & H).
  unfold WHATSAPP_CHAT_REGEX, lit in H. cbn [seq_of] in H.
  remember (TIMESTAMP true) as T eqn:HT.
  invert_matches.
  match goal with H : matches (TIMESTAMP true) ?ts ?m0 ?m1 |- _ =>
    destruct (timestamp_shape _ _ _ _ H) as (-> & _); rename H into Hts
  end.
  repeat match goal with
         | H : N.eqb _ ?c = true |- _ => apply N.eqb_eq in H; subst c
         end.
  match goal with
  | |- context [ ([_] ++ ?ts ++ [_] ++ [?ws] ++ ?sender ++ [_] ++ ?sp ++ ?body)
                 ++ ?rest0 ] =>
      exists ts, ws, sender, sp, body, rest0
  end.
  split.
  { rewrite <- !app_assoc. reflexivity. }
  split; [reflexivity|].
  split; [exact Hts|].
  repeat split; auto.
  match goal with L : 1 <= length ?w |- ?w <> [] =>
    intros ->; simpl in L; lia
  end.
Qed.

(** What a match of the legacy pattern has read. *)
Lemma legacy_header_shape (s : str) (m : groups) :
  re_match WHATSAPP_LEGACY_REGEX s = Some m ->
  exists ts ws1 ws2 sender sp body rest,
    s = ts ++ [ws1] ++ [chr "-"] ++ [ws2] ++ sender ++ [chr ":"]
        ++ sp ++ body ++ rest
    /\ m = [(3, body); (2, sender); (1, ts)]
    /\ matches (TIMESTAMP true) ts [] []
    /\ is_space ws1 = true /\ is_space ws2 = true
    /\ sender <> [] /\ forallb not_colon sender = true
    /\ forallb is_space sp = true /\ length sp <= 1
    /\ forallb dot body = true.
Proof.
  intros H. apply re_match_sound in H. destruct H as (w & rest & -> & H).
  unfold WHATSAPP_LEGACY_REGEX, lit in H. cbn [seq_of] in H.
  remember (TIMESTAMP true) as T eqn:HT.
  invert_matches.
  match goal with H : matches (TIMESTAMP true) ?ts ?m0 ?m1 |- _ =>
    destruct (timestamp_shape _ _ _ _ H) as (-> & _); rename H into Hts
  end.
  repeat match goal with
         | H : N.eqb _ ?c = true |- _ => apply N.eqb_eq in H; subst c
         end.
  match goal with
  | |- context [ (?ts ++ [?ws1] ++ [_] ++ [?ws2] ++ ?sender ++ [_] ++ ?sp
                  ++ ?body) ++ ?rest0 ] =>
      exists ts, ws1, ws2, sender, sp, body, rest0
  end.
  split.
  { rewrite <- !app_assoc. reflexivity. }
  split; [reflexivity|].
  split; [exact Hts|].
  repeat split; auto.
  match goal with L : 1 <= length ?w |- ?w <> [] =>
    intros ->; simpl in L; lia
  end.
Qed.

(** X1: the three groups of a header match.  The timestamp text starts
    with a digit, has at least eleven characters and holds only digits,
    whitespace, "/", ",", ":" and the letters A, P, M in either case; the
    sender is not empty and holds no colon; the body holds no newline.
    The line itself is the timestamp, in brackets or followed by a
    hyphen between two whitespace characters, the sender, a colon, at
    most one whitespace character, the body, and whatever follows. *)
Theorem header_groups_shape (normalized_line : str) (m : groups) :
  header_match normalized_line = Some m ->
  (exists d w, group m 1 = d :: w /\ is_digit d = true)
  /\ 11 <= length (group m 1)
  /\ forallb timestamp_char (group m 1) = true
  /\ group m 2 <> []
  /\ forallb not_colon (group m 2) = true
  /\ forallb dot (group m 3) = true
  /\ exists opening closing sp rest,
       normalized_line =
       opening ++ group m 1 ++ closing ++ group m 2 ++ [chr ":"]
       ++ sp ++ group m 3 ++ rest
       /\ forallb is_space sp = true /\ length sp <= 1
       /\ ((opening = [chr "["]
            /\ exists ws, closing = [chr "]"; ws] /\ is_space ws = true)
           \/ (opening = []
               /\ exists ws1 ws2, closing = [ws1; chr "-"; ws2]
                                  /\ is_space ws1 = true
                                  /\ is_space ws2 = true)).
Proof.
  unfold header_match.
  destruct (re_match WHATSAPP_CHAT_REGEX normalized_line) as [m0|] eqn:Hchat.
  - intros [= <-].
    destruct (bracket_header_shape _ _ Hchat)
      as (ts & ws & sender & sp & body & rest & Hs & -> & Hts & Hws & Hne
          & Hcolon & Hsp & Hlen & Hbody).
    rewrite !group_3.
    destruct (timestamp_shape _ _ _ _ Hts) as (_ & Hchars & Hmin & Hdigit).
    repeat split; auto.
    exists [chr "["], [chr "]"; ws], sp, rest.
    split; [exact Hs|]. repeat split; auto.
    left. split; [reflexivity|]. eauto.
  - intros Hleg.
    destruct (legacy_header_shape _ _ Hleg)
      as (ts & ws1 & ws2 & sender & sp & body & rest & Hs & -> & Hts & Hws1
          & Hws2 & Hne & Hcolon & Hsp & Hlen & Hbody).
    rewrite !group_3.
    destruct (timestamp_shape _ _ _ _ Hts) as (_ & Hchars & Hmin & Hdigit).
    repeat split; auto.
    exists [], [ws1; chr "-"; ws2], sp, rest.
    split; [exact Hs|]. repeat split; auto.
    right. split; [reflexivity|]. eauto.
Qed.

Lemma header_groups_shape_witness :
  exists m,
    header_match (pystr "31/12/2023, 10:00 - John Doe: Message") = Some m
    /\ group m 2 <> []
    /\ forallb not_colon (group m 2) = true
    /\ forallb timestamp_char (group m 1) = true.
Proof.
  let v := eval vm_compute in
      (header_match (pystr "31/12/2023, 10:00 - John Doe: Message")) in
  lazymatch v with
  | Some ?m =>
      exists m; split; [vm_compute; reflexivity|];
      destruct (header_groups_shape
                  (pystr "31/12/2023, 10:00 - John Doe: Message") m
                  ltac:(vm_compute; reflexivity))
        as (_ & _ & Hts & Hne & Hcolon & _);
      repeat split; assumption
  end.
Defined.

(* ===================================================================== *)
(** ** More on the line loop *)
(* ===================================================================== *)

(** A property of records that does not look at the message and holds for
    the record of every header match holds for all of [chat_data]. *)
Lemma loop_match_invariant (P : record -> Prop) :
  (forall r r', frame r = frame r' -> P r -> P r') ->
  (forall line m, header_match (normalize line) = Some m -> P (header_record m)) ->
  forall lines st st',
    pending_has_record st -> Forall P (chat_data st) ->
    loop st lines = Ok st' ->
    pending_has_record st' /\ Forall P (chat_data st').
Proof.
  intros Hframe Hhdr lines.
  induction lines as [|line rest IH]; intros st st' Hinv Hall; simpl.
  - intros [= <-]. auto.
  - destruct (step_ok _ line Hinv) as (st1 & Hstep & Hinv1).
    rewrite Hstep. simpl. apply IH; [exact Hinv1|].
    destruct (header_match (normalize line)) as [m|] eqn:Hm.
    + rewrite (step_header _ _ _ Hm) in Hstep.
      destruct (flush_ok _ Hinv) as (st2 & Hfl & _ & _ & _ & _ & Hfr & _).
      rewrite Hfl in Hstep. simpl in Hstep. injection Hstep as <-.
      simpl. apply Forall_app. split.
      * apply (map_frame_Forall P Hframe (chat_data st)); auto.
      * constructor; eauto.
    + rewrite (step_continuation _ _ Hm) in Hstep.
      injection Hstep as <-.
      destruct (chat_data st) eqn:Hcd; simpl; rewrite ?Hcd; auto.
Qed.

Lemma scan_match_invariant (P : record -> Prop) :
  (forall r r', frame r = frame r' -> P r -> P r') ->
  (forall line m, header_match (normalize line) = Some m -> P (header_record m)) ->
  forall lines st, scan lines = Ok st -> Forall P (chat_data st).
Proof.
  intros Hframe Hhdr lines st. unfold scan.
  destruct (loop initial lines) as [st0|e] eqn:Hloop; [|discriminate].
  simpl.
  destruct (loop_match_invariant P Hframe Hhdr lines initial st0
              initial_ok (Forall_nil _) Hloop) as (Hinv & Hall).
  rewrite (finish_flush _ Hinv).
  destruct (flush_ok _ Hinv) as (st1 & -> & _ & _ & _ & _ & Hfr & _).
  intros [= <-].
  apply (map_frame_Forall P Hframe (chat_data st0)); auto.
Qed.

Lemma header_match_sender (line : str) (m : groups) :
  header_match line = Some m ->
  group m 2 <> [] /\ forallb not_colon (group m 2) = true.
Proof.
  unfold header_match.
  destruct (re_match WHATSAPP_CHAT_REGEX line) as [m0|] eqn:Hchat.
  - intros [= <-].
    destruct (bracket_header_shape _ _ Hchat)
      as (ts & ws & sender & sp & body & rest & _ & -> & _ & _ & Hne & Hcolon & _).
    rewrite group_3. auto.
  - intros Hleg.
    destruct (legacy_header_shape _ _ Hleg)
      as (ts & ws1 & ws2 & sender & sp & body & rest & _ & -> & _ & _ & _
          & Hne & Hcolon & _).
    rewrite group_3. auto.
Qed.

(** X2: the sender of every row of the returned DataFrame is a non-empty
    text without a colon. *)
Theorem rows_sender_shape
        (pd : pandas) (fs : filesystem) (path : str)
        (df : list row) (lg : log) (x : row) :
  pandas_ok pd ->
  parse_chat_file pd fs path = Ok (df, lg) ->
  In x df ->
  col_sender x <> [] /\ forallb not_colon (col_sender x) = true.
Proof.
  intros Hpd Hparse Hx.
  destruct (In_parse _ _ _ _ _ _ Hpd Hparse Hx)
    as (lines & st & r & t & _ & Hscan & Hr & ->).
  simpl.
  assert (Hall : Forall (fun r => sender r <> []
                                  /\ forallb not_colon (sender r) = true)
                        (chat_data st)).
  { apply (scan_match_invariant
             (fun r => sender r <> [] /\ forallb not_colon (sender r) = true))
      with (lines := lines); [| |exact Hscan].
    - intros a b Hfr. unfold frame in Hfr. injection Hfr as _ Hs _ _.
      rewrite Hs. auto.
    - intros line m Hm.
      destruct (header_record_frame m) as (_ & -> & _).
      exact (header_match_sender _ _ Hm). }
  rewrite Forall_forall in Hall. exact (Hall _ Hr).
Qed.

Lemma rows_sender_shape_witness :
  exists df lg x,
    parse_chat_file sample_pandas
      (one_file chat_txt [pystr "[01/02/2023, 09:15] Alice: hello"]) chat_txt
    = Ok (df, lg)
    /\ In x df
    /\ col_sender x = pystr "Alice"
    /\ col_sender x <> [] /\ forallb not_colon (col_sender x) = true.
Proof.
  with_parse sample_pandas
    (one_file chat_txt [pystr "[01/02/2023, 09:15] Alice: hello"]) chat_txt
    ltac:(fun df lg =>
      exists df, lg, (hd (mkRow 0 [] [] text None) df);
      split; [vm_compute; reflexivity|];
      split; [left; reflexivity|];
      split; [vm_compute; reflexivity|];
      apply (rows_sender_shape sample_pandas
               (one_file chat_txt [pystr "[01/02/2023, 09:15] Alice: hello"])
               chat_txt df lg _ sample_pandas_ok);
      [vm_compute; reflexivity | left; reflexivity]).
Defined.

(** The counters and the number of records after the scan. *)
Lemma scan_counts (lines : list str) (st : state) :
  scan lines = Ok st ->
  matched_count st = header_lines lines
  /\ unmatched_count st = orphan_lines lines
  /\ length (chat_data st) = header_lines lines.
Proof.
  unfold scan.
  destruct (loop_counts lines _ initial_ok) as (st0 & -> & Hinv & Hm & Hu & Hl).
  simpl in Hm, Hu, Hl. cbn [bind].
  rewrite (finish_flush _ Hinv).
  destruct (flush_ok _ Hinv) as (st1 & -> & _ & Hm' & Hu' & _ & Hfr & _).
  intros [= <-].
  apply (f_equal (@length _)) in Hfr. rewrite !length_map in Hfr.
  repeat split; congruence.
Qed.

(** X3: every header line gives exactly one record, and each record either
    becomes a row or is counted among the timestamps that could not be
    parsed: the rows returned and the logged number of dropped timestamps
    add up to the logged number of matched lines. *)
Theorem rows_and_dropped_are_the_matched_lines
        (pd : pandas) (fs : filesystem) (path : str)
        (df : list row) (lg : log) :
  pandas_ok pd ->
  parse_chat_file pd fs path = Ok (df, lg) ->
  length df + null_timestamps lg = logged_matched lg
  /\ forall lines, fs path = Some lines -> logged_matched lg = header_lines lines.
Proof.
  intros Hpd. unfold parse_chat_file.
  destruct (fs path) as [lines|] eqn:Hfs.
  - destruct (scan lines) as [st|e] eqn:Hscan; [|discriminate]. cbn [bind].
    destruct (scan_counts _ _ Hscan) as (Hm & _ & Hl).
    destruct (chat_data st) as [|r cd] eqn:Hcd.
    + intros [= <- <-]. simpl in *. split; [lia|].
      intros ? [= <-]. exact Hm.
    + rewrite <- Hcd in *.
      destruct (convert pd (map timestamp_str (chat_data st))) as [ts|e] eqn:Hts;
        [|discriminate].
      cbn [bind]. intros [= <- <-]. cbn [null_timestamps logged_matched].
      pose proof (convert_length _ _ _ Hpd Hts) as Hlen.
      rewrite length_map in Hlen.
      split.
      * rewrite length_map, (Permutation_length (sort_values_perm pd Hpd _)).
        rewrite (dropna_length _ _ Hlen). congruence.
      * intros ? [= <-]. exact Hm.
  - intros [= <- <-]. split; [reflexivity|]. discriminate.
Qed.

Lemma rows_and_dropped_are_the_matched_lines_witness :
  exists df lg,
    parse_chat_file sample_pandas
      (one_file chat_txt
         [ pystr "[01/02/2023, 09:15] Alice: kept";
           pystr "[99/99/9999, 99:99] Bob: dropped";
           pystr "and a second line" ]) chat_txt
    = Ok (df, lg)
    /\ length df = 1 /\ null_timestamps lg = 1 /\ logged_matched lg = 2
    /\ length df + null_timestamps lg = logged_matched lg.
Proof.
  with_parse sample_pandas
    (one_file chat_txt
       [ pystr "[01/02/2023, 09:15] Alice: kept";
         pystr "[99/99/9999, 99:99] Bob: dropped";
         pystr "and a second line" ]) chat_txt
    ltac:(fun df lg =>
      exists df, lg;
      split; [vm_compute; reflexivity|];
      split; [reflexivity|]; split; [reflexivity|]; split; [reflexivity|];
      apply (rows_and_dropped_are_the_matched_lines sample_pandas
               (one_file chat_txt
                  [ pystr "[01/02/2023, 09:15] Alice: kept";
                    pystr "[99/99/9999, 99:99] Bob: dropped";
                    pystr "and a second line" ]) chat_txt df lg
               sample_pandas_ok);
      vm_compute; reflexivity).
Defined.

Lemma firstn_3_more (acc rest : list str) (x : str) :
  firstn 3 ((if Nat.ltb (length acc) 3 then acc ++ [x] else acc) ++ rest)
  = firstn 3 (acc ++ x :: rest).
Proof.
  destruct (Nat.ltb_spec (length acc) 3) as [Hlt|Hge].
  - rewrite <- app_assoc. reflexivity.
  - rewrite !firstn_app.
    replace (3 - length acc) with 0 by lia. reflexivity.
Qed.

(** The samples after the loop: the first three of the lines met while no
    record was open. *)
Lemma loop_samples (lines : list str) :
  forall st, pending_has_record st ->
  exists st', loop st lines = Ok st'
    /\ firstn 3 (unmatched_samples st') =
       firstn 3 (unmatched_samples st
                 ++ (if is_open st then []
                     else map stripped (firstn (orphan_lines lines) lines)))
    /\ (length (unmatched_samples st) <= 3 ->
        length (unmatched_samples st') <= 3).
Proof.
  induction lines as [|line rest IH]; intros st Hinv; simpl.
  - exists st. split; [reflexivity|]. split; [|auto].
    destruct (is_open st); rewrite app_nil_r; reflexivity.
  - rewrite is_header_spec.
    destruct (header_match (normalize line)) as [m|] eqn:Hm.
    + rewrite (step_header _ _ _ Hm).
      destruct (flush_ok _ Hinv) as (st1 & -> & _ & _ & _ & Hs1 & _).
      simpl.
      assert (Hinv2 : pending_has_record (push (header_record m) st1)).
      { unfold pending_has_record, push; simpl. intros _.
        destruct (chat_data st1); discriminate. }
      destruct (IH _ Hinv2) as (st' & -> & Hs' & Hl').
      assert (Hopen : is_open (push (header_record m) st1) = true).
      { unfold is_open, push; simpl. destruct (chat_data st1); reflexivity. }
      rewrite Hopen in Hs'. simpl in Hs', Hl'. rewrite Hs1 in Hs', Hl'.
      exists st'. split; [reflexivity|]. split; [|exact Hl'].
      rewrite Hs'. destruct (is_open st); rewrite !app_nil_r; reflexivity.
    + rewrite (step_continuation _ _ Hm). simpl.
      unfold is_open.
      destruct (chat_data st) as [|r cd] eqn:Hcd.
      * match goal with |- context [loop ?s rest] =>
          assert (Hinv2 : pending_has_record s)
            by (unfold pending_has_record in *; simpl;
                rewrite Hcd in Hinv; exact Hinv);
          destruct (IH _ Hinv2) as (st' & -> & Hs' & Hl')
        end.
        unfold is_open in Hs'. simpl in Hs', Hl'.
        exists st'. split; [reflexivity|]. split.
        -- rewrite Hs'. apply firstn_3_more.
        -- intros Hle. apply Hl'.
           destruct (Nat.ltb_spec (length (unmatched_samples st)) 3);
             [rewrite length_app; simpl|]; lia.
      * match goal with |- context [loop ?s rest] =>
          assert (Hinv2 : pending_has_record s)
            by (unfold pending_has_record; simpl; discriminate);
          destruct (IH _ Hinv2) as (st' & -> & Hs' & Hl')
        end.
        unfold is_open in Hs'. simpl in Hs', Hl'.
        exists st'. split; [reflexivity|]. split; [exact Hs'|exact Hl'].
Qed.

(** X4: the retained samples are the first three lines that come before
    the first header, normalized and stripped; there are never more than
    three of them, however many lines are counted as unmatched. *)
Theorem unmatched_samples_are_the_first_three (lines : list str) :
  exists st,
    scan lines = Ok st
    /\ unmatched_samples st =
       firstn 3 (map stripped (firstn (orphan_lines lines) lines))
    /\ length (unmatched_samples st) = Nat.min 3 (unmatched_count st).
Proof.
  unfold scan.
  destruct (loop_samples lines _ initial_ok) as (st0 & Hloop & Hs & Hl).
  destruct (loop_counts lines _ initial_ok) as (st0' & Hloop' & Hinv & _ & Hu & _).
  rewrite Hloop in Hloop'. injection Hloop' as <-.
  rewrite Hloop. cbn [bind].
  rewrite (finish_flush _ Hinv).
  destruct (flush_ok _ Hinv) as (st & -> & _ & _ & Hu' & Hs' & _).
  exists st. split; [reflexivity|].
  simpl in Hu.
  change (unmatched_samples initial) with (@nil str) in Hs, Hl.
  change (is_open initial) with false in Hs. cbn [app] in Hs.
  assert (Hall : unmatched_samples st0 =
                 firstn 3 (map stripped (firstn (orphan_lines lines) lines))).
  { rewrite <- Hs. symmetry. apply firstn_all2. apply Hl. simpl. lia. }
  rewrite Hs', Hu', Hu, Hall. split; [reflexivity|].
  rewrite length_firstn, length_map, length_firstn.
  assert (orphan_lines lines <= length lines).
  { clear. induction lines as [|l ls IH]; simpl; [lia|].
    destruct (is_header l); simpl; lia. }
  lia.
Qed.

(* ===================================================================== *)
(** ** Cutting the input at a header *)
(* ===================================================================== *)

Lemma extend_last_app (extra : str) (pre cd : list record) :
  cd <> [] ->
  exists cd', extend_last extra cd = Ok cd'
              /\ extend_last extra (pre ++ cd) = Ok (pre ++ cd')
              /\ cd' <> [].
Proof.
  intros Hcd. destruct (nonempty_snoc _ Hcd) as (cd0 & r & ->).
  exists (cd0 ++ [with_message r (message r ++ extra)]).
  rewrite extend_last_snoc, app_assoc, extend_last_snoc, <- app_assoc.
  repeat split. destruct cd0; discriminate.
Qed.

Lemma flush_ahead (pre : list record) (a b : state) :
  ahead_of pre a b ->
  exists a' b',
    flush a = Ok a' /\ flush b = Ok b' /\ ahead_of pre a' b'
    /\ current_message_lines b' = [].
Proof.
  intros (Hcd & Hne & Hcur). unfold flush. rewrite Hcur.
  destruct (current_message_lines b) as [|c cs] eqn:Hb.
  - exists a, b. repeat split; auto. congruence.
  - rewrite Hcd.
    destruct (extend_last_app (join (pystr " ") (c :: cs)) pre _ Hne)
      as (cd' & -> & -> & Hne').
    cbn [bind]. do 2 eexists. split; [reflexivity|]. split; [reflexivity|].
    repeat split; simpl; auto.
Qed.

Lemma step_ahead (pre : list record) (a b : state) (line : str) :
  ahead_of pre a b ->
  exists a' b',
    step a line = Ok a' /\ step b line = Ok b' /\ ahead_of pre a' b'.
Proof.
  intros Hab.
  destruct (header_match (normalize line)) as [m|] eqn:Hm.
  - rewrite !(step_header _ _ _ Hm).
    destruct (flush_ahead _ _ _ Hab) as (a' & b' & -> & -> & (Hcd & Hne & Hcur) & _).
    cbn [bind]. do 2 eexists. split; [reflexivity|]. split; [reflexivity|].
    unfold ahead_of, push; simpl. rewrite Hcd, <- app_assoc.
    repeat split; auto. destruct (chat_data b'); discriminate.
  - rewrite !(step_continuation _ _ Hm).
    destruct Hab as (Hcd & Hne & Hcur).
    destruct (chat_data b) as [|rb cdb] eqn:Hb; [congruence|].
    destruct (chat_data a) as [|ra cda] eqn:Ha;
      [destruct pre; discriminate|].
    do 2 eexists. split; [reflexivity|]. split; [reflexivity|].
    unfold ahead_of; simpl. rewrite Hcur. repeat split; auto; discriminate.
Qed.

Lemma loop_ahead (pre : list record) (lines : list str) :
  forall a b,
    ahead_of pre a b ->
    exists a' b',
      loop a lines = Ok a' /\ loop b lines = Ok b' /\ ahead_of pre a' b'.
Proof.
  induction lines as [|line rest IH]; intros a b Hab; simpl.
  - eauto.
  - destruct (step_ahead _ _ _ line Hab) as (a1 & b1 & -> & -> & Hab1).
    cbn [bind]. auto.
Qed.

Lemma finish_ahead (pre : list record) (a b : state) :
  ahead_of pre a b ->
  exists a' b',
    finish a = Ok a' /\ finish b = Ok b' /\ ahead_of pre a' b'.
Proof.
  intros Hab.
  assert (Ha : pending_has_record a).
  { destruct Hab as (Hcd & Hne & _). intros _ E. rewrite E in Hcd.
    destruct pre; [|discriminate]. simpl in Hcd. congruence. }
  assert (Hb : pending_has_record b).
  { destruct Hab as (_ & Hne & _). intros _. exact Hne. }
  rewrite (finish_flush _ Ha), (finish_flush _ Hb).
  destruct (flush_ahead _ _ _ Hab) as (a' & b' & -> & -> & Hab' & _).
  eauto.
Qed.

(** X5: cutting the input just before a header line cuts the records
    there: the records of the whole input are the records of the lines
    before the header followed by the records of the lines from the header
    on.  In particular the lines before the first header leave no trace in
    any record, and a record is closed for good by the next header. *)
Theorem scan_splits_at_header (before : list str) (h : str) (after : list str) :
  is_header h = true ->
  exists st1 st2 st,
    scan before = Ok st1
    /\ scan (h :: after) = Ok st2
    /\ scan (before ++ h :: after) = Ok st
    /\ chat_data st = chat_data st1 ++ chat_data st2.
Proof.
  rewrite is_header_spec.
  destruct (header_match (normalize h)) as [m|] eqn:Hm; [|discriminate].
  intros _. unfold scan.
  rewrite loop_app.
  destruct (loop_ok before _ initial_ok) as (st0 & -> & Hinv0).
  cbn [bind]. rewrite (finish_flush _ Hinv0).
  destruct (flush_ok _ Hinv0) as (st1 & Hfl & Hcur1 & _).
  rewrite Hfl.
  simpl loop. rewrite !(step_header _ _ _ Hm), Hfl.
  change (flush initial) with (Ok initial). cbn [bind].
  assert (Hab : ahead_of (chat_data st1) (push (header_record m) st1)
                         (push (header_record m) initial)).
  { unfold ahead_of, push; simpl. repeat split; auto. discriminate. }
  destruct (loop_ahead _ after _ _ Hab) as (a1 & b1 & -> & -> & Hab1).
  cbn [bind].
  destruct (finish_ahead _ _ _ Hab1) as (a2 & b2 & -> & -> & (Hcd & _)).
  exists st1, b2, a2. repeat split; auto.
Qed.

Lemma scan_splits_at_header_witness :
  exists st1 st2 st,
    scan [pystr "stray line"; pystr "[01/02/2023, 09:15] Alice: one";
          pystr "more"] = Ok st1
    /\ scan [pystr "[01/02/2023, 09:16] Bob: two"; pystr "and more"] = Ok st2
    /\ scan ([pystr "stray line"; pystr "[01/02/2023, 09:15] Alice: one";
              pystr "more"]
             ++ pystr "[01/02/2023, 09:16] Bob: two" :: [pystr "and more"])
       = Ok st
    /\ chat_data st = chat_data st1 ++ chat_data st2
    /\ map message (chat_data st) = [pystr "onemore"; pystr "twoand more"].
Proof.
  destruct (scan_splits_at_header
              [pystr "stray line"; pystr "[01/02/2023, 09:15] Alice: one";
               pystr "more"]
              (pystr "[01/02/2023, 09:16] Bob: two") [pystr "and more"]
              ltac:(vm_compute; reflexivity))
    as (st1 & st2 & st & H1 & H2 & H & Hcd).
  exists st1, st2, st. repeat split; auto.
  vm_compute in H. injection H as <-. vm_compute. reflexivity.
Defined.

(* ===================================================================== *)
(** ** Media filename and message type of the rows *)
(* ===================================================================== *)

Lemma header_record_media (m : groups) :
  media_consistent (message_type (header_record m))
                   (media_filename (header_record m)).
Proof.
  unfold media_consistent, header_record.
  destruct (contains MEDIA_OMITTED_MSG _).
  - simpl. repeat split; try discriminate; auto.
  - destruct (contains FILE_ATTACHED _).
    + cbn [message_type media_filename].
      destruct (contains OPUS _) eqn:Hopus.
      * repeat split; try discriminate; eauto.
        intros f [= <-]. left. auto.
      * repeat split; try discriminate; eauto.
        intros f [= <-]. right. auto.
    + simpl. repeat split; try discriminate; auto.
Qed.

(** X6: in every row of the returned DataFrame, a media filename is
    present only with message type [voice_note] or [media], [voice_note]
    exactly when the filename contains ".opus"; every voice note has a
    filename; a text or system row has none.  Continuation lines never
    disturb this, whatever they contain. *)
Theorem rows_media_filename_consistent
        (pd : pandas) (fs : filesystem) (path : str)
        (df : list row) (lg : log) (x : row) :
  pandas_ok pd ->
  parse_chat_file pd fs path = Ok (df, lg) ->
  In x df ->
  media_consistent (col_message_type x) (col_media_filename x).
Proof.
  intros Hpd Hparse Hx.
  destruct (In_parse _ _ _ _ _ _ Hpd Hparse Hx)
    as (lines & st & r & t & _ & Hscan & Hr & ->).
  simpl.
  assert (Hall : Forall (fun r => media_consistent (message_type r)
                                                   (media_filename r))
                        (chat_data st)).
  { apply (scan_frame_invariant
             (fun r => media_consistent (message_type r) (media_filename r)))
      with (lines := lines); [| | |exact Hscan].
    - intros a b Hfr. unfold frame in Hfr. injection Hfr as _ _ Hty Hname.
      rewrite Hty, Hname. auto.
    - apply header_record_media.
    - intros m. unfold media_consistent. simpl.
      repeat split; try discriminate; auto. }
  rewrite Forall_forall in Hall. exact (Hall _ Hr).
Qed.

Lemma rows_media_filename_consistent_witness :
  exists df lg x,
    parse_chat_file sample_pandas
      (one_file chat_txt
         [ pystr "[01/02/2023, 09:15] Alice: PTT-001.opus (file attached)";
           pystr "<Media omitted>" ]) chat_txt
    = Ok (df, lg)
    /\ In x df
    /\ col_message_type x = voice_note
    /\ col_media_filename x = Some (pystr "PTT-001.opus")
    /\ media_consistent (col_message_type x) (col_media_filename x).
Proof.
  with_parse sample_pandas
    (one_file chat_txt
       [ pystr "[01/02/2023, 09:15] Alice: PTT-001.opus (file attached)";
         pystr "<Media omitted>" ]) chat_txt
    ltac:(fun df lg =>
      exists df, lg, (hd (mkRow 0 [] [] text None) df);
      split; [vm_compute; reflexivity|];
      split; [left; reflexivity|];
      split; [reflexivity|];
      split; [vm_compute; reflexivity|];
      apply (rows_media_filename_consistent sample_pandas
               (one_file chat_txt
                  [ pystr "[01/02/2023, 09:15] Alice: PTT-001.opus (file attached)";
                    pystr "<Media omitted>" ])
               chat_txt df lg _ sample_pandas_ok);
      [vm_compute; reflexivity | left; reflexivity]).
Defined.

(* ===================================================================== *)
(** ** Normalization of a line *)
(* ===================================================================== *)

Lemma In_replace (old : char) (new s : str) (c : char) :
  In c (replace old new s) -> (In c s /\ c <> old) \/ In c new.
Proof.
  unfold replace. rewrite in_flat_map. intros (d & Hd & Hc).
  destruct (N.eqb_spec d old) as [->|Hne]; [auto|].
  destruct Hc as [<-|[]]. auto.
Qed.

Lemma replace_absent (old : char) (new s : str) :
  ~ In old s -> replace old new s = s.
Proof.
  unfold replace. induction s as [|c s IH]; simpl; [reflexivity|].
  intros Hnot. destruct (N.eqb_spec c old) as [->|Hne]; [tauto|].
  simpl. rewrite IH; tauto.
Qed.

Lemma normalize_clean (line : str) (c : char) :
  In c (normalize line) -> c <> 8239%N /\ c <> 8206%N /\ c <> 8232%N.
Proof.
  unfold normalize. intros H.
  apply In_replace in H. destruct H as [[H Hc]|H].
  - apply In_replace in H. destruct H as [[H Hb]|[]].
    apply In_replace in H. destruct H as [[H Ha]|H]; [auto|].
    destruct H as [<-|[]]. repeat split; discriminate.
  - destruct H as [<-|[]]. repeat split; discriminate.
Qed.

(** X7: a normalized line holds none of the three characters that
    normalization replaces, so normalizing it again changes nothing. *)
Theorem normalize_idempotent (line : str) :
  (forall c, In c (normalize line) ->
             c <> 8239%N /\ c <> 8206%N /\ c <> 8232%N)
  /\ normalize (normalize line) = normalize line.
Proof.
  split; [apply normalize_clean|].
  assert (H : forall c, In c (normalize line) ->
                        c <> 8239%N /\ c <> 8206%N /\ c <> 8232%N)
    by apply normalize_clean.
  unfold normalize at 1.
  rewrite (replace_absent 8239%N).
  - rewrite (replace_absent 8206%N).
    + apply replace_absent. intros Hin. apply H in Hin. tauto.
    + intros Hin. apply H in Hin. tauto.
  - intros Hin. apply H in Hin. tauto.
Qed.

(* ===================================================================== *)
(** ** Voice-note transcription and its merge into the chat *)
(* ===================================================================== *)

Lemma startswith_refl (s : str) : startswith s s = true.
Proof.
  induction s as [|c s IH]; simpl; [reflexivity|].
  rewrite N.eqb_refl. exact IH.
Qed.

Lemma str_eqb_eq (a b : str) : str_eqb a b = true <-> a = b.
Proof.
  unfold str_eqb. split.
  - intros H. apply andb_true_iff in H. destruct H as [Hlen Hpre].
    apply Nat.eqb_eq in Hlen. apply startswith_inv in Hpre.
    destruct Hpre as [t ->]. rewrite length_app in Hlen.
    destruct t; [symmetry; apply app_nil_r|simpl in Hlen; lia].
  - intros ->. rewrite Nat.eqb_refl, startswith_refl. reflexivity.
Qed.

Lemma insert_row_perm (x : row) (l : list row) :
  Permutation (insert_row x l) (x :: l).
Proof.
  induction l as [|y l IH]; simpl; [reflexivity|].
  destruct (timestamp x <=? timestamp y)%Z; [reflexivity|].
  rewrite IH. apply perm_swap.
Qed.

Lemma insert_row_sorted (x : row) (l : list row) :
  Sorted rows_by_timestamp l -> Sorted rows_by_timestamp (insert_row x l).
Proof.
  induction l as [|y l IH]; simpl; intros Hs.
  - repeat constructor.
  - destruct (timestamp x <=? timestamp y)%Z eqn:Hxy.
    + constructor; [exact Hs|]. constructor. unfold rows_by_timestamp. lia.
    + inversion Hs as [|? ? Hs' Hhd]; subst.
      constructor; [auto|].
      destruct l as [|z l]; simpl.
      * constructor. unfold rows_by_timestamp. lia.
      * destruct (timestamp x <=? timestamp z)%Z eqn:Hxz.
        -- constructor. unfold rows_by_timestamp. lia.
        -- inversion Hhd; subst. constructor. assumption.
Qed.

Lemma isort_rows_ok : sort_rows_ok isort_rows.
Proof.
  constructor.
  - intros df. induction df as [|x df IH]; simpl; [reflexivity|].
    rewrite insert_row_perm. auto.
  - intros df. induction df as [|x df IH]; simpl; [constructor|].
    apply insert_row_sorted, IH.
Qed.

(** The rows of a merge with at least one transcription. *)
Lemma merge_shape (sort_rows : list row -> list row) (df ts : list row) :
  sort_rows_ok sort_rows -> ts <> [] ->
  (forall x, In x (merge_transcriptions_into_chat sort_rows df ts) <->
             (In x df /\ col_message_type x <> voice_note) \/ In x ts)
  /\ Permutation (merge_transcriptions_into_chat sort_rows df ts)
                 (filter (fun x => negb (is_voice_note x)) df ++ ts).
Proof.
  intros Hsort Hne. destruct ts as [|t ts]; [congruence|].
  unfold merge_transcriptions_into_chat.
  split; [|apply (sort_rows_perm _ Hsort)].
  intros x. split.
  - intros Hin.
    apply (Permutation_in _ (sort_rows_perm _ Hsort _)) in Hin.
    apply in_app_or in Hin. destruct Hin as [Hin|Hin]; [left|right; exact Hin].
    apply filter_In in Hin. destruct Hin as [Hin Hv]. split; [exact Hin|].
    unfold is_voice_note in Hv. intros E. rewrite E in Hv. discriminate.
  - intros Hin.
    apply (Permutation_in _ (Permutation_sym (sort_rows_perm _ Hsort _))).
    apply in_or_app. destruct Hin as [[Hin Hv]|Hin]; [left|right; exact Hin].
    apply filter_In. split; [exact Hin|].
    unfold is_voice_note.
    destruct (col_message_type x); simpl; congruence.
Qed.

(** X8: without a transcription the chat is returned as it is, voice notes
    included.  With at least one, the result is in order of timestamp and
    holds the transcriptions and the rows of the chat that are not voice
    notes, and nothing else: every voice-note row is removed, whether or
    not one of the transcriptions stands for it. *)
Theorem merge_replaces_all_voice_notes
        (sort_rows : list row -> list row) (df transcriptions : list row) :
  sort_rows_ok sort_rows ->
  (transcriptions = [] ->
   merge_transcriptions_into_chat sort_rows df transcriptions = df)
  /\ (transcriptions <> [] ->
      let merged := merge_transcriptions_into_chat sort_rows df transcriptions in
      Sorted rows_by_timestamp merged
      /\ Permutation merged
                     (filter (fun x => negb (is_voice_note x)) df ++ transcriptions)
      /\ (forall x, In x merged <->
                    (In x df /\ col_message_type x <> voice_note)
                    \/ In x transcriptions)
      /\ length merged + length (filter is_voice_note df)
         = length df + length transcriptions).
Proof.
  intros Hsort. split.
  - intros ->. reflexivity.
  - intros Hne. destruct transcriptions as [|t ts]; [congruence|].
    cbn zeta. unfold merge_transcriptions_into_chat.
    split; [apply (sort_rows_sorted _ Hsort)|].
    split; [apply (sort_rows_perm _ Hsort)|].
    split.
    + intros x. split.
      * intros Hin.
        apply (Permutation_in _ (sort_rows_perm _ Hsort _)) in Hin.
        apply in_app_or in Hin. destruct Hin as [Hin|Hin]; [left|right; exact Hin].
        apply filter_In in Hin. destruct Hin as [Hin Hv]. split; [exact Hin|].
        unfold is_voice_note in Hv. intros E. rewrite E in Hv. discriminate.
      * intros Hin.
        apply (Permutation_in _ (Permutation_sym (sort_rows_perm _ Hsort _))).
        apply in_or_app. destruct Hin as [[Hin Hv]|Hin]; [left|right; exact Hin].
        apply filter_In. split; [exact Hin|].
        unfold is_voice_note.
        destruct (col_message_type x); simpl; congruence.
    + rewrite (Permutation_length (sort_rows_perm _ Hsort _)), length_app.
      assert (Hpart : length (filter (fun x => negb (is_voice_note x)) df)
                      + length (filter is_voice_note df) = length df).
      { clear. induction df as [|x df IH]; simpl; [reflexivity|].
        destruct (is_voice_note x); simpl; lia. }
      lia.
Qed.

Lemma merge_replaces_all_voice_notes_witness :
  merge_transcriptions_into_chat isort_rows sample_chat [] = sample_chat
  /\ map timestamp
         (merge_transcriptions_into_chat isort_rows sample_chat
            [mkRow 100 (pystr "Alice") (pystr "[Transcribed Voice Note]:  hello there")
                   text None])
     = [100; 200; 300]%Z.
Proof.
  destruct (merge_replaces_all_voice_notes isort_rows sample_chat []
              isort_rows_ok) as [Hnone _].
  split; [apply Hnone; reflexivity|].
  vm_compute. reflexivity.
Defined.

(** X9: when whisper is not installed, asking for transcription yields one
    system notice stamped with the current time, whatever the files and
    the chat; merged into the chat it takes the place of every voice-note
    row. *)
Theorem transcription_without_whisper
        (w : whisper) (sort_rows : list row -> list row)
        (media_files : list (str * str)) (df : list row) :
  WHISPER_AVAILABLE w = false ->
  sort_rows_ok sort_rows ->
  exists notice,
    transcribe_audio_files w media_files df = Return [notice]
    /\ notice = mkRow (now w) SYSTEM WHISPER_MISSING system None
    /\ Permutation
         (merge_transcriptions_into_chat sort_rows df [notice])
         (filter (fun x => negb (is_voice_note x)) df ++ [notice])
    /\ forall x, In x (merge_transcriptions_into_chat sort_rows df [notice]) ->
                 col_message_type x <> voice_note.
Proof.
  intros Hw Hsort. eexists. unfold transcribe_audio_files. rewrite Hw. simpl negb.
  cbn iota. split; [reflexivity|]. split; [reflexivity|].
  unfold merge_transcriptions_into_chat.
  split; [apply (sort_rows_perm _ Hsort)|].
  intros x Hin.
  apply (Permutation_in _ (sort_rows_perm _ Hsort _)) in Hin.
  apply in_app_or in Hin. destruct Hin as [Hin|[<-|[]]].
  - apply filter_In in Hin. destruct Hin as [_ Hv].
    unfold is_voice_note in Hv. intros E. rewrite E in Hv. discriminate.
  - simpl. discriminate.
Qed.

Lemma transcription_without_whisper_witness :
  exists notice,
    transcribe_audio_files no_whisper sample_media_files sample_chat
    = Return [notice]
    /\ map timestamp
           (merge_transcriptions_into_chat isort_rows sample_chat [notice])
       = [200; 300; 99999]%Z.
Proof.
  destruct (transcription_without_whisper no_whisper isort_rows
              sample_media_files sample_chat eq_refl isort_rows_ok)
    as (notice & Hrun & Hnotice & _).
  exists notice. split; [exact Hrun|].
  rewrite Hnotice. vm_compute. reflexivity.
Defined.

Lemma transcription_of_spec (w : whisper) (df : list row)
      (path name : str) (t : row) :
  In t (transcription_of w df (path, name)) ->
  exists reference,
    In reference df /\ col_media_filename reference = Some name
    /\ timestamp t = timestamp reference
    /\ col_sender t = col_sender reference
    /\ ((exists transcribed_text,
            transcribe w path = Return transcribed_text
            /\ col_message t =
               pystr "[Transcribed Voice Note]: " ++ transcribed_text
            /\ col_message_type t = text
            /\ col_media_filename t = None)
        \/ (exists e,
               transcribe w path = Throw e
               /\ col_message t =
                  pystr "[Error transcribing voice note: " ++ name ++ pystr "]"
               /\ col_message_type t = system
               /\ col_media_filename t = Some name)).
Proof.
  unfold transcription_of.
  destruct (filter (has_media_filename name) df) as [|reference refs] eqn:Hf;
    [intros []|].
  assert (Href : In reference (filter (has_media_filename name) df))
    by (rewrite Hf; left; reflexivity).
  apply filter_In in Href. destruct Href as [Hin Hname].
  unfold has_media_filename in Hname.
  destruct (col_media_filename reference) as [f|] eqn:Hcol; [|discriminate].
  apply str_eqb_eq in Hname. subst f.
  destruct (transcribe w path) as [txt|e] eqn:Htr; intros [<-|[]];
    exists reference; simpl; repeat split; auto.
  - left. exists txt. auto.
  - right. exists e. auto.
Qed.

(** X10: with whisper installed and its model loaded, the call returns,
    even when transcribing a file fails.  It yields at most one
    transcription per file whose name ends in one of the four audio
    suffixes; each carries the timestamp and sender of a row of the chat
    whose media filename is that file's name, and is either a text row
    with the transcribed text and no filename, or, when transcribing
    raised, a row of type system that keeps the sender of that row and
    the filename. *)
Theorem transcriptions_follow_the_chat
        (w : whisper) (media_files : list (str * str)) (df : list row)
        (u : unit) :
  WHISPER_AVAILABLE w = true ->
  load_model w = Return u ->
  exists ts,
    transcribe_audio_files w media_files df = Return ts
    /\ length ts
       <= length (filter (fun file => is_audio_name (snd file)) media_files)
    /\ forall t, In t ts ->
         exists path name reference,
           In (path, name) media_files /\ is_audio_name name = true
           /\ In reference df /\ col_media_filename reference = Some name
           /\ timestamp t = timestamp reference
           /\ col_sender t = col_sender reference
           /\ ((exists transcribed_text,
                   transcribe w path = Return transcribed_text
                   /\ col_message t =
                      pystr "[Transcribed Voice Note]: " ++ transcribed_text
                   /\ col_message_type t = text
                   /\ col_media_filename t = None)
               \/ (exists e,
                      transcribe w path = Throw e
                      /\ col_message t =
                         pystr "[Error transcribing voice note: " ++ name
                         ++ pystr "]"
                      /\ col_message_type t = system
                      /\ col_media_filename t = Some name)).
Proof.
  intros Hav Hload. unfold transcribe_audio_files. rewrite Hav, Hload.
  cbn [negb]. eexists. split; [reflexivity|]. split.
  - generalize (filter (fun file => is_audio_name (snd file)) media_files).
    intros files. induction files as [|[path name] files IH];
      cbn [flat_map length]; [lia|].
    rewrite length_app.
    assert (length (transcription_of w df (path, name)) <= 1).
    { unfold transcription_of.
      destruct (filter (has_media_filename name) df); [simpl; lia|].
      destruct (transcribe w path); simpl; lia. }
    lia.
  - intros t Ht. apply in_flat_map in Ht.
    destruct Ht as ([path name] & Hfile & Ht).
    apply filter_In in Hfile. destruct Hfile as [Hfile Haudio].
    destruct (transcription_of_spec _ _ _ _ _ Ht)
      as (reference & Hin & Hname & Hts & Hs & Hcases).
    exists path, name, reference. repeat split; auto.
Qed.

Lemma transcriptions_follow_the_chat_witness :
  exists ts,
    transcribe_audio_files sample_whisper sample_media_files sample_chat
    = Return ts
    /\ length ts <= 2
    /\ map col_message_type ts = [text; system]
    /\ map col_sender ts = [pystr "Alice"; pystr "Bob"].
Proof.
  destruct (transcriptions_follow_the_chat sample_whisper sample_media_files
              sample_chat tt eq_refl eq_refl) as (ts & Hrun & Hlen & _).
  exists ts. split; [exact Hrun|]. split; [exact Hlen|].
  vm_compute in Hrun. injection Hrun as <-. split; reflexivity.
Defined.

(** X11: the parser and the transcription do not agree on what an audio
    attachment is.  A row that the parser typed [media], whose attachment
    name ends in one of the four audio suffixes and is among the files, is
    transcribed like a voice note, and since only voice-note rows are
    removed by the merge, the merged chat holds both the row itself and a
    transcription made for its file. *)
Theorem audio_attachment_kept_beside_its_transcription
        (w : whisper) (sort_rows : list row -> list row)
        (media_files : list (str * str)) (df ts : list row)
        (path name : str) (x : row) :
  sort_rows_ok sort_rows ->
  WHISPER_AVAILABLE w = true ->
  transcribe_audio_files w media_files df = Return ts ->
  In (path, name) media_files ->
  is_audio_name name = true ->
  In x df ->
  col_media_filename x = Some name ->
  col_message_type x = media ->
  In x (merge_transcriptions_into_chat sort_rows df ts)
  /\ exists t reference,
       In t (merge_transcriptions_into_chat sort_rows df ts)
       /\ t <> x
       /\ In reference df
       /\ col_media_filename reference = Some name
       /\ timestamp t = timestamp reference
       /\ col_sender t = col_sender reference
       /\ (col_message_type t = text \/ col_message_type t = system).
Proof.
  intros Hsort Hav Hrun Hfile Haudio Hx Hname Hty.
  unfold transcribe_audio_files in Hrun. rewrite Hav in Hrun. cbn [negb] in Hrun.
  destruct (load_model w) as [u|e]; [|discriminate].
  injection Hrun as <-.
  assert (Hsome : exists t, In t (transcription_of w df (path, name))).
  { unfold transcription_of.
    destruct (filter (has_media_filename name) df) as [|reference refs] eqn:Hf.
    - exfalso.
      assert (Hin : In x (filter (has_media_filename name) df)).
      { apply filter_In. split; [exact Hx|].
        unfold has_media_filename. rewrite Hname. apply str_eqb_eq. reflexivity. }
      rewrite Hf in Hin. destruct Hin.
    - destruct (transcribe w path); eexists; left; reflexivity. }
  destruct Hsome as [t Ht].
  set (ts := flat_map (transcription_of w df)
                      (filter (fun file => is_audio_name (snd file)) media_files)).
  assert (Hin_ts : In t ts).
  { apply in_flat_map. exists (path, name). split; [|exact Ht].
    apply filter_In. split; [exact Hfile|exact Haudio]. }
  assert (Hne : ts <> []) by (intros E; rewrite E in Hin_ts; destruct Hin_ts).
  destruct (merge_shape sort_rows df ts Hsort Hne) as [Hmerged _].
  split.
  - apply Hmerged. left. split; [exact Hx|]. rewrite Hty. discriminate.
  - destruct (transcription_of_spec _ _ _ _ _ Ht)
      as (reference & Hin & Href & Hts & Hs & Hcases).
    exists t, reference. split; [apply Hmerged; right; exact Hin_ts|].
    assert (Htype : col_message_type t = text \/ col_message_type t = system).
    { destruct Hcases as [(txt & _ & _ & Hc & _)|(e & _ & _ & Hc & _)]; auto. }
    repeat split; auto.
    intros ->. rewrite Hty in Htype. destruct Htype; discriminate.
Qed.

Lemma audio_attachment_kept_beside_its_transcription_witness :
  exists ts x t,
    transcribe_audio_files sample_whisper sample_media_files sample_chat
    = Return ts
    /\ col_media_filename x = Some (pystr "AUD-002.m4a")
    /\ In x (merge_transcriptions_into_chat isort_rows sample_chat ts)
    /\ In t (merge_transcriptions_into_chat isort_rows sample_chat ts)
    /\ t <> x.
Proof.
  destruct (transcribe_audio_files sample_whisper sample_media_files sample_chat)
    as [ts|e] eqn:Hrun; [|vm_compute in Hrun; discriminate].
  destruct (audio_attachment_kept_beside_its_transcription
              sample_whisper isort_rows sample_media_files sample_chat ts
              (pystr "/tmp/x/AUD-002.m4a") (pystr "AUD-002.m4a")
              (mkRow 200 (pystr "Bob") [] media (Some (pystr "AUD-002.m4a")))
              isort_rows_ok eq_refl Hrun)
    as (Hx & t & reference & Ht & Hne & _).
  - right. left. reflexivity.
  - vm_compute. reflexivity.
  - right. left. reflexivity.
  - reflexivity.
  - reflexivity.
  - exists ts, (mkRow 200 (pystr "Bob") [] media (Some (pystr "AUD-002.m4a"))), t.
    repeat split; auto.
Defined.

(* ===================================================================== *)
(** ** Finding the chat file *)
(* ===================================================================== *)

Lemma visit_directory_spec (o : os) (root : str) (files : list str) :
  forall txt chat,
    fold_left (visit_file o root) files (txt, chat)
    = (txt ++ txt_paths o (map (fun f => (root, f)) files),
       chat ++ chat_paths o (map (fun f => (root, f)) files)).
Proof.
  unfold txt_paths, chat_paths.
  induction files as [|file files IH]; intros txt chat; simpl.
  - rewrite !app_nil_r. reflexivity.
  - destruct (is_txt o file); simpl.
    + destruct (names_chat o file); simpl; rewrite IH, <- !app_assoc; reflexivity.
    + apply IH.
Qed.

Lemma walk_spec (o : os) (entries : list (str * list str)) :
  forall txt chat,
    fold_left (visit_directory o) entries (txt, chat)
    = (txt ++ txt_paths o
               (flat_map (fun entry => map (fun f => (fst entry, f)) (snd entry))
                         entries),
       chat ++ chat_paths o
                (flat_map (fun entry => map (fun f => (fst entry, f)) (snd entry))
                          entries)).
Proof.
  induction entries as [|[root files] entries IH]; intros txt chat; simpl.
  - rewrite !app_nil_r. reflexivity.
  - unfold visit_directory at 2. simpl fst. simpl snd.
    rewrite visit_directory_spec, IH.
    unfold txt_paths, chat_paths.
    rewrite !filter_app, !map_app, <- !app_assoc. reflexivity.
Qed.

(** The two lists of [find_chat_file] are the text files of the walk, and
    those among them whose name mentions the chat. *)
Lemma find_chat_file_lists (o : os) (dir : str) :
  find_chat_file o dir =
  match chat_paths o (walked_files o dir) with
  | selected_file :: _ => Return selected_file
  | [] =>
      match txt_paths o (walked_files o dir) with
      | selected_file :: _ => Return selected_file
      | [] => Throw (FileNotFoundError NO_TXT_FILE)
      end
  end.
Proof.
  unfold find_chat_file, walked_files. rewrite walk_spec. reflexivity.
Qed.

Lemma first_match {A B : Type} (p : A -> bool) (f : A -> B)
      (pre : list A) (x : A) (post : list A) :
  (forall y, In y pre -> p y = false) -> p x = true ->
  map f (filter p (pre ++ x :: post)) = f x :: map f (filter p post).
Proof.
  intros Hpre Hx. induction pre as [|y pre IH]; simpl.
  - rewrite Hx. reflexivity.
  - rewrite (Hpre y (or_introl eq_refl)). apply IH.
    intros z Hz. apply Hpre. right. exact Hz.
Qed.

Lemma no_match {A B : Type} (p : A -> bool) (f : A -> B) (l : list A) :
  (forall y, In y l -> p y = false) -> map f (filter p l) = [].
Proof.
  intros H. induction l as [|y l IH]; simpl; [reflexivity|].
  rewrite (H y (or_introl eq_refl)). apply IH.
  intros z Hz. apply H. right. exact Hz.
Qed.

(** X12: which file is taken for the chat.  The first file of the walk
    whose lowered name ends in ".txt" and contains "chat" wins, even when
    other text files come before it; when no text file mentions the chat,
    the first text file is taken; when the walk meets no text file at all,
    [FileNotFoundError] is raised. *)
Theorem find_chat_file_choice (o : os) (dir : str) :
  (forall before root file after,
      walked_files o dir = before ++ (root, file) :: after ->
      is_txt o file = true -> names_chat o file = true ->
      (forall rf, In rf before ->
                  (is_txt o (snd rf) && names_chat o (snd rf))%bool = false) ->
      find_chat_file o dir = Return (path_join o root file))
  /\ (forall before root file after,
         walked_files o dir = before ++ (root, file) :: after ->
         is_txt o file = true ->
         (forall rf, In rf before -> is_txt o (snd rf) = false) ->
         (forall rf, In rf (walked_files o dir) ->
                     (is_txt o (snd rf) && names_chat o (snd rf))%bool = false) ->
         find_chat_file o dir = Return (path_join o root file))
  /\ ((forall rf, In rf (walked_files o dir) -> is_txt o (snd rf) = false) ->
      find_chat_file o dir = Throw (FileNotFoundError NO_TXT_FILE)).
Proof.
  split; [|split].
  - intros before root file after Hw Htxt Hchat Hbefore.
    rewrite find_chat_file_lists. unfold chat_paths. rewrite Hw.
    rewrite (first_match _ _ before (root, file) after Hbefore).
    + reflexivity.
    + simpl. rewrite Htxt, Hchat. reflexivity.
  - intros before root file after Hw Htxt Hbefore Hnone.
    rewrite find_chat_file_lists. unfold chat_paths, txt_paths.
    rewrite (no_match _ _ _ Hnone). rewrite Hw.
    rewrite (first_match _ _ before (root, file) after Hbefore Htxt).
    reflexivity.
  - intros Hnone.
    rewrite find_chat_file_lists. unfold chat_paths, txt_paths.
    rewrite (no_match _ _ _ Hnone).
    rewrite (no_match (fun rf => (is_txt o (snd rf) && names_chat o (snd rf))%bool)).
    + reflexivity.
    + intros rf Hrf. rewrite (Hnone rf Hrf). reflexivity.
Qed.

Lemma find_chat_file_choice_witness :
  find_chat_file sample_os (pystr "/tmp/x")
  = Return (pystr "/tmp/x/sub/WhatsApp Chat.TXT").
Proof.
  apply (proj1 (find_chat_file_choice sample_os (pystr "/tmp/x"))
           [ (pystr "/tmp/x", pystr "notes.txt");
             (pystr "/tmp/x", pystr "PTT-001.opus") ]
           (pystr "/tmp/x/sub") (pystr "WhatsApp Chat.TXT") []).
  - vm_compute. reflexivity.
  - vm_compute. reflexivity.
  - vm_compute. reflexivity.
  - intros rf [<-|[<-|[]]]; vm_compute; reflexivity.
Defined.

(** X13: the media files are the files of the walk that are not text
    files, each with its joined path, in the order of the walk; so no
    file that [find_chat_file] could select is ever handed on as media,
    and text files and media files together are all the files. *)
Theorem find_media_files_are_the_other_files (o : os) (dir : str) :
  find_media_files o dir
  = map (fun rf => (path_join o (fst rf) (snd rf), snd rf))
        (filter (fun rf => negb (is_txt o (snd rf))) (walked_files o dir))
  /\ (forall path name, In (path, name) (find_media_files o dir) ->
                        is_txt o name = false)
  /\ length (find_media_files o dir) + length (txt_paths o (walked_files o dir))
     = length (walked_files o dir).
Proof.
  assert (Heq : find_media_files o dir
                = map (fun rf => (path_join o (fst rf) (snd rf), snd rf))
                      (filter (fun rf => negb (is_txt o (snd rf)))
                              (walked_files o dir))).
  { unfold find_media_files, walked_files.
    induction (os_walk o dir) as [|[root files] entries IH]; simpl; [reflexivity|].
    rewrite IH, filter_app, map_app. f_equal.
    clear. induction files as [|file files IH]; simpl; [reflexivity|].
    destruct (is_txt o file); simpl; rewrite IH; reflexivity. }
  split; [exact Heq|]. split.
  - intros path name Hin. rewrite Heq in Hin.
    apply in_map_iff in Hin. destruct Hin as ([root file] & [= <- <-] & Hin).
    apply filter_In in Hin. destruct Hin as [_ Hneg]. simpl in *.
    destruct (is_txt o file); [discriminate|reflexivity].
  - rewrite Heq. unfold txt_paths. rewrite !length_map. clear Heq.
    induction (walked_files o dir) as [|rf l IH]; simpl; [reflexivity|].
    destruct (is_txt o (snd rf)); simpl; lia.
Qed.

(* ===================================================================== *)
(** ** The LLM client factory *)
(* ===================================================================== *)

Section LlmFacts.
Variable Handle : Type.
Variable s : sdks Handle.
Variable error_text : py_error -> str.

Lemma initialize_client_configured (p : str) (k : option str) (h : Handle) :
  _initialize_client s p k = Return h -> configured s p k.
Proof.
  unfold _initialize_client, configured. intros H.
  destruct (str_eqb p GEMINI) eqn:Eg.
  { apply str_eqb_eq in Eg. left.
    destruct (GOOGLE_AVAILABLE s); [|discriminate].
    destruct (truthy k); [|discriminate]. auto. }
  destruct (str_eqb p OPENAI) eqn:Eo.
  { apply str_eqb_eq in Eo. right. left.
    destruct (OPENAI_AVAILABLE s); [|discriminate].
    destruct (truthy k); [|discriminate]. auto. }
  destruct (str_eqb p OLLAMA) eqn:El; [|discriminate].
  apply str_eqb_eq in El. right. right.
  destruct (OLLAMA_AVAILABLE s); [|discriminate]. auto.
Qed.

Lemma get_llm_client_built (p k : option str) (strict : bool)
      (client : LLMClient Handle) :
  get_llm_client s p k strict = Return (Some client) ->
  exists name h,
    p = Some name /\ client = mkLLMClient name k h
    /\ _initialize_client s name k = Return h.
Proof.
  unfold get_llm_client, LLMClient_init. intros H.
  destruct p as [[|c0 name]|]; try (destruct strict; discriminate).
  destruct (_initialize_client s (c0 :: name) k) as [h|e] eqn:Hinit;
    cbn [and_then] in H.
  - injection H as <-. eauto.
  - destruct e; try discriminate; destruct strict; discriminate.
Qed.

Lemma generate_insight_configured (client : LLMClient Handle) (prompt : str) :
  configured s (provider client) (api_key_or_url client) ->
  (exists text, generate_insight s error_text client prompt = Return (Some text))
  \/ (exists e,
         generate_insight s error_text client prompt
         = Throw (RuntimeError (pystr "Failed to generate insight from "
                                ++ provider client ++ pystr ": "
                                ++ error_text e))).
Proof.
  unfold generate_insight.
  intros [[-> _]|[[-> _]|[-> _]]]; cbn [str_eqb].
  - change (str_eqb GEMINI GEMINI) with true. cbv iota.
    destruct (gemini_generate s (_client client) prompt); cbn [and_then]; eauto.
  - change (str_eqb OPENAI GEMINI) with false.
    change (str_eqb OPENAI OPENAI) with true. cbv iota.
    destruct (openai_generate s (_client client) prompt); cbn [and_then]; eauto.
  - change (str_eqb OLLAMA GEMINI) with false.
    change (str_eqb OLLAMA OPENAI) with false.
    change (str_eqb OLLAMA OLLAMA) with true. cbv iota.
    destruct (ollama_generate s (_client client) prompt); cbn [and_then]; eauto.
Qed.

(** X14: a client handed out by [get_llm_client], strict or not, is for
    the requested provider and key, the provider is one of "gemini",
    "openai" and "ollama", the SDK of that provider was imported, and for
    Gemini and OpenAI the key is a non-empty string; Ollama is served
    without one. *)
Theorem factory_client_is_configured
        (p k : option str) (strict : bool) (client : LLMClient Handle) :
  get_llm_client s p k strict = Return (Some client) ->
  p = Some (provider client)
  /\ api_key_or_url client = k
  /\ configured s (provider client) k.
Proof.
  intros H. apply get_llm_client_built in H.
  destruct H as (name & h & -> & -> & Hinit). cbn [provider api_key_or_url].
  repeat split. exact (initialize_client_configured _ _ _ Hinit).
Qed.

(** X15: the two modes of [get_llm_client] differ only on configuration
    errors.  In strict mode it never returns [None]; otherwise it never
    raises [ImportError] or [ValueError], and returns [None] exactly when
    the strict call raises one of the two.  Both modes hand out the same
    clients and let the same other exceptions of the SDKs through. *)
Theorem strict_and_lenient_factory (p k : option str) :
  get_llm_client s p k true <> Return None
  /\ (forall msg,
         get_llm_client s p k false <> Throw (ImportError msg)
         /\ get_llm_client s p k false <> Throw (ValueError msg))
  /\ (get_llm_client s p k false = Return None <->
      exists msg,
        get_llm_client s p k true = Throw (ImportError msg)
        \/ get_llm_client s p k true = Throw (ValueError msg))
  /\ (forall client,
         get_llm_client s p k false = Return (Some client) <->
         get_llm_client s p k true = Return (Some client))
  /\ (forall e,
         get_llm_client s p k false = Throw e ->
         get_llm_client s p k true = Throw e).
Proof.
  unfold get_llm_client.
  destruct p as [[|c0 name]|].
  1, 3: repeat split; try discriminate; try (intros [msg [H|H]]; discriminate);
        eauto.
  destruct (LLMClient_init s (c0 :: name) k) as [client|[]];
    repeat split; try discriminate; try tauto;
    try (intros [msg' [H|H]]; discriminate); eauto.
Qed.

Lemma initialize_client_handle (p : str) (k : option str) (h : Handle) :
  _initialize_client s p k = Return h ->
  (p = GEMINI /\ gemini_model s k = Return h)
  \/ (p = OPENAI /\ openai_client s k = Return h)
  \/ (p = OLLAMA /\ ollama_client s k = Return h).
Proof.
  unfold _initialize_client. intros H.
  destruct (str_eqb p GEMINI) eqn:Eg.
  { apply str_eqb_eq in Eg. left.
    destruct (GOOGLE_AVAILABLE s); [|discriminate].
    destruct (truthy k); [|discriminate]. auto. }
  destruct (str_eqb p OPENAI) eqn:Eo.
  { apply str_eqb_eq in Eo. right. left.
    destruct (OPENAI_AVAILABLE s); [|discriminate].
    destruct (truthy k); [|discriminate]. auto. }
  destruct (str_eqb p OLLAMA) eqn:El; [|discriminate].
  apply str_eqb_eq in El. right. right.
  destruct (OLLAMA_AVAILABLE s); [|discriminate]. auto.
Qed.

(** X16: on a client handed out by [get_llm_client], [generate_insight]
    sends the prompt to the SDK of the client's provider, on the handle
    that this SDK built from the key.  It answers the text that the SDK
    returns; when the SDK raises an exception, it raises a
    [RuntimeError] whose message names the provider and carries the text
    of that exception.  It does not fall through to [None], and no other
    exception leaves it. *)
Theorem generate_insight_of_factory_client
        (p k : option str) (strict : bool) (client : LLMClient Handle)
        (prompt : str) :
  get_llm_client s p k strict = Return (Some client) ->
  exists generate,
    ((provider client = GEMINI
      /\ gemini_model s k = Return (_client client)
      /\ generate = gemini_generate s)
     \/ (provider client = OPENAI
         /\ openai_client s k = Return (_client client)
         /\ generate = openai_generate s)
     \/ (provider client = OLLAMA
         /\ ollama_client s k = Return (_client client)
         /\ generate = ollama_generate s))
    /\ generate_insight s error_text client prompt
       = match generate (_client client) prompt with
         | Return answer => Return (Some answer)
         | Throw e =>
             Throw (RuntimeError (pystr "Failed to generate insight from "
                                  ++ provider client ++ pystr ": "
                                  ++ error_text e))
         end.
Proof.
  intros H. apply get_llm_client_built in H.
  destruct H as (name & h & -> & -> & Hinit).
  cbn [provider _client].
  destruct (initialize_client_handle _ _ _ Hinit)
    as [[-> Hh]|[[-> Hh]|[-> Hh]]].
  - exists (gemini_generate s). split; [auto|].
    unfold generate_insight. cbn [provider _client].
    change (str_eqb GEMINI GEMINI) with true. cbv iota.
    destruct (gemini_generate s h prompt); reflexivity.
  - exists (openai_generate s). split; [auto|].
    unfold generate_insight. cbn [provider _client].
    change (str_eqb OPENAI GEMINI) with false.
    change (str_eqb OPENAI OPENAI) with true. cbv iota.
    destruct (openai_generate s h prompt); reflexivity.
  - exists (ollama_generate s). split; [auto 6|].
    unfold generate_insight. cbn [provider _client].
    change (str_eqb OLLAMA GEMINI) with false.
    change (str_eqb OLLAMA OPENAI) with false.
    change (str_eqb OLLAMA OLLAMA) with true. cbv iota.
    destruct (ollama_generate s h prompt); reflexivity.
Qed.

Lemma get_insights_text {B T L : Type}
      (generate_prompt : B -> T -> L -> outcome str)
      (generate_mock_summary : B -> T -> L -> str)
      (b : B) (t : T) (l : L) (llm_client : option (LLMClient Handle)) :
  (forall client, llm_client = Some client ->
                  configured s (provider client) (api_key_or_url client)) ->
  exists text,
    get_insights s error_text generate_prompt generate_mock_summary
                 b t l llm_client = Some text.
Proof.
  intros Hcfg. unfold get_insights.
  destruct llm_client as [client|]; [|eauto].
  destruct (generate_prompt b t l) as [prompt|e]; cbn [and_then]; [|eauto].
  destruct (generate_insight_configured client prompt (Hcfg client eq_refl))
    as [[text ->]|[e ->]]; eauto.
Qed.
End LlmFacts.

Lemma factory_client_is_configured_witness :
  exists client,
    get_llm_client sample_sdks (Some OLLAMA) None false = Return (Some client)
    /\ configured sample_sdks (provider client) None.
Proof.
  exists (mkLLMClient OLLAMA None tt). split; [reflexivity|].
  apply (factory_client_is_configured unit sample_sdks (Some OLLAMA) None false
           (mkLLMClient OLLAMA None tt)).
  reflexivity.
Defined.

Lemma generate_insight_of_factory_client_witness :
  generate_insight sample_sdks sample_error_text
                   (mkLLMClient OLLAMA None tt) (pystr "hello")
  = Throw (RuntimeError
             (pystr "Failed to generate insight from ollama: connection refused")).
Proof.
  destruct (generate_insight_of_factory_client unit sample_sdks
              sample_error_text (Some OLLAMA) None true
              (mkLLMClient OLLAMA None tt) (pystr "hello") eq_refl)
    as (generate & [(Hp & _)|[(Hp & _)|(_ & _ & ->)]] & ->);
    [discriminate Hp|discriminate Hp|reflexivity].
Defined.

(* ===================================================================== *)
(** ** The answers of the upload endpoint *)
(* ===================================================================== *)

Section UploadFacts.
Variables BasicStats TemporalStats LinguisticStats Handle : Type.
Variable c : collaborators BasicStats TemporalStats LinguisticStats.
Variable pd : pandas.
Variable fs : filesystem.
Variable o : os.
Variable w : whisper.
Variable s : sdks Handle.
Variable sort_rows : list row -> list row.

(** X17: a chat file in which the parser finds no message does not give
    the answer 400 that line 59 raises.  That exception is raised inside
    the [try], whose last handler catches every exception, so the client
    receives status 500 with the text of the 400 inside the detail. *)
Theorem empty_chat_is_answered_500
        (filename zip_content temp_dir chat_file_path : str) (lg : log)
        (enable_transcription enable_ai_insights : bool)
        (llm_provider llm_api_key_or_url : option str) :
  endswith (pystr ".zip") filename = true ->
  file_read c = Return zip_content ->
  extract_zip c zip_content = Return temp_dir ->
  find_chat_file o temp_dir = Return chat_file_path ->
  parse_chat_file pd fs chat_file_path = Ok ([], lg) ->
  upload_chat_and_analyze c pd fs o w s sort_rows filename
    enable_transcription enable_ai_insights llm_provider llm_api_key_or_url
  = Throw (HTTPException 500
             (UNEXPECTED ++ error_text c (HTTPException 400 COULD_NOT_PARSE))).
Proof.
  intros Hzip Hread Hextract Hfind Hparse.
  unfold upload_chat_and_analyze. rewrite Hzip, Hread. cbn [negb and_then].
  unfold upload_try. rewrite Hextract. cbn [and_then]. rewrite Hfind.
  cbn [and_then]. unfold call_parser. rewrite Hparse. reflexivity.
Qed.

(** X18: once the upload has been read, status 400 is answered exactly
    when the file name does not end in ".zip", with the detail about the
    file type; for a name ending in ".zip" the endpoint either answers
    with a result or raises an [HTTPException] of status 404 or 500, and
    no other exception escapes. *)
Theorem status_400_only_for_the_file_type
        (filename zip_content : str)
        (enable_transcription enable_ai_insights : bool)
        (llm_provider llm_api_key_or_url : option str) :
  file_read c = Return zip_content ->
  let answer :=
    upload_chat_and_analyze c pd fs o w s sort_rows filename
      enable_transcription enable_ai_insights llm_provider llm_api_key_or_url in
  (forall detail,
      answer = Throw (HTTPException 400 detail) <->
      endswith (pystr ".zip") filename = false /\ detail = INVALID_FILE_TYPE)
  /\ (endswith (pystr ".zip") filename = true ->
      (exists result, answer = Return result)
      \/ (exists status detail,
             answer = Throw (HTTPException status detail)
             /\ (status = 404 \/ status = 500))).
Proof.
  intros Hread answer. subst answer.
  unfold upload_chat_and_analyze. rewrite Hread.
  destruct (endswith (pystr ".zip") filename); cbn [negb and_then].
  - destruct (upload_try c pd fs o w s sort_rows zip_content
                         enable_transcription enable_ai_insights llm_provider
                         llm_api_key_or_url)
      as [result|[]]; simpl; split;
      try (intros detail'; split; [intros H|intros [H _]]; discriminate);
      intros _; eauto 7.
  - split; [|discriminate].
    intros detail. split.
    + intros H. injection H as <-. split; reflexivity.
    + intros [_ ->]. reflexivity.
Qed.

(** X19: an archive in which the walk meets no file whose lowered name
    ends in ".txt" is answered with status 404, the detail being the text
    of the [FileNotFoundError] of [find_chat_file]. *)
Theorem archive_without_txt_is_answered_404
        (filename zip_content temp_dir : str)
        (enable_transcription enable_ai_insights : bool)
        (llm_provider llm_api_key_or_url : option str) :
  endswith (pystr ".zip") filename = true ->
  file_read c = Return zip_content ->
  extract_zip c zip_content = Return temp_dir ->
  (forall rf, In rf (walked_files o temp_dir) -> is_txt o (snd rf) = false) ->
  upload_chat_and_analyze c pd fs o w s sort_rows filename
    enable_transcription enable_ai_insights llm_provider llm_api_key_or_url
  = Throw (HTTPException 404 (error_text c (FileNotFoundError NO_TXT_FILE))).
Proof.
  intros Hzip Hread Hextract Hnone.
  unfold upload_chat_and_analyze. rewrite Hzip, Hread. cbn [negb and_then].
  unfold upload_try. rewrite Hextract. cbn [and_then].
  rewrite find_chat_file_lists. unfold chat_paths, txt_paths.
  rewrite (no_match _ _ _ Hnone).
  rewrite (no_match (fun rf => (is_txt o (snd rf) && names_chat o (snd rf))%bool)).
  - reflexivity.
  - intros rf Hrf. rewrite (Hnone rf Hrf). reflexivity.
Qed.

(** X20: nothing the LLM side does fails the request.  When the chat has
    messages, transcription is off, and the analytics, the cleanup and the
    validation of the response go through, the endpoint answers with a
    result whose [insights] field holds a text, whether AI insights are
    enabled or not, whichever provider and key are sent and whatever the
    SDKs do: a missing provider, a missing SDK or key, and a failed
    generation all end up as text. *)
Theorem llm_side_never_fails_the_request
        (filename zip_content temp_dir chat_file_path : str)
        (df : list row) (lg : log)
        (b : BasicStats) (t : TemporalStats) (l : LinguisticStats)
        (u : unit) (enable_ai_insights : bool)
        (llm_provider llm_api_key_or_url : option str) :
  endswith (pystr ".zip") filename = true ->
  file_read c = Return zip_content ->
  extract_zip c zip_content = Return temp_dir ->
  find_chat_file o temp_dir = Return chat_file_path ->
  parse_chat_file pd fs chat_file_path = Ok (df, lg) ->
  df <> [] ->
  calculate_basic_stats c df = Return b ->
  calculate_temporal_stats c df = Return t ->
  calculate_linguistic_stats c df = Return l ->
  cleanup c temp_dir = Return u ->
  (forall result, validate c result = Return result) ->
  exists text,
    upload_chat_and_analyze c pd fs o w s sort_rows filename
      false enable_ai_insights llm_provider llm_api_key_or_url
    = Return (mkAnalysisResult b t l None (Some text)).
Proof.
  intros Hzip Hread Hextract Hfind Hparse Hdf Hb Ht Hl Hclean Hvalid.
  assert (Htext : exists text,
             insights_step c s enable_ai_insights llm_provider
                           llm_api_key_or_url b t l = Some text).
  { unfold insights_step. destruct enable_ai_insights.
    - destruct (get_llm_client s llm_provider llm_api_key_or_url true)
        as [llm_client|e] eqn:Hfactory; [|eauto].
      apply get_insights_text. intros client ->.
      apply get_llm_client_built in Hfactory.
      destruct Hfactory as (name & h & _ & -> & Hinit).
      exact (initialize_client_configured _ _ _ _ _ Hinit).
    - apply get_insights_text. discriminate. }
  destruct Htext as [text Htext]. exists text.
  unfold upload_chat_and_analyze. rewrite Hzip, Hread. cbn [negb and_then].
  unfold upload_try. rewrite Hextract. cbn [and_then]. rewrite Hfind.
  cbn [and_then]. unfold call_parser. rewrite Hparse. cbn [and_then].
  destruct df as [|x df]; [congruence|].
  cbn [and_then fst snd]. rewrite Hb. cbn [and_then]. rewrite Ht.
  cbn [and_then]. rewrite Hl. cbn [and_then]. rewrite Hclean.
  cbn [and_then]. rewrite Htext, Hvalid. reflexivity.
Qed.
End UploadFacts.

Lemma empty_chat_is_answered_500_witness :
  upload_chat_and_analyze sample_collaborators sample_pandas fs_without_header
    sample_os sample_whisper sample_sdks isort_rows (pystr "export.zip")
    true true None None
  = Throw (HTTPException 500
             (UNEXPECTED ++ pystr "400: " ++ COULD_NOT_PARSE)).
Proof.
  with_parse sample_pandas fs_without_header
             (pystr "/tmp/x/sub/WhatsApp Chat.TXT")
    ltac:(fun df lg =>
      apply (empty_chat_is_answered_500 nat nat nat unit
               sample_collaborators sample_pandas fs_without_header sample_os
               sample_whisper sample_sdks isort_rows (pystr "export.zip")
               (pystr "PK...") (pystr "/tmp/x")
               (pystr "/tmp/x/sub/WhatsApp Chat.TXT") lg
               true true None None));
    vm_compute; reflexivity.
Defined.

Lemma status_400_only_for_the_file_type_witness :
  upload_chat_and_analyze sample_collaborators sample_pandas
    fs_with_header sample_os sample_whisper sample_sdks isort_rows
    (pystr "export.rar") false false None None
  = Throw (HTTPException 400 INVALID_FILE_TYPE) <->
  endswith (pystr ".zip") (pystr "export.rar") = false
  /\ INVALID_FILE_TYPE = INVALID_FILE_TYPE.
Proof.
  exact (proj1 (status_400_only_for_the_file_type nat nat nat unit
                  sample_collaborators sample_pandas fs_with_header sample_os
                  sample_whisper sample_sdks isort_rows (pystr "export.rar")
                  (pystr "PK...") false false None None eq_refl)
               INVALID_FILE_TYPE).
Defined.

Lemma archive_without_txt_is_answered_404_witness :
  upload_chat_and_analyze sample_collaborators sample_pandas fs_with_header
    os_without_txt sample_whisper sample_sdks isort_rows (pystr "export.zip")
    false false None None
  = Throw (HTTPException 404 NO_TXT_FILE).
Proof.
  apply (archive_without_txt_is_answered_404 nat nat nat unit
           sample_collaborators sample_pandas fs_with_header os_without_txt
           sample_whisper sample_sdks isort_rows (pystr "export.zip")
           (pystr "PK...") (pystr "/tmp/x") false false None None);
    try reflexivity.
  intros rf [<-|[<-|[]]]; vm_compute; reflexivity.
Defined.

Lemma llm_side_never_fails_the_request_witness :
  exists text,
    upload_chat_and_analyze sample_collaborators sample_pandas fs_with_header
      sample_os sample_whisper sample_sdks isort_rows (pystr "export.zip")
      false true (Some OLLAMA) None
    = Return (mkAnalysisResult 1 1 1 None (Some text)).
Proof.
  with_parse sample_pandas fs_with_header
             (pystr "/tmp/x/sub/WhatsApp Chat.TXT")
    ltac:(fun df lg =>
      apply (llm_side_never_fails_the_request nat nat nat unit
               sample_collaborators sample_pandas fs_with_header sample_os
               sample_whisper sample_sdks isort_rows (pystr "export.zip")
               (pystr "PK...") (pystr "/tmp/x")
               (pystr "/tmp/x/sub/WhatsApp Chat.TXT")
               df lg 1 1 1 tt true (Some OLLAMA) None));
    try (vm_compute; reflexivity).
  discriminate.
Defined.

(* ===================================================================== *)
(** ** The basic statistics are consistent *)
(* ===================================================================== *)

Lemma unique_In (k : str) (l : list str) :
  In k (analytics.unique l) <-> In k l.
Proof.
  induction l as [|a l IH]; simpl; [tauto|].
  rewrite filter_In, IH. split.
  - intros [H|[H _]]; auto.
  - intros [H|H]; [auto|].
    destruct (str_eqb k a) eqn:E.
    + apply str_eqb_eq in E. auto.
    + right. auto.
Qed.

Lemma unique_NoDup (l : list str) : NoDup (analytics.unique l).
Proof.
  induction l as [|a l IH]; simpl; constructor.
  - rewrite filter_In. intros [_ H].
    rewrite (proj2 (str_eqb_eq a a) eq_refl) in H. discriminate.
  - apply NoDup_filter. exact IH.
Qed.

Lemma sum_by_sender_cons (g : row -> nat) (x : row) (l : list row)
      (keys : list str) :
  NoDup keys ->
  list_sum (map (fun k => list_sum (map g (analytics.rows_of k (x :: l)))) keys)
  = (if in_dec (list_eq_dec N.eq_dec) (col_sender x) keys then g x else 0)
    + list_sum (map (fun k => list_sum (map g (analytics.rows_of k l))) keys).
Proof.
  set (F := fun k => list_sum (map g (analytics.rows_of k (x :: l)))).
  set (G := fun k => list_sum (map g (analytics.rows_of k l))).
  assert (HF : forall k,
             F k = (if str_eqb (col_sender x) k then g x else 0) + G k).
  { intros k. unfold F, G, analytics.rows_of. cbn [filter].
    destruct (str_eqb (col_sender x) k); reflexivity. }
  induction keys as [|k ks IHk]; intros Hnd; [reflexivity|].
  inversion Hnd as [|? ? Hk Hks]; subst.
  change (list_sum (map F (k :: ks))) with (F k + list_sum (map F ks)).
  change (list_sum (map G (k :: ks))) with (G k + list_sum (map G ks)).
  rewrite (IHk Hks), HF.
  destruct (str_eqb (col_sender x) k) eqn:E.
  - apply str_eqb_eq in E. subst k.
    destruct (in_dec (list_eq_dec N.eq_dec) (col_sender x) ks) as [Hi|_]; [contradiction|].
    destruct (in_dec (list_eq_dec N.eq_dec) (col_sender x) (col_sender x :: ks)) as [_|Hn];
      [lia|exfalso; apply Hn; left; reflexivity].
  - assert (Hne : k <> col_sender x).
    { intros ->. rewrite (proj2 (str_eqb_eq _ _) eq_refl) in E.
      discriminate. }
    destruct (in_dec (list_eq_dec N.eq_dec) (col_sender x) ks) as [Hi|Hn];
      destruct (in_dec (list_eq_dec N.eq_dec) (col_sender x) (k :: ks)) as [Hi'|Hn'];
      try lia.
    + exfalso. apply Hn'. right. exact Hi.
    + destruct Hi' as [Hi'|Hi']; contradiction.
Qed.

(** Summing group by group is summing over the whole frame. *)
Lemma sum_by_sender (g : row -> nat) (keys : list str) (l : list row) :
  NoDup keys ->
  (forall x, In x l -> In (col_sender x) keys) ->
  list_sum (map (fun k => list_sum (map g (analytics.rows_of k l))) keys)
  = list_sum (map g l).
Proof.
  intros Hnd. induction l as [|x l IH]; intros Hin.
  - clear Hnd Hin. induction keys; simpl; auto.
  - rewrite (sum_by_sender_cons g x l keys Hnd).
    destruct (in_dec (list_eq_dec N.eq_dec) (col_sender x) keys) as [_|Hn].
    + rewrite IH; [reflexivity|]. intros y Hy. apply Hin. right. exact Hy.
    + exfalso. apply Hn. apply Hin. left. reflexivity.
Qed.

Lemma length_as_sum {A : Type} (l : list A) :
  list_sum (map (fun _ => 1) l) = length l.
Proof. induction l; simpl; auto. Qed.

Lemma user_rows_split (df : list row) :
  length (analytics.user_rows df)
  + length (filter (fun x => str_eqb (col_sender x) SYSTEM) df)
  = length df.
Proof.
  unfold analytics.user_rows.
  induction df as [|x df IH]; [reflexivity|].
  cbn [filter]. destruct (str_eqb (col_sender x) SYSTEM); simpl; lia.
Qed.

Lemma split_whitespace_app (a b cur : str) (c : char) :
  is_space c = true ->
  analytics.split_whitespace cur (a ++ c :: b)
  = analytics.split_whitespace cur a ++ analytics.split_whitespace [] b.
Proof.
  intros Hc. revert cur. induction a as [|x a IH]; intros cur.
  - cbn [app analytics.split_whitespace]. rewrite Hc.
    destruct cur; reflexivity.
  - cbn [app analytics.split_whitespace].
    destruct (is_space x).
    + destruct cur; rewrite IH; reflexivity.
    + apply IH.
Qed.

Lemma rows_of_user_rows (k : str) (df : list row) :
  str_eqb k SYSTEM = false ->
  analytics.rows_of k (analytics.user_rows df)
  = filter (fun x => str_eqb (col_sender x) k) df.
Proof.
  intros Hk. unfold analytics.rows_of, analytics.user_rows.
  induction df as [|y l IH]; [reflexivity|].
  cbn [filter].
  destruct (str_eqb (col_sender y) k) eqn:E.
  - assert (Hy : str_eqb (col_sender y) SYSTEM = false).
    { apply str_eqb_eq in E. rewrite E. exact Hk. }
    rewrite Hy. cbn [negb filter]. rewrite E, IH. reflexivity.
  - destruct (negb (str_eqb (col_sender y) SYSTEM)); cbn [filter];
      rewrite ?E; exact IH.
Qed.

Lemma user_sender (x : row) (df : list row) :
  In x (analytics.user_rows df) -> str_eqb (col_sender x) SYSTEM = false.
Proof.
  intros Hx. apply filter_In in Hx. destruct Hx as [_ Hx].
  destruct (str_eqb (col_sender x) SYSTEM); [discriminate|reflexivity].
Qed.

(** The empty frame is no special case for the integer entries. *)
Lemma calculate_basic_stats_eq (df : list row) :
  analytics.calculate_basic_stats df
  = let user_df := analytics.user_rows df in
    let senders := analytics.unique (map col_sender user_df) in
    analytics.mkStats
      (length user_df)
      (map (fun k => (k, length (analytics.rows_of k user_df))) senders)
      (list_sum (map analytics.word_count user_df))
      (map (fun k => (k, list_sum (map analytics.word_count
                                       (analytics.rows_of k user_df))))
           (analytics.sort_keys senders)).
Proof. destruct df; reflexivity. Qed.

Lemma insert_key_perm (k : str) (l : list str) :
  Permutation (analytics.insert_key k l) (k :: l).
Proof.
  induction l as [|k' l IH]; simpl; [reflexivity|].
  destruct (analytics.str_leb k k'); [reflexivity|].
  rewrite IH. apply perm_swap.
Qed.

Lemma sort_keys_perm (l : list str) : Permutation (analytics.sort_keys l) l.
Proof.
  induction l as [|k l IH]; simpl; [reflexivity|].
  rewrite insert_key_perm. constructor. exact IH.
Qed.

Lemma str_leb_total (a b : str) :
  analytics.str_leb a b = false -> analytics.str_leb b a = true.
Proof.
  revert b. induction a as [|x a IH]; intros [|y b]; simpl;
    try discriminate; try reflexivity.
  destruct (N.ltb x y) eqn:Hlt; [discriminate|].
  destruct (N.eqb x y) eqn:Heq.
  - apply N.eqb_eq in Heq. subst y. rewrite Hlt, N.eqb_refl. apply IH.
  - intros _. apply N.ltb_ge in Hlt. apply N.eqb_neq in Heq.
    assert (Hyx : N.ltb y x = true) by (apply N.ltb_lt; lia).
    rewrite Hyx. reflexivity.
Qed.

Lemma insert_key_sorted (k : str) (l : list str) :
  Sorted (fun a b => analytics.str_leb a b = true) l ->
  Sorted (fun a b => analytics.str_leb a b = true) (analytics.insert_key k l).
Proof.
  induction l as [|k' l IH]; intros Hs; simpl.
  - repeat constructor.
  - destruct (analytics.str_leb k k') eqn:E.
    + constructor; [exact Hs|]. constructor. exact E.
    + inversion Hs as [|? ? Hs' Hhd]; subst.
      constructor; [apply IH; exact Hs'|].
      destruct l as [|k'' l]; simpl.
      * constructor. apply str_leb_total. exact E.
      * destruct (analytics.str_leb k k''); constructor;
          [apply str_leb_total; exact E|].
        inversion Hhd; assumption.
Qed.

Lemma sort_keys_sorted (l : list str) :
  Sorted (fun a b => analytics.str_leb a b = true) (analytics.sort_keys l).
Proof.
  induction l as [|k l IH]; simpl; [constructor|].
  apply insert_key_sorted. exact IH.
Qed.

(** X21: the per-sender message counts add up to [total_messages], which
    counts every row whose sender is not literally "System", whatever its
    message type; together with the rows of sender "System" these are all
    the rows.  The keys of [messages_per_user] are distinct, none is
    "System", and each count is that of the sender's rows, at least 1. *)
Theorem message_counts_add_up (df : list row) :
  let st := analytics.calculate_basic_stats df in
  list_sum (map snd (analytics.messages_per_user st))
  = analytics.total_messages st
  /\ analytics.total_messages st
     + length (filter (fun x => str_eqb (col_sender x) SYSTEM) df)
     = length df
  /\ NoDup (map fst (analytics.messages_per_user st))
  /\ (forall k n,
         In (k, n) (analytics.messages_per_user st) ->
         k <> SYSTEM /\ 1 <= n
         /\ n = length (filter (fun x => str_eqb (col_sender x) k) df)).
Proof.
  cbn zeta. rewrite calculate_basic_stats_eq. cbn zeta.
  cbn [analytics.total_messages analytics.messages_per_user].
  rewrite !map_map. cbn [fst snd]. rewrite map_id.
  split; [|split; [|split]].
  - rewrite <- (length_as_sum (analytics.user_rows df)).
    rewrite <- (sum_by_sender (fun _ => 1) _ _
                  (unique_NoDup (map col_sender (analytics.user_rows df)))).
    + apply f_equal. apply map_ext. intros k. symmetry. apply length_as_sum.
    + intros x Hx. apply unique_In. apply in_map. exact Hx.
  - apply user_rows_split.
  - apply unique_NoDup.
  - intros k n H. apply in_map_iff in H. destruct H as (k' & Hk & Hin).
    injection Hk as -> <-. apply unique_In, in_map_iff in Hin.
    destruct Hin as (x & <- & Hx).
    pose proof (user_sender x df Hx) as Hsys.
    rewrite (rows_of_user_rows _ df Hsys).
    split; [|split; [|reflexivity]].
    + intros Heq. rewrite Heq in Hsys.
      rewrite (proj2 (str_eqb_eq _ _) eq_refl) in Hsys. discriminate.
    + assert (Hxin : In x (filter (fun y => str_eqb (col_sender y)
                                                    (col_sender x)) df)).
      { apply filter_In. apply filter_In in Hx. split; [apply Hx|].
        apply str_eqb_eq. reflexivity. }
      destruct (filter (fun y => str_eqb (col_sender y) (col_sender x)) df);
        [contradiction|simpl; lia].
Qed.

(** X22: the per-sender word counts add up to [total_words].  The keys
    of [words_per_user] stand in ascending order and are, up to order,
    the keys of [messages_per_user]; none is "System", and the count of a
    sender is the sum, over that sender's rows, of the number of
    whitespace-separated words of the message. *)
Theorem word_counts_add_up (df : list row) :
  let st := analytics.calculate_basic_stats df in
  list_sum (map snd (analytics.words_per_user st)) = analytics.total_words st
  /\ Sorted (fun a b => analytics.str_leb a b = true)
            (map fst (analytics.words_per_user st))
  /\ Permutation (map fst (analytics.words_per_user st))
                 (map fst (analytics.messages_per_user st))
  /\ (forall k n,
         In (k, n) (analytics.words_per_user st) ->
         k <> SYSTEM
         /\ n = list_sum
                  (map analytics.word_count
                       (filter (fun x => str_eqb (col_sender x) k) df))).
Proof.
  cbn zeta. rewrite calculate_basic_stats_eq. cbn zeta.
  cbn [analytics.total_words analytics.words_per_user
       analytics.messages_per_user].
  rewrite !map_map. cbn [fst snd]. rewrite !map_id.
  set (senders := analytics.unique (map col_sender (analytics.user_rows df))).
  assert (Hkey : forall k, In k (analytics.sort_keys senders) ->
                           str_eqb k SYSTEM = false).
  { intros k Hk. apply (Permutation_in _ (sort_keys_perm senders)) in Hk.
    apply unique_In, in_map_iff in Hk. destruct Hk as (x & <- & Hx).
    exact (user_sender x df Hx). }
  split; [|split; [|split]].
  - apply sum_by_sender.
    + apply (Permutation_NoDup (Permutation_sym (sort_keys_perm senders))).
      apply unique_NoDup.
    + intros x Hx.
      apply (Permutation_in _ (Permutation_sym (sort_keys_perm senders))).
      apply unique_In. apply in_map. exact Hx.
  - apply sort_keys_sorted.
  - apply sort_keys_perm.
  - intros k n H. apply in_map_iff in H. destruct H as (k' & Hk & Hin).
    injection Hk as -> <-. pose proof (Hkey _ Hin) as Hsys.
    rewrite (rows_of_user_rows _ df Hsys). split; [|reflexivity].
    intros Heq. rewrite Heq in Hsys.
    rewrite (proj2 (str_eqb_eq _ _) eq_refl) in Hsys. discriminate.
Qed.

(** X23: words are counted between whitespace: the words of two texts
    joined by a whitespace character are those of the first followed by
    those of the second, so their counts add; a message without any
    character other than whitespace, the empty message of a media row
    included, counts no word. *)
Theorem word_count_of_joined_texts (x : row) (a b : str) (c : char) :
  is_space c = true ->
  col_message x = a ++ c :: b ->
  analytics.split_whitespace [] (col_message x)
  = analytics.split_whitespace [] a ++ analytics.split_whitespace [] b
  /\ (forallb is_space a = true ->
      analytics.word_count x = length (analytics.split_whitespace [] b)).
Proof.
  intros Hc Hx. unfold analytics.word_count. rewrite Hx.
  rewrite (split_whitespace_app a b [] c Hc). split; [reflexivity|].
  intros Ha. rewrite length_app.
  replace (analytics.split_whitespace [] a) with (@nil str); [reflexivity|].
  clear Hx. induction a as [|y a IH]; [reflexivity|].
  cbn [forallb] in Ha. apply andb_true_iff in Ha. destruct Ha as [Hy Ha].
  cbn [analytics.split_whitespace]. rewrite Hy. exact (IH Ha).
Qed.

Lemma word_count_of_joined_texts_witness :
  analytics.split_whitespace [] (pystr "good  morning")
  = [pystr "good"; pystr "morning"].
Proof.
  exact (proj1 (word_count_of_joined_texts
                  (mkRow 0 (pystr "Alice") (pystr "good  morning") text None)
                  (pystr "good") (pystr " morning") 32%N
                  eq_refl eq_refl)).
Defined.
